(** * boom_tekst_omzetter: the readability engine of [text_utils.py]

    A shallow embedding of the scoring engine (tokenizer, sentence splitter,
    syllable counter, the AVI and REF scorers and the suggestion functions)
    together with the properties stated about it.

    Conventions of the embedding.
    - A Python [str] is a list of Unicode code points ([pystr]).
    - A Python [float] is an exact rational ([Q]): comparisons are exact,
      arithmetic is not rounded.
    - A Python [set] is a [gset], the histogram [Dict[int, int]] a [gmap];
      the static dictionaries are association lists in source order.
    - Exceptions are explicit: a computation of type [py A] either returns
      a value or raises.  The Python value [None] of an [Optional] result
      is [None] of [option]. *)

From Stdlib Require Import QArith ZArith NArith Lia Lqa.
From Stdlib Require Import Strings.String Strings.Ascii.
From stdpp Require Import base option list gmap sets.

Local Open Scope nat_scope.

(** ** Strings *)

Definition char := N.
Definition pystr := list char.

(** Source literals are written as UTF-8 text and decoded to code points. *)
Fixpoint utf8_decode (bs : list N) : pystr :=
  match bs with
  | [] => []
  | b0 :: r0 =>
    if (b0 <? 128)%N then b0 :: utf8_decode r0
    else
      match r0 with
      | [] => []
      | b1 :: r1 =>
        if (b0 <? 224)%N
        then ((b0 - 192) * 64 + (b1 - 128))%N :: utf8_decode r1
        else
          match r1 with
          | [] => []
          | b2 :: r2 =>
            if (b0 <? 240)%N
            then ((b0 - 224) * 4096 + (b1 - 128) * 64 + (b2 - 128))%N
                   :: utf8_decode r2
            else
              match r2 with
              | [] => []
              | b3 :: r3 =>
                ((b0 - 240) * 262144 + (b1 - 128) * 4096
                 + (b2 - 128) * 64 + (b3 - 128))%N :: utf8_decode r3
              end
          end
      end
  end.

Definition lit (s : string) : pystr :=
  utf8_decode (List.map N_of_ascii (list_ascii_of_string s)).

Definition char_in (c : char) (s : pystr) : bool :=
  existsb (N.eqb c) s.

Fixpoint str_eqb (a b : pystr) : bool :=
  match a, b with
  | [], [] => true
  | x :: a', y :: b' => N.eqb x y && str_eqb a' b'
  | _, _ => false
  end.

(** [x in xs] for a list of strings. *)
Definition str_in (x : pystr) (xs : list pystr) : bool :=
  existsb (str_eqb x) xs.

(** [str.isspace] for one character: the white space of CPython's
    [_PyUnicode_IsWhitespace]. *)
Definition is_space (c : char) : bool :=
  ((9 <=? c) && (c <=? 13) || (28 <=? c) && (c <=? 32)
   || (c =? 133) || (c =? 160) || (c =? 5760)
   || (8192 <=? c) && (c <=? 8202)
   || (c =? 8232) || (c =? 8233) || (c =? 8239) || (c =? 8287)
   || (c =? 12288))%N.

Fixpoint lstrip (s : pystr) : pystr :=
  match s with
  | [] => []
  | c :: s' => if is_space c then lstrip s' else s
  end.

Definition rstrip (s : pystr) : pystr := rev (lstrip (rev s)).

(** [s.strip()] *)
Definition strip (s : pystr) : pystr := rstrip (lstrip s).

(** The two pieces of Python's Unicode database the engine relies on:
    [str.lower] and the character class [\w] of the [re] module. *)
Class Unicode := {
  str_lower : pystr -> pystr;
  is_word : char -> bool
}.

(** An instance for Basic Latin and the Latin-1 Supplement, on which the
    concrete examples below are evaluated. *)
Definition latin1_lower_char (c : char) : char :=
  if ((65 <=? c) && (c <=? 90)
      || (192 <=? c) && (c <=? 222) && negb (c =? 215))%N
  then (c + 32)%N else c.

Definition latin1_is_word (c : char) : bool :=
  ((48 <=? c) && (c <=? 57) || (65 <=? c) && (c <=? 90) || (c =? 95)
   || (97 <=? c) && (c <=? 122)
   || (c =? 170) || (c =? 178) || (c =? 179) || (c =? 181) || (c =? 185)
   || (c =? 186) || (188 <=? c) && (c <=? 190)
   || (192 <=? c) && (c <=? 255) && negb (c =? 215) && negb (c =? 247))%N.

Definition latin1 : Unicode :=
  {| str_lower := List.map latin1_lower_char; is_word := latin1_is_word |}.

(** ** Exceptions *)

Inductive exn :=
| ZeroDivisionError
| IndexError
| KeyError (k : pystr).

Inductive py (A : Type) :=
| Ok (a : A)
| Raise (e : exn).
Arguments Ok {A} a.
Arguments Raise {A} e.

Definition py_bind {A B} (m : py A) (k : A -> py B) : py B :=
  match m with
  | Ok a => k a
  | Raise e => Raise e
  end.

#[export] Instance py_mbind : MBind py := fun A B k m => py_bind m k.
#[export] Instance py_mret : MRet py := fun A a => Ok a.

(** [a / b] on floats *)
Definition truediv (a b : Q) : py Q :=
  if Qeq_bool b 0 then Raise ZeroDivisionError else Ok (a / b)%Q.

Definition Qltb (a b : Q) : bool := negb (Qle_bool b a).

Definition Qnat (n : nat) : Q := inject_Z (Z.of_nat n).

(** ** Constants of the AVI model *)

Definition BILT_INTERCEPT : Q := 4321 # 100.
Definition BILT_COEF_FREQ : Q := - (23 # 100).
Definition BILT_COEF_WLEN : Q := 863 # 100.

Module Level.
Record t := mk {
  niveau : pystr;
  bilt_min : option Q;
  bilt_max : option Q;
  bilt_typical : Q;
  pct_freq : Q;
  gem_wlen : Q;
  max_lettergrepen : option nat;
  max_zinslengte : option nat;
  leeftijd : Q
}.
End Level.

Definition AVI_LEVELS : list Level.t :=
  [ Level.mk (lit "AVI-M3") None (Some (56#1)%Q) (51#1) (91#1) (33#10) (Some 1) (Some 6) (69#10);
    Level.mk (lit "AVI-E3") (Some (56#1)%Q) (Some (60#1)%Q) (58#1) (80#1) (39#10) (Some 2) (Some 7) (72#10);
    Level.mk (lit "AVI-M4") (Some (60#1)%Q) (Some (62#1)%Q) (61#1) (79#1) (41#10) (Some 3) (Some 8) (79#10);
    Level.mk (lit "AVI-E4") (Some (62#1)%Q) (Some (645#10)%Q) (63#1) (76#1) (44#10) (Some 4) (Some 9) (82#10);
    Level.mk (lit "AVI-M5") (Some (645#10)%Q) (Some (665#10)%Q) (65#1) (75#1) (45#10) None None (89#10);
    Level.mk (lit "AVI-E5") (Some (665#10)%Q) (Some (68#1)%Q) (67#1) (75#1) (48#10) None None (92#10);
    Level.mk (lit "AVI-M6") (Some (68#1)%Q) (Some (71#1)%Q) (69#1) (71#1) (49#10) None None (99#10);
    Level.mk (lit "AVI-E6") (Some (71#1)%Q) (Some (73#1)%Q) (72#1) (63#1) (50#10) None None (102#10);
    Level.mk (lit "AVI-M7") (Some (73#1)%Q) (Some (75#1)%Q) (74#1) (60#1) (51#10) None None (109#10);
    Level.mk (lit "AVI-E7") (Some (75#1)%Q) (Some (77#1)%Q) (76#1) (58#1) (52#10) None None (112#10);
    Level.mk (lit "AVI-Plus") (Some (77#1)%Q) None (79#1) (55#1) (53#10) None None (122#10) ].

Module Kenmerken.
Record t := mk {
  woordtypen : pystr;
  zinskenmerken : pystr;
  max_lettergrepen : option nat;
  max_zinslengte : option nat;
  voorbeelden : option (list pystr);
  nieuw : pystr;
  verboden : option pystr
}.
End Kenmerken.

Definition alleen_bilt : Kenmerken.t :=
  Kenmerken.mk (lit "Alle woordtypen, alleen BILT bepalend")
    (lit "Geen beperkingen") None None None
    (lit "Alle structuren toegestaan") None.

Definition AVI_KENMERKEN : list (pystr * Kenmerken.t) :=
  [ (lit "AVI-M3",
     Kenmerken.mk
       (lit "Alleen éénlettergrepige woorden (mkm-structuur: mak, pen, vis)")
       (lit "Zeer korte zinnen, max 5-6 woorden")
       (Some 1) (Some 6)
       (Some [lit "ik"; lit "pen"; lit "vis"; lit "mak"; lit "kom"; lit "bal"])
       (lit "Enkelvoudige mkm-woorden")
       (Some (lit "Tweelettergrepige woorden, medeklinkerclusters")));
    (lit "AVI-E3",
     Kenmerken.mk
       (lit "Éénlettergrepig plus sch-, -ng, -nk, eenvoudige tweelettergrepig")
       (lit "Korte zinnen, max 6-7 woorden")
       (Some 2) (Some 7)
       (Some [lit "school"; lit "bang"; lit "denk"; lit "mama"; lit "papa";
              lit "water"])
       (lit "sch-, -ng, -nk clusters, eenvoudige tweelettergrepige")
       (Some (lit "Voorvoegsels be-, ge-, ver-, ont-")));
    (lit "AVI-M4",
     Kenmerken.mk
       (lit "Voorvoegsels be-, ge-, verkleinwoorden -je, open/gesloten lettergrepen")
       (lit "Zinnen tot 8 woorden, eenvoudige bijzinnen")
       (Some 3) (Some 8)
       (Some [lit "begin"; lit "geluk"; lit "hondje"; lit "bloempje";
              lit "bomen"; lit "regen"])
       (lit "be-, ge-, verkleinwoorden, open lettergrepen")
       (Some (lit "Voorvoegsels ver-, ont-, achtervoegsels -heid, -lijk")));
    (lit "AVI-E4",
     Kenmerken.mk
       (lit "Voorvoegsels ver-, ont-, achtervoegsels -lijk, -ig, samenstellingen")
       (lit "Zinnen tot 9 woorden, betrekkelijke bijzinnen")
       (Some 4) (Some 9)
       (Some [lit "vertellen"; lit "ontdekken"; lit "vrolijk";
              lit "vriendelijk"; lit "zonnebloem"])
       (lit "ver-, ont-, -lijk, -ig, samenstellingen")
       (Some (lit "Complexe leenwoorden, abstracte begrippen")));
    (lit "AVI-M5",
     Kenmerken.mk
       (lit "Woorden met x, -tie, c als /k/, uitbreiding woordenschat")
       (lit "Geen beperkingen op zinslengte")
       None None
       (Some [lit "taxi"; lit "politie"; lit "computer"; lit "actie";
              lit "exact"])
       (lit "x, -tie, c als /k/")
       (Some (lit "Complexe leenwoorden met vreemde spelling")));
    (lit "AVI-E5",
     Kenmerken.mk
       (lit "Leenwoorden met eau, é, è, ch als /sj/")
       (lit "Geen beperkingen")
       None None
       (Some [lit "cadeau"; lit "café"; lit "crème"; lit "chocolade";
              lit "chauffeur"])
       (lit "eau, é, è, ch als /sj/")
       None);
    (lit "AVI-M6",
     Kenmerken.mk
       (lit "Woorden met trema, minder frequente leenwoorden")
       (lit "Geen beperkingen")
       None None
       (Some [lit "ideeën"; lit "geïnteresseerd"; lit "skiën";
              lit "egoïstisch"])
       (lit "Trema (ë, ï), uitgebreidere leenwoorden")
       None);
    (lit "AVI-E6", alleen_bilt);
    (lit "AVI-M7", alleen_bilt);
    (lit "AVI-E7", alleen_bilt);
    (lit "AVI-Plus", alleen_bilt) ].

(** ** Constants of the reference model *)

Definition REF_INTERCEPT : Q := - (23972 # 10000).
Definition REF_COEF_LONG_SENT : Q := 208 # 10000.
Definition REF_COEF_MARKER_DIV : Q := 3423 # 10000.
Definition REF_COEF_WL : Q := 5405 # 10000.
Definition REF_CUTOFF_1F_2F : Q := 125 # 100.
Definition REF_CUTOFF_2F_3F : Q := 235 # 100.

Module NiveauInfo.
Record t := mk {
  naam : pystr;
  wl_typical : Q;
  zl_typical : Q;
  long_sent_typical : Q
}.
End NiveauInfo.

Definition REF_NIVEAU_INFO : list (pystr * NiveauInfo.t) :=
  [ (lit "1F", NiveauInfo.mk (lit "Einde basisonderwijs / vmbo-bb")
                 (473 # 100) (109 # 10) (7 # 1));
    (lit "2F", NiveauInfo.mk (lit "Einde vmbo / mbo-2,3")
                 (491 # 100) (144 # 10) (15 # 1));
    (lit "3F", NiveauInfo.mk (lit "Einde havo / mbo-4")
                 (527 # 100) (174 # 10) (31 # 1)) ].

Definition DISCOURSE_MARKERS : list (pystr * list pystr) :=
  [ (lit "additief",
     [lit "en"; lit "ook"; lit "bovendien"; lit "daarnaast"; lit "verder";
      lit "tevens"; lit "eveneens"; lit "daarbij"]);
    (lit "temporeel",
     [lit "toen"; lit "daarna"; lit "vervolgens"; lit "eerst"; lit "dan";
      lit "later"; lit "eerder"; lit "voordat"; lit "nadat"; lit "terwijl";
      lit "zodra"; lit "inmiddels"; lit "intussen"; lit "uiteindelijk"]);
    (lit "causaal",
     [lit "omdat"; lit "doordat"; lit "want"; lit "daardoor"; lit "daarom";
      lit "dus"; lit "hierdoor"; lit "waardoor"; lit "aangezien";
      lit "immers"; lit "namelijk"]);
    (lit "contrastief",
     [lit "maar"; lit "echter"; lit "toch"; lit "hoewel"; lit "ondanks";
      lit "terwijl"; lit "daarentegen"; lit "integendeel"; lit "niettemin";
      lit "desondanks"; lit "weliswaar"]);
    (lit "conclusief",
     [lit "kortom"; lit "samengevat"; lit "concluderend"; lit "samenvattend";
      lit "aldus"; lit "derhalve"; lit "tenslotte"; lit "tot slot"]) ].

(** Python dictionaries with string keys, as the static tables are. *)
Fixpoint dict_get {V} (d : list (pystr * V)) (k : pystr) : option V :=
  match d with
  | [] => None
  | (k', v) :: d' => if str_eqb k' k then Some v else dict_get d' k
  end.

(** [d[k]] *)
Definition dict_index {V} (d : list (pystr * V)) (k : pystr) : py V :=
  match dict_get d k with
  | Some v => Ok v
  | None => Raise (KeyError k)
  end.

(** ** Helper functions *)

Definition klinkers : pystr :=
  Eval vm_compute in lit "aeiouáéíóúàèìòùäëïöüâêîôûy".

(** The two nested [while] loops of [tel_lettergrepen], each as a function
    of the part of the word that is still to be read ([woord[i:]]); the
    result is the number of increments of [lettergrepen].  When the inner
    loop stops at a character that is no vowel, the outer loop takes its
    [else] branch on that same character, which is the last case of
    [klinker_run]. *)
Fixpoint tel_loop (rest : pystr) : nat :=
  match rest with
  | [] => 0
  | c :: rest' =>
    if char_in c klinkers then S (klinker_run rest') else tel_loop rest'
  end
with klinker_run (rest : pystr) : nat :=
  match rest with
  | [] => 0
  | c :: rest' =>
    if char_in c klinkers then klinker_run rest' else tel_loop rest'
  end.

(** [re.findall(r'\b\w+\b', s)]: the maximal runs of word characters;
    [acc] holds the current run, last character first. *)
Fixpoint findall_words `{Unicode} (acc : pystr) (s : pystr) : list pystr :=
  match s with
  | [] => match acc with [] => [] | _ => [rev acc] end
  | c :: s' =>
    if is_word c then findall_words (c :: acc) s'
    else match acc with
         | [] => findall_words [] s'
         | _ => rev acc :: findall_words [] s'
         end
  end.

Definition is_punct (c : char) : bool :=
  char_in c (lit ".!?").

(** [re.split(r'[.!?]+', s)]: the pieces between the runs of separators,
    empty pieces at the ends included. *)
Fixpoint re_split (acc : pystr) (s : pystr) : list pystr :=
  match s with
  | [] => [rev acc]
  | c :: s' =>
    if is_punct c then rev acc :: skip_punct s' else re_split (c :: acc) s'
  end
with skip_punct (s : pystr) : list pystr :=
  match s with
  | [] => [[]]
  | c :: s' => if is_punct c then skip_punct s' else re_split [c] s'
  end.

Section Helpers.
Context `{Unicode}.

Definition tel_lettergrepen (woord : pystr) : nat :=
  let woord := strip (str_lower woord) in
  match woord with
  | [] => 0
  | _ => Nat.max 1 (tel_loop woord)
  end.

Definition tokenize (text : pystr) : list pystr :=
  findall_words [] (str_lower text).

Definition split_sentences (text : pystr) : list pystr :=
  let sentences := re_split [] text in
  List.map strip
    (List.filter
       (fun s => negb (str_eqb (strip s) []) && (5 <? length (strip s)))
       sentences).
End Helpers.

(** ** Result records *)

Module LangeZin.
Record t := mk { tekst : pystr; woorden : nat }.
End LangeZin.

Module AVIResult.
Record t := mk {
  bilt : Q;
  niveau : pystr;
  totaal_woorden : nat;
  gem_woordlengte : Q;
  pct_frequent : Q;
  gem_zinslengte : Q;
  lettergreep_verdeling : gmap nat nat;
  te_lange_woorden : list (pystr * nat);
  te_lange_zinnen : list LangeZin.t
}.
End AVIResult.

Module REFResult.
Record t := mk {
  niveau : pystr;
  score : Q;
  confidence : pystr;
  totaal_woorden : nat;
  gem_woordlengte : Q;
  gem_zinslengte : Q;
  pct_frequent : Q;
  long_sent_ratio : Q;
  marker_diversity : nat
}.
End REFResult.

(** ** Band assignment *)

(** A band limit after [level['bilt_min'] or float('-inf')]. *)
Inductive grens :=
| MinInf
| Eindig (q : Q)
| PlusInf.

(** [x or d]: [None] and [0.0] are both false. *)
Definition of_anders (x : option Q) (d : grens) : grens :=
  match x with
  | None => d
  | Some q => if Qeq_bool q 0 then d else Eindig q
  end.

Definition grens_le (g : grens) (x : Q) : bool :=
  match g with
  | MinInf => true
  | Eindig q => Qle_bool q x
  | PlusInf => false
  end.

Definition lt_grens (x : Q) (g : grens) : bool :=
  match g with
  | MinInf => false
  | Eindig q => Qltb x q
  | PlusInf => true
  end.

(** [bilt_min <= bilt < bilt_max] for one record of [AVI_LEVELS]. *)
Definition in_band (level : Level.t) (bilt : Q) : bool :=
  let bilt_min := of_anders (Level.bilt_min level) MinInf in
  let bilt_max := of_anders (Level.bilt_max level) PlusInf in
  grens_le bilt_min bilt && lt_grens bilt bilt_max.

(** The [for] loop of [_bepaal_avi_niveau] over the records still to be
    visited; the empty list is the fall-through [return 'AVI-Plus']. *)
Fixpoint bepaal_scan (levels : list Level.t) (bilt : Q) : pystr :=
  match levels with
  | [] => lit "AVI-Plus"
  | level :: levels' =>
    if in_band level bilt then Level.niveau level
    else bepaal_scan levels' bilt
  end.

Definition _bepaal_avi_niveau (bilt : Q) : pystr :=
  bepaal_scan AVI_LEVELS bilt.

(** The expression that [analyse_avi] assigns to [bilt]. *)
Definition bilt_formule (pct_frequent gem_woordlengte : Q) : Q :=
  (BILT_INTERCEPT + BILT_COEF_FREQ * pct_frequent
   + BILT_COEF_WLEN * gem_woordlengte)%Q.

(** ** Truth values of optional table entries *)

Definition waar_int (x : option nat) : bool :=
  match x with
  | Some (S _) => true
  | _ => false
  end.

Definition waar_str (x : option pystr) : bool :=
  match x with
  | Some (_ :: _) => true
  | _ => false
  end.

(** [sum(...)] over natural numbers *)
Definition som (l : list nat) : nat := fold_right Nat.add 0 l.

(** The sum of the values of a histogram. *)
Definition som_waarden (m : gmap nat nat) : nat :=
  map_fold (fun _ v acc => v + acc) 0 m.

(** ** The analyser *)

Section Analyzer.
Context `{Unicode}.
(** [self.woordenlijst]; the empty set is what [_laad_woordenlijst]
    returns when loading fails. *)
Variable woordenlijst : gset pystr.

(** [sum(1 for t in tokens if t in self.woordenlijst)] *)
Definition freq_count (tokens : list pystr) : nat :=
  length (List.filter (fun t => bool_decide (t ∈ woordenlijst)) tokens).

(** The frequent-word percentage with the fallback [anders]. *)
Definition pct_frequent_of (tokens : list pystr) (anders : Q) : py Q :=
  if bool_decide (woordenlijst ≠ ∅) then
    q ← truediv (Qnat (freq_count tokens)) (Qnat (length tokens));
    mret (q * 100)%Q
  else mret anders.

(** [sentence_lengths] and [gem_zinslengte] *)
Definition zinslengtes (sentences : list pystr) (totaal_woorden : nat)
  : py (list nat * Q) :=
  match sentences with
  | _ :: _ =>
    let sentence_lengths :=
      List.map (fun s => length (tokenize s)) sentences in
    g ← truediv (Qnat (som sentence_lengths))
                (Qnat (length sentence_lengths));
    mret (sentence_lengths, g)
  | [] => mret ([totaal_woorden], Qnat totaal_woorden)
  end.

(** The loop that fills [verdeling]. *)
Definition verdeling_stap (verdeling : gmap nat nat) (woord : pystr)
  : gmap nat nat :=
  let lg := tel_lettergrepen woord in
  <[lg := default 0 (verdeling !! lg) + 1]> verdeling.

Definition verdeling_van (tokens : list pystr) : gmap nat nat :=
  fold_left verdeling_stap tokens ∅.

(** The loop over [tokens] under [if max_lg:]; the state is
    [(te_lange_woorden, gezien)]. *)
Definition te_lang_stap (max_lg : nat)
    (st : list (pystr * nat) * gset pystr) (woord : pystr)
  : list (pystr * nat) * gset pystr :=
  let '(te_lange_woorden, gezien) := st in
  if bool_decide (woord ∈ gezien) then st
  else
    let lg := tel_lettergrepen woord in
    if max_lg <? lg
    then (te_lange_woorden ++ [(woord, lg)], gezien ∪ {[woord]})
    else st.

Definition te_lange_woorden_van (max_lg : option nat)
    (tokens : list pystr) : list (pystr * nat) :=
  if waar_int max_lg
  then fst (fold_left (te_lang_stap (default 0 max_lg)) tokens ([], ∅))
  else [].

(** The loop over [sentences] under [if max_zin:]. *)
Definition te_lange_zinnen_van (max_zin : option nat)
    (sentences : list pystr) : list LangeZin.t :=
  if waar_int max_zin
  then
    omap (fun s =>
            let wc := length (tokenize s) in
            if default 0 max_zin <? wc
            then Some (LangeZin.mk (take 80 s) wc) else None)
         sentences
  else [].

Definition analyse_avi (tekst : pystr) (target_niveau : option pystr)
  : py (option AVIResult.t) :=
  let tokens := tokenize tekst in
  let sentences := split_sentences tekst in
  if match tokens with [] => true | _ => false end
     || (length tokens <? 10)
  then mret None
  else
    let totaal_woorden := length tokens in
    gem_woordlengte ←
      truediv (Qnat (som (List.map (fun t => length t) tokens)))
              (Qnat totaal_woorden);
    pct_frequent ← pct_frequent_of tokens (70 # 1);
    zl ← zinslengtes sentences totaal_woorden;
    let gem_zinslengte := snd zl in
    let bilt := bilt_formule pct_frequent gem_woordlengte in
    let niveau := _bepaal_avi_niveau bilt in
    let verdeling := verdeling_van tokens in
    let '(te_lange_woorden, te_lange_zinnen) :=
      if waar_str target_niveau then
        let kenmerken := dict_get AVI_KENMERKEN (default [] target_niveau) in
        let max_lg := kenmerken ≫= Kenmerken.max_lettergrepen in
        let max_zin := kenmerken ≫= Kenmerken.max_zinslengte in
        (te_lange_woorden_van max_lg tokens,
         te_lange_zinnen_van max_zin sentences)
      else ([], []) in
    mret (Some (AVIResult.mk bilt niveau totaal_woorden gem_woordlengte
                  pct_frequent gem_zinslengte verdeling
                  te_lange_woorden te_lange_zinnen)).

(** The loops that fill [marker_types], a set of category names. *)
Definition marker_stap (t : pystr) (marker_types : gset pystr)
    (item : pystr * list pystr) : gset pystr :=
  let '(mtype, markers) := item in
  if str_in t markers then marker_types ∪ {[mtype]} else marker_types.

Definition marker_types_van (tokens : list pystr) : gset pystr :=
  fold_left (fun marker_types t =>
               fold_left (marker_stap t) DISCOURSE_MARKERS marker_types)
            tokens ∅.

(** The [if]/[elif]/[else] of [analyse_ref] on [score]:
    [(niveau, confidence)]. *)
Definition ref_indeling (score : Q) : pystr * pystr :=
  if Qltb score REF_CUTOFF_1F_2F then
    (lit "1F", if Qltb score 1 then lit "Hoog" else lit "Gemiddeld")
  else if Qltb score REF_CUTOFF_2F_3F then
    (lit "2F",
     if Qle_bool (15 # 10) score && Qle_bool score (21 # 10)
     then lit "Hoog" else lit "Gemiddeld (grensgebied)")
  else
    (lit "3F",
     if Qltb (27 # 10) score then lit "Hoog" else lit "Gemiddeld").

(** The expression that [analyse_ref] assigns to [score]. *)
Definition ref_score (long_sent_pct : Q) (marker_diversity : nat)
    (gem_woordlengte : Q) : Q :=
  (REF_INTERCEPT + REF_COEF_LONG_SENT * long_sent_pct
   + REF_COEF_MARKER_DIV * Qnat marker_diversity
   + REF_COEF_WL * gem_woordlengte)%Q.

Definition analyse_ref (tekst : pystr) : py (option REFResult.t) :=
  let tokens := tokenize tekst in
  let sentences := split_sentences tekst in
  if match tokens with [] => true | _ => false end
     || (length tokens <? 20)
  then mret None
  else
    let totaal_woorden := length tokens in
    gem_woordlengte ←
      truediv (Qnat (som (List.map (fun t => length t) tokens)))
              (Qnat totaal_woorden);
    zl ← zinslengtes sentences totaal_woorden;
    let sentence_lengths := fst zl in
    let gem_zinslengte := snd zl in
    long_sent_ratio ←
      truediv (Qnat (length (List.filter (fun l => 20 <? l)
                                         sentence_lengths)))
              (Qnat (length sentence_lengths));
    let long_sent_pct := (long_sent_ratio * 100)%Q in
    let marker_diversity := size (marker_types_van tokens) in
    pct_frequent ← pct_frequent_of tokens (65 # 1);
    let score := ref_score long_sent_pct marker_diversity gem_woordlengte in
    let '(niveau, confidence) := ref_indeling score in
    mret (Some (REFResult.mk niveau score confidence totaal_woorden
                  gem_woordlengte gem_zinslengte pct_frequent
                  long_sent_ratio marker_diversity)).
End Analyzer.

(** ** Suggestions

    Every advice line is an f-string; it is represented by its template (one
    constructor per template) and the values that are interpolated. *)
Inductive suggestie :=
(* get_avi_suggesties, target below the current band *)
| AviKortereWoorden (huidig doel : Q)
| AviFrequentereWoorden (nu doel : Q)
| AviMaxLettergrepen (n : nat)
| AviKortereZinnen (n : nat)
| AviVermijd (verboden : pystr)
(* get_avi_suggesties, otherwise *)
| AviLangereWoorden (huidig doel : Q)
| AviMinderFrequenteWoorden (nu doel : Q)
| AviNieuwToegestaan (nieuw : pystr)
(* get_avi_suggesties, always *)
| AviWoordtypen (target woordtypen : pystr)
(* get_ref_suggesties, target below the current band *)
| RefKortereWoorden (huidig doel : Q)
| RefKortereZinnen (huidig doel : Q)
| RefMinderLangeZinnen (nu doel : Q)
| RefTipEenvoudig
(* get_ref_suggesties, otherwise *)
| RefLangereWoorden (huidig doel : Q)
| RefLangereZinnen (huidig doel : Q)
| RefMeerLangeZinnen (nu doel : Q)
| RefMeerSignaalwoorden
| RefTipVerrijk.

(** [suggesties.append(x)] under [if c]. *)
Definition als (c : bool) (x : suggestie) : list suggestie :=
  if c then [x] else [].

(** [next((i for i, l in enumerate(AVI_LEVELS) if l['niveau'] == n), 5)] *)
Fixpoint eerste_index (levels : list Level.t) (n : pystr) (i : nat)
  : option nat :=
  match levels with
  | [] => None
  | l :: levels' =>
    if str_eqb (Level.niveau l) n then Some i
    else eerste_index levels' n (S i)
  end.

Definition level_index (n : pystr) : nat :=
  default 5 (eerste_index AVI_LEVELS n 0).

(** [xs[i]] for a non-negative index. *)
Definition list_index {A} (xs : list A) (i : nat) : py A :=
  match xs !! i with
  | Some x => Ok x
  | None => Raise IndexError
  end.

(** The two branches of [get_avi_suggesties]. *)
Definition avi_eenvoudiger (result : AVIResult.t) (target_specs : Level.t)
    (target_kenmerken : option Kenmerken.t) : list suggestie :=
  als (Qltb (Level.gem_wlen target_specs) (AVIResult.gem_woordlengte result))
      (AviKortereWoorden (AVIResult.gem_woordlengte result)
                         (Level.gem_wlen target_specs))
  ++ als (Qltb (AVIResult.pct_frequent result) (Level.pct_freq target_specs))
         (AviFrequentereWoorden (AVIResult.pct_frequent result)
                                (Level.pct_freq target_specs))
  ++ (let m := target_kenmerken ≫= Kenmerken.max_lettergrepen in
      als (waar_int m) (AviMaxLettergrepen (default 0 m)))
  ++ (let m := target_kenmerken ≫= Kenmerken.max_zinslengte in
      als (waar_int m) (AviKortereZinnen (default 0 m)))
  ++ (let v := target_kenmerken ≫= Kenmerken.verboden in
      als (waar_str v) (AviVermijd (default [] v))).

Definition avi_moeilijker (result : AVIResult.t) (target_specs : Level.t)
    (target_kenmerken : option Kenmerken.t) : list suggestie :=
  als (Qltb (AVIResult.gem_woordlengte result) (Level.gem_wlen target_specs))
      (AviLangereWoorden (AVIResult.gem_woordlengte result)
                         (Level.gem_wlen target_specs))
  ++ als (Qltb (Level.pct_freq target_specs) (AVIResult.pct_frequent result))
         (AviMinderFrequenteWoorden (AVIResult.pct_frequent result)
                                    (Level.pct_freq target_specs))
  ++ (let n := Kenmerken.nieuw <$> target_kenmerken in
      als (waar_str n) (AviNieuwToegestaan (default [] n))).

Definition get_avi_suggesties (result : AVIResult.t) (target : pystr)
  : py (list suggestie) :=
  let current_idx := level_index (AVIResult.niveau result) in
  let target_idx := level_index target in
  target_specs ← list_index AVI_LEVELS target_idx;
  let target_kenmerken := dict_get AVI_KENMERKEN target in
  let suggesties :=
    if target_idx <? current_idx
    then avi_eenvoudiger result target_specs target_kenmerken
    else avi_moeilijker result target_specs target_kenmerken in
  let w := Kenmerken.woordtypen <$> target_kenmerken in
  mret (suggesties ++ als (waar_str w) (AviWoordtypen target (default [] w))).

(** [niveau_order] of [get_ref_suggesties] *)
Definition niveau_order : list (pystr * nat) :=
  [ (lit "1F", 1); (lit "2F", 2); (lit "3F", 3) ].

(** The two branches of [get_ref_suggesties]. *)
Definition ref_eenvoudiger (result : REFResult.t) (target_info : NiveauInfo.t)
  : list suggestie :=
  als (Qltb (NiveauInfo.wl_typical target_info + (2 # 10))
            (REFResult.gem_woordlengte result))
      (RefKortereWoorden (REFResult.gem_woordlengte result)
                         (NiveauInfo.wl_typical target_info))
  ++ als (Qltb (NiveauInfo.zl_typical target_info + 2)
               (REFResult.gem_zinslengte result))
         (RefKortereZinnen (REFResult.gem_zinslengte result)
                           (NiveauInfo.zl_typical target_info))
  ++ als (Qltb (NiveauInfo.long_sent_typical target_info + 5)
               (REFResult.long_sent_ratio result * 100))
         (RefMinderLangeZinnen (REFResult.long_sent_ratio result * 100)
                               (NiveauInfo.long_sent_typical target_info))
  ++ [RefTipEenvoudig].

Definition ref_moeilijker (result : REFResult.t) (target_info : NiveauInfo.t)
  : list suggestie :=
  als (Qltb (REFResult.gem_woordlengte result)
            (NiveauInfo.wl_typical target_info - (2 # 10)))
      (RefLangereWoorden (REFResult.gem_woordlengte result)
                         (NiveauInfo.wl_typical target_info))
  ++ als (Qltb (REFResult.gem_zinslengte result)
               (NiveauInfo.zl_typical target_info - 2))
         (RefLangereZinnen (REFResult.gem_zinslengte result)
                           (NiveauInfo.zl_typical target_info))
  ++ als (Qltb (REFResult.long_sent_ratio result * 100)
               (NiveauInfo.long_sent_typical target_info - 5))
         (RefMeerLangeZinnen (REFResult.long_sent_ratio result * 100)
                             (NiveauInfo.long_sent_typical target_info))
  ++ als (REFResult.marker_diversity result <? 4) RefMeerSignaalwoorden
  ++ [RefTipVerrijk].

Definition get_ref_suggesties (result : REFResult.t) (target : pystr)
  : py (list suggestie) :=
  target_info ← dict_index REF_NIVEAU_INFO target;
  t ← dict_index niveau_order target;
  c ← dict_index niveau_order (REFResult.niveau result);
  mret (if t <? c
        then ref_eenvoudiger result target_info
        else ref_moeilijker result target_info).

(** * Definitions used in the statements *)

(** [min <= bilt < max], an absent limit read as no limit. *)
Definition past (level : Level.t) (bilt : Q) : Prop :=
  match Level.bilt_min level with
  | None => True
  | Some m => (m <= bilt)%Q
  end
  /\ match Level.bilt_max level with
     | None => True
     | Some M => (bilt < M)%Q
     end.

(** No limit of the table is [0.0], which [or] would take for absent. *)
Definition grenzen_niet_nul (level : Level.t) : bool :=
  match Level.bilt_min level with
  | Some q => negb (Qeq_bool q 0)
  | None => true
  end
  && match Level.bilt_max level with
     | Some q => negb (Qeq_bool q 0)
     | None => true
     end.

(** The values an analysis computes when no division raises, which is
    shown below to be always the case: each divisor is a length that the
    guards before it make positive. *)
Section ClosedForm.

Context `{Unicode}.

Variable woordenlijst : gset pystr.

Definition gem_woordlengte_van (tokens : list pystr) : Q :=
  (Qnat (som (List.map (fun t => length t) tokens))
   / Qnat (length tokens))%Q.

Definition pct_waarde (tokens : list pystr) (anders : Q) : Q :=
  if bool_decide (woordenlijst ≠ ∅)
  then (Qnat (freq_count woordenlijst tokens) / Qnat (length tokens)
        * 100)%Q
  else anders.

Definition zinslengtes_waarde (sentences : list pystr)
    (totaal_woorden : nat) : list nat * Q :=
  match sentences with
  | [] => ([totaal_woorden], Qnat totaal_woorden)
  | _ :: _ =>
    let sentence_lengths :=
      List.map (fun s => length (tokenize s)) sentences in
    (sentence_lengths,
     (Qnat (som sentence_lengths) / Qnat (length sentence_lengths))%Q)
  end.

Definition te_lang_waarde (target_niveau : option pystr)
    (tokens sentences : list pystr)
  : list (pystr * nat) * list LangeZin.t :=
  if waar_str target_niveau then
    let kenmerken := dict_get AVI_KENMERKEN (default [] target_niveau) in
    (te_lange_woorden_van (kenmerken ≫= Kenmerken.max_lettergrepen) tokens,
     te_lange_zinnen_van (kenmerken ≫= Kenmerken.max_zinslengte) sentences)
  else ([], []).

Definition avi_resultaat (tekst : pystr) (target_niveau : option pystr)
  : AVIResult.t :=
  let tokens := tokenize tekst in
  let sentences := split_sentences tekst in
  let gem_woordlengte := gem_woordlengte_van tokens in
  let pct_frequent := pct_waarde tokens (70 # 1) in
  let bilt := bilt_formule pct_frequent gem_woordlengte in
  let te_lang := te_lang_waarde target_niveau tokens sentences in
  AVIResult.mk bilt (_bepaal_avi_niveau bilt) (length tokens)
    gem_woordlengte pct_frequent
    (snd (zinslengtes_waarde sentences (length tokens)))
    (verdeling_van tokens) (fst te_lang) (snd te_lang).

Definition long_sent_ratio_van (sentence_lengths : list nat) : Q :=
  (Qnat (length (List.filter (fun l => 20 <? l) sentence_lengths))
   / Qnat (length sentence_lengths))%Q.

Definition ref_resultaat (tekst : pystr) : REFResult.t :=
  let tokens := tokenize tekst in
  let sentences := split_sentences tekst in
  let gem_woordlengte := gem_woordlengte_van tokens in
  let zl := zinslengtes_waarde sentences (length tokens) in
  let long_sent_ratio := long_sent_ratio_van (fst zl) in
  let marker_diversity := size (marker_types_van tokens) in
  let score :=
    ref_score (long_sent_ratio * 100) marker_diversity gem_woordlengte in
  REFResult.mk (fst (ref_indeling score)) score (snd (ref_indeling score))
    (length tokens) gem_woordlengte (snd zl)
    (pct_waarde tokens (65 # 1)) long_sent_ratio marker_diversity.

End ClosedForm.

(** Ten four-letter tokens, eight of them in the word list. *)
Definition tekst_boom : pystr :=
  lit "Boom boom boom boom boom, boom boom boom: roos roos.".

Definition lijst_boom : gset pystr := {[ lit "boom" ]}.

(** A text of 23 tokens whose only discourse markers are "maar" and
    "omdat". *)
Definition tekst_hond : pystr :=
  lit "De kat zit op de mat. Maar de hond loopt weg omdat hij bang is! Zie je dat? Ik zie de hond niet.".

(** Some token is in the word list of the category. *)
Definition categorie_geraakt (tokens : list pystr)
    (item : pystr * list pystr) : bool :=
  existsb (fun t => str_in t (snd item)) tokens.

(** The number of categories with at least one matching token. *)
Definition aantal_categorieen (tokens : list pystr) : nat :=
  length (List.filter (categorie_geraakt tokens) DISCOURSE_MARKERS).

(** The token is in the word list of some category. *)
Definition is_marker (t : pystr) : bool :=
  existsb (fun item : pystr * list pystr => str_in t (snd item))
          DISCOURSE_MARKERS.

(** The result of the technical-reading analysis with the frequent-word
    percentage replaced by [pct] and the score and band recomputed from it. *)
Definition met_pct_avi (pct : Q) (r : AVIResult.t) : AVIResult.t :=
  let bilt := bilt_formule pct (AVIResult.gem_woordlengte r) in
  AVIResult.mk bilt (_bepaal_avi_niveau bilt) (AVIResult.totaal_woorden r)
    (AVIResult.gem_woordlengte r) pct (AVIResult.gem_zinslengte r)
    (AVIResult.lettergreep_verdeling r) (AVIResult.te_lange_woorden r)
    (AVIResult.te_lange_zinnen r).

(** The result of the comprehension analysis with only the frequent-word
    percentage replaced. *)
Definition met_pct_ref (pct : Q) (r : REFResult.t) : REFResult.t :=
  REFResult.mk (REFResult.niveau r) (REFResult.score r)
    (REFResult.confidence r) (REFResult.totaal_woorden r)
    (REFResult.gem_woordlengte r) (REFResult.gem_zinslengte r) pct
    (REFResult.long_sent_ratio r) (REFResult.marker_diversity r).

(** The number of maximal runs of vowels: a run starts at a vowel that is
    the first character or comes after a character that is no vowel.
    [vorige] tells whether the character before [s] is a vowel. *)
Fixpoint klinker_runs_vanaf (vorige : bool) (s : pystr) : nat :=
  match s with
  | [] => 0
  | c :: s' =>
    let k := char_in c klinkers in
    (if k && negb vorige then 1 else 0) + klinker_runs_vanaf k s'
  end.

Definition klinker_runs (s : pystr) : nat := klinker_runs_vanaf false s.

(** The vowels by group: plain, acute, grave, diaeresis, circumflex. *)
Definition klinker_groepen : pystr :=
  lit "aeiouy" ++ lit "áéíóú" ++ lit "àèìòù" ++ lit "äëïöü" ++ lit "âêîôû".

(** The comparisons of a result with the target profile, per branch. *)
Definition avi_kloof (eenvoudiger : bool) (result : AVIResult.t)
    (target_specs : Level.t) : bool :=
  if eenvoudiger
  then Qltb (Level.gem_wlen target_specs) (AVIResult.gem_woordlengte result)
       || Qltb (AVIResult.pct_frequent result) (Level.pct_freq target_specs)
  else Qltb (AVIResult.gem_woordlengte result) (Level.gem_wlen target_specs)
       || Qltb (Level.pct_freq target_specs) (AVIResult.pct_frequent result).

Definition ref_kloof (eenvoudiger : bool) (result : REFResult.t)
    (target_info : NiveauInfo.t) : bool :=
  if eenvoudiger
  then Qltb (NiveauInfo.wl_typical target_info + (2 # 10))
            (REFResult.gem_woordlengte result)
       || Qltb (NiveauInfo.zl_typical target_info + 2)
               (REFResult.gem_zinslengte result)
       || Qltb (NiveauInfo.long_sent_typical target_info + 5)
               (REFResult.long_sent_ratio result * 100)
  else Qltb (REFResult.gem_woordlengte result)
            (NiveauInfo.wl_typical target_info - (2 # 10))
       || Qltb (REFResult.gem_zinslengte result)
               (NiveauInfo.zl_typical target_info - 2)
       || Qltb (REFResult.long_sent_ratio result * 100)
               (NiveauInfo.long_sent_typical target_info - 5)
       || (REFResult.marker_diversity result <? 4).

(** The lines of [get_avi_suggesties] that do not look at the result. *)
Definition avi_vaste_regels (eenvoudiger : bool) (target : pystr)
    (target_kenmerken : option Kenmerken.t) : list suggestie :=
  (if eenvoudiger then
     (let m := target_kenmerken ≫= Kenmerken.max_lettergrepen in
      als (waar_int m) (AviMaxLettergrepen (default 0 m)))
     ++ (let m := target_kenmerken ≫= Kenmerken.max_zinslengte in
         als (waar_int m) (AviKortereZinnen (default 0 m)))
     ++ (let v := target_kenmerken ≫= Kenmerken.verboden in
         als (waar_str v) (AviVermijd (default [] v)))
   else
     (let n := Kenmerken.nieuw <$> target_kenmerken in
      als (waar_str n) (AviNieuwToegestaan (default [] n))))
  ++ (let w := Kenmerken.woordtypen <$> target_kenmerken in
      als (waar_str w) (AviWoordtypen target (default [] w))).

Definition ref_niveaus : list pystr := [lit "1F"; lit "2F"; lit "3F"].

(** A comprehension result that sits on the reference profile of "2F":
    typical word length, sentence length and share of long sentences, all
    five marker categories. *)
Definition ref_op_profiel : REFResult.t :=
  let score := ref_score 15 5 (491 # 100) in
  REFResult.mk (fst (ref_indeling score)) score (snd (ref_indeling score))
    100 (491 # 100) (144 # 10) (65 # 1) (15 # 100) 5.

(** The direction of an advice line. *)
Inductive richting :=
| Eenvoudiger
| Moeilijker
| Algemeen.

Definition richting_van (s : suggestie) : richting :=
  match s with
  | AviKortereWoorden _ _ | AviFrequentereWoorden _ _
  | AviMaxLettergrepen _ | AviKortereZinnen _ | AviVermijd _
  | RefKortereWoorden _ _ | RefKortereZinnen _ _
  | RefMinderLangeZinnen _ _ | RefTipEenvoudig => Eenvoudiger
  | AviLangereWoorden _ _ | AviMinderFrequenteWoorden _ _
  | AviNieuwToegestaan _
  | RefLangereWoorden _ _ | RefLangereZinnen _ _
  | RefMeerLangeZinnen _ _ | RefMeerSignaalwoorden | RefTipVerrijk =>
    Moeilijker
  | AviWoordtypen _ _ => Algemeen
  end.

(** * Definitions used in the further properties *)

(** The number of tokens with [k] syllables. *)
Definition aantal_met `{Unicode} (k : nat) (tokens : list pystr) : nat :=
  length (List.filter (fun t => tel_lettergrepen t =? k) tokens).

(** The cap on syllables per word and on words per sentence that
    [analyse_avi] reads from [AVI_KENMERKEN] for its target; [None] when
    there is no target, the target is not in the table or the entry is
    [None] or 0. *)
Definition grens_van (veld : Kenmerken.t -> option nat)
    (target_niveau : option pystr) : option nat :=
  if waar_str target_niveau then
    match dict_get AVI_KENMERKEN (default [] target_niveau) ≫= veld with
    | Some (S n) => Some (S n)
    | _ => None
    end
  else None.

(** ** Further functions of [TextAnalyzer] *)

Definition DOELWOORDEN : list (pystr * list (Z * Z)) :=
  [ (lit "AVI-M3", [(1, 45); (2, 80); (3, 107)]%Z);
    (lit "AVI-E3", [(1, 56); (2, 101); (3, 135)]%Z);
    (lit "AVI-M4", [(1, 65); (2, 117); (3, 156)]%Z);
    (lit "AVI-E4", [(1, 68); (2, 123); (3, 164)]%Z);
    (lit "AVI-M5", [(1, 83); (2, 152); (3, 206)]%Z);
    (lit "AVI-E5", [(1, 89); (2, 164); (3, 224)]%Z);
    (lit "AVI-M6", [(1, 96); (2, 179); (3, 247)]%Z);
    (lit "AVI-E6", [(1, 110); (2, 205); (3, 282)]%Z);
    (lit "AVI-M7", [(1, 116); (2, 218); (3, 302)]%Z);
    (lit "AVI-E7", [(1, 117); (2, 220); (3, 306)]%Z);
    (lit "AVI-Plus", [(1, 118); (2, 224); (3, 306)]%Z) ].

(** [d.get(k)] for a dictionary with integer keys. *)
Fixpoint int_get {V} (d : list (Z * V)) (k : Z) : option V :=
  match d with
  | [] => None
  | (k', v) :: d' => if (k' =? k)%Z then Some v else int_get d' k
  end.

(** [d[1]]; the [KeyError] carries the key as it prints. *)
Definition index_een {V} (d : list (Z * V)) : py V :=
  match int_get d 1%Z with
  | Some v => Ok v
  | None => Raise (KeyError (lit "1"))
  end.

(** The [for] loop of [get_niveau_specs]; [None] when it ends without
    [return]. *)
Fixpoint specs_scan (levels : list Level.t) (niveau : pystr)
  : option Level.t :=
  match levels with
  | [] => None
  | level :: levels' =>
    if str_eqb (Level.niveau level) niveau then Some level
    else specs_scan levels' niveau
  end.

(** [xs[-1]] *)
Definition list_laatste {A} (xs : list A) : py A :=
  match last xs with
  | Some x => Ok x
  | None => Raise IndexError
  end.

Definition get_niveau_specs (niveau : pystr) : py Level.t :=
  match specs_scan AVI_LEVELS niveau with
  | Some level => mret level
  | None => list_laatste AVI_LEVELS
  end.

Definition get_doelwoorden (niveau : pystr) (minuten : Z) : py Z :=
  match dict_get DOELWOORDEN niveau with
  | Some _ =>
    d ← dict_index DOELWOORDEN niveau;
    d1 ← dict_index DOELWOORDEN niveau;
    anders ← index_een d1;
    mret (default anders (int_get d minuten))
  | None => mret 100%Z
  end.

(** ** [get_direction] of [app.py] *)

Definition get_direction (source target mode : pystr) : pystr * pystr :=
  let '(s, t) :=
    if str_eqb mode (lit "avi")
    then (level_index source, level_index target)
    else
      let order := niveau_order in
      (default 2 (dict_get order source), default 2 (dict_get order target))
  in
  if t <? s then (lit "down", lit "⬇️ " ++ source ++ lit " → " ++ target)
  else if s <? t then (lit "up", lit "⬆️ " ++ source ++ lit " → " ++ target)
  else (lit "same", lit "↔️ " ++ target).

(** The lines of the suggestion functions on word length. *)
Definition over_woordlengte (s : suggestie) : bool :=
  match s with
  | AviKortereWoorden _ _ | AviLangereWoorden _ _
  | RefKortereWoorden _ _ | RefLangereWoorden _ _ => true
  | _ => false
  end.

(** [get_doelwoorden], with -1 for an exception. *)
Definition doelwoorden_of (niveau : pystr) (minuten : Z) : Z :=
  match get_doelwoorden niveau minuten with
  | Ok v => v
  | Raise _ => (-1)%Z
  end.

(** The two positions that [get_direction] compares. *)
Definition richting_rangen (source target mode : pystr) : nat * nat :=
  if str_eqb mode (lit "avi")
  then (level_index source, level_index target)
  else (default 2 (dict_get niveau_order source),
        default 2 (dict_get niveau_order target)).

(** ** [bereken_aantal_proposities] *)

Definition bereken_aantal_proposities (doelwoorden : Z) : Z :=
  (if doelwoorden <? 60 then 3
   else if doelwoorden <? 90 then 5
   else if doelwoorden <? 120 then 6
   else if doelwoorden <? 160 then 8
   else if doelwoorden <? 200 then 10
   else 12)%Z.

(** * Properties *)

(** ** Evaluation on small inputs *)

Example tel_ik : @tel_lettergrepen latin1 (lit "ik") = 1.
Proof. reflexivity. Qed.

Example tel_computer : @tel_lettergrepen latin1 (lit "computer") = 3.
Proof. reflexivity. Qed.

Example tel_idee : @tel_lettergrepen latin1 (lit "Ideeën") = 2.
Proof. reflexivity. Qed.

Example tok1 : @tokenize latin1 (lit "Dit is (een) café-test, o.k.!") =
  [lit "dit"; lit "is"; lit "een"; lit "café"; lit "test"; lit "o"; lit "k"].
Proof. reflexivity. Qed.

Example split1 : split_sentences (lit "Hallo daar.  Ja! Dit is een zin?! ") =
  [lit "Hallo daar"; lit "Dit is een zin"].
Proof. reflexivity. Qed.

(** ** Comparisons and division *)

Lemma Qltb_lt (a b : Q) : Qltb a b = true <-> (a < b)%Q.
Proof.
  unfold Qltb. rewrite negb_true_iff. split.
  - intros E. apply Qnot_le_lt. intros Hle.
    apply Qle_bool_iff in Hle. congruence.
  - intros Hlt. destruct (Qle_bool b a) eqn:E; [|reflexivity].
    apply Qle_bool_iff in E. apply Qlt_not_le in Hlt. contradiction.
Qed.

Lemma Qltb_ge (a b : Q) : Qltb a b = false <-> (b <= a)%Q.
Proof.
  unfold Qltb. rewrite negb_false_iff. apply Qle_bool_iff.
Qed.

Lemma Qle_bool_gt (a b : Q) : Qle_bool a b = false <-> (b < a)%Q.
Proof.
  rewrite <- Qltb_lt. unfold Qltb. rewrite negb_true_iff. reflexivity.
Qed.

Lemma Qnat_nonzero (n : nat) : n <> 0 -> Qeq_bool (Qnat n) 0 = false.
Proof.
  intros Hn. destruct (Qeq_bool (Qnat n) 0) eqn:E; [|reflexivity].
  apply Qeq_bool_iff in E. unfold Qnat, Qeq in E. simpl in E. lia.
Qed.

Lemma truediv_Qnat (a : Q) (n : nat) :
  n <> 0 -> truediv a (Qnat n) = Ok (a / Qnat n)%Q.
Proof.
  intros Hn. unfold truediv. rewrite Qnat_nonzero by exact Hn. reflexivity.
Qed.

(** ** The band table *)

Lemma AVI_LEVELS_niet_nul : forallb grenzen_niet_nul AVI_LEVELS = true.
Proof. reflexivity. Qed.

Lemma in_band_past (level : Level.t) (bilt : Q) :
  grenzen_niet_nul level = true ->
  in_band level bilt = true <-> past level bilt.
Proof.
  unfold grenzen_niet_nul, in_band, past, of_anders.
  intros Hnz. apply andb_true_iff in Hnz as [Hmin Hmax].
  destruct (Level.bilt_min level) as [m|], (Level.bilt_max level) as [M|];
    try (apply negb_true_iff in Hmin; rewrite Hmin);
    try (apply negb_true_iff in Hmax; rewrite Hmax);
    cbn [grens_le lt_grens];
    rewrite andb_true_iff, ?Qle_bool_iff, ?Qltb_lt; tauto.
Qed.

Lemma in_band_AVI_LEVELS (level : Level.t) (bilt : Q) :
  In level AVI_LEVELS -> in_band level bilt = true <-> past level bilt.
Proof.
  intros Hin. apply in_band_past.
  exact (proj1 (forallb_forall _ _) AVI_LEVELS_niet_nul level Hin).
Qed.

(** The scan returns the first record that matches. *)
Lemma bepaal_scan_eerste (levels : list Level.t) (bilt : Q) :
  forall (i : nat) (level : Level.t),
    levels !! i = Some level ->
    in_band level bilt = true ->
    (forall j l, j < i -> levels !! j = Some l -> in_band l bilt = false) ->
    bepaal_scan levels bilt = Level.niveau level.
Proof.
  induction levels as [|l0 levels IH]; intros i level Hi Hin Hbefore.
  - discriminate.
  - destruct i as [|i]; cbn [bepaal_scan].
    + injection Hi as ->. rewrite Hin. reflexivity.
    + rewrite (Hbefore 0 l0) by (cbn; first [lia | reflexivity]).
      apply (IH i level Hi Hin).
      intros j l Hj Hl. apply (Hbefore (S j) l); [lia | exact Hl].
Qed.

Ltac band_elders Hj Hp :=
  cbn in Hj; injection Hj as <-;
  unfold past in Hp; cbn [Level.bilt_min Level.bilt_max] in Hp;
  destruct Hp as [? ?]; first [reflexivity | exfalso; lra].

Ltac band_geval k :=
  eexists k, _; split; [reflexivity|]; split;
  [ unfold past; cbn [Level.bilt_min Level.bilt_max]; split;
    first [exact I | assumption | lra]
  | let j := fresh "j" in
    let l := fresh "l" in
    let Hj := fresh "Hj" in
    let Hp := fresh "Hp" in
    intros j l Hj Hp;
    do 11 (destruct j as [|j]; [band_elders Hj Hp|]);
    cbn in Hj; discriminate ].

(** Exactly one record of the table holds a given score. *)
Lemma band_uniek (bilt : Q) :
  exists (i : nat) (level : Level.t),
    AVI_LEVELS !! i = Some level /\ past level bilt
    /\ forall j l, AVI_LEVELS !! j = Some l -> past l bilt -> j = i.
Proof.
  destruct (Qlt_le_dec bilt (56#1)); [band_geval 0|].
  destruct (Qlt_le_dec bilt (60#1)); [band_geval 1|].
  destruct (Qlt_le_dec bilt (62#1)); [band_geval 2|].
  destruct (Qlt_le_dec bilt (645#10)); [band_geval 3|].
  destruct (Qlt_le_dec bilt (665#10)); [band_geval 4|].
  destruct (Qlt_le_dec bilt (68#1)); [band_geval 5|].
  destruct (Qlt_le_dec bilt (71#1)); [band_geval 6|].
  destruct (Qlt_le_dec bilt (73#1)); [band_geval 7|].
  destruct (Qlt_le_dec bilt (75#1)); [band_geval 8|].
  destruct (Qlt_le_dec bilt (77#1)); [band_geval 9|].
  band_geval 10.
Qed.

(** ** The analyses in closed form *)

Section ClosedFormLemmas.

Context `{Unicode}.

Variable woordenlijst : gset pystr.

Lemma pct_frequent_of_waarde (tokens : list pystr) (anders : Q) :
  tokens <> [] ->
  pct_frequent_of woordenlijst tokens anders = Ok (pct_waarde woordenlijst tokens anders).
Proof.
  intros Hne. unfold pct_frequent_of, pct_waarde.
  destruct (bool_decide (woordenlijst ≠ ∅)); [|reflexivity].
  rewrite truediv_Qnat; [reflexivity|].
  destruct tokens; [congruence | discriminate].
Qed.

Lemma zinslengtes_eq (sentences : list pystr) (totaal_woorden : nat) :
  zinslengtes sentences totaal_woorden
  = Ok (zinslengtes_waarde sentences totaal_woorden).
Proof.
  destruct sentences as [|s sentences]; [reflexivity|].
  unfold zinslengtes, zinslengtes_waarde.
  rewrite truediv_Qnat; [reflexivity | discriminate].
Qed.

Lemma zinslengtes_niet_leeg (sentences : list pystr) (n : nat) :
  length (fst (zinslengtes_waarde sentences n)) <> 0.
Proof. destruct sentences; discriminate. Qed.

Lemma analyse_avi_eq (tekst : pystr) (target_niveau : option pystr) :
  analyse_avi woordenlijst tekst target_niveau
  = Ok (if length (tokenize tekst) <? 10 then None
        else Some (avi_resultaat woordenlijst tekst target_niveau)).
Proof.
  unfold analyse_avi, avi_resultaat.
  destruct (length (tokenize tekst) <? 10) eqn:Hlen.
  { rewrite orb_true_r. reflexivity. }
  apply Nat.ltb_ge in Hlen.
  assert (Hne : tokenize tekst <> [])
    by (intros E; rewrite E in Hlen; cbn in Hlen; lia).
  destruct (tokenize tekst) as [|t tokens] eqn:Htok; [congruence|].
  cbn [orb].
  rewrite truediv_Qnat by discriminate.
  rewrite pct_frequent_of_waarde by discriminate.
  rewrite zinslengtes_eq.
  cbn [mbind py_mbind py_bind mret py_mret].
  unfold te_lang_waarde, gem_woordlengte_van.
  destruct (waar_str target_niveau); reflexivity.
Qed.

Lemma analyse_ref_eq (tekst : pystr) :
  analyse_ref woordenlijst tekst
  = Ok (if length (tokenize tekst) <? 20 then None
        else Some (ref_resultaat woordenlijst tekst)).
Proof.
  unfold analyse_ref, ref_resultaat.
  destruct (length (tokenize tekst) <? 20) eqn:Hlen.
  { rewrite orb_true_r. reflexivity. }
  apply Nat.ltb_ge in Hlen.
  assert (Hne : tokenize tekst <> [])
    by (intros E; rewrite E in Hlen; cbn in Hlen; lia).
  destruct (tokenize tekst) as [|t tokens] eqn:Htok; [congruence|].
  cbn [orb].
  rewrite truediv_Qnat by discriminate.
  rewrite zinslengtes_eq.
  cbn [mbind py_mbind py_bind mret py_mret].
  rewrite truediv_Qnat by apply zinslengtes_niet_leeg.
  rewrite pct_frequent_of_waarde by discriminate.
  cbn [mbind py_mbind py_bind mret py_mret].
  unfold gem_woordlengte_van, long_sent_ratio_van.
  destruct (ref_indeling _); reflexivity.
Qed.

End ClosedFormLemmas.

(** What a successful technical-reading analysis returns. *)
Lemma analyse_avi_some `{Unicode} (woordenlijst : gset pystr)
    (tekst : pystr) (target_niveau : option pystr) (r : AVIResult.t) :
  analyse_avi woordenlijst tekst target_niveau = Ok (Some r) ->
  10 <= length (tokenize tekst)
  /\ r = avi_resultaat woordenlijst tekst target_niveau.
Proof.
  rewrite analyse_avi_eq.
  destruct (length (tokenize tekst) <? 10) eqn:Hlen; [discriminate|].
  apply Nat.ltb_ge in Hlen. intros [= <-]. split; [exact Hlen | reflexivity].
Qed.

Lemma analyse_ref_some `{Unicode} (woordenlijst : gset pystr)
    (tekst : pystr) (r : REFResult.t) :
  analyse_ref woordenlijst tekst = Ok (Some r) ->
  20 <= length (tokenize tekst) /\ r = ref_resultaat woordenlijst tekst.
Proof.
  rewrite analyse_ref_eq.
  destruct (length (tokenize tekst) <? 20) eqn:Hlen; [discriminate|].
  apply Nat.ltb_ge in Hlen. intros [= <-]. split; [exact Hlen | reflexivity].
Qed.

(** The band of a score, from the one record that holds it. *)
Lemma bepaal_avi_niveau_past (bilt : Q) (i : nat) (level : Level.t) :
  AVI_LEVELS !! i = Some level -> past level bilt ->
  _bepaal_avi_niveau bilt = Level.niveau level.
Proof.
  intros Hi Hp.
  destruct (band_uniek bilt) as (k & lk & Hk & Hpk & Huniek).
  assert (i = k) as -> by (apply (Huniek i level Hi Hp)).
  apply (bepaal_scan_eerste AVI_LEVELS bilt k level Hi).
  - apply in_band_AVI_LEVELS; [|exact Hp].
    apply list_elem_of_In, (list_elem_of_lookup_2 _ k), Hi.
  - intros j l Hj Hl.
    destruct (in_band l bilt) eqn:E; [|reflexivity].
    apply in_band_AVI_LEVELS in E;
      [|apply list_elem_of_In, (list_elem_of_lookup_2 _ j), Hl].
    specialize (Huniek j l Hl E). lia.
Qed.

(** C1 (as amended): when an analysis has [pct_frequent = 80] and
    [gem_woordlengte = 4.0], its [bilt] is
    43.21 - 0.23 * 80 + 8.63 * 4.0 = 59.33, and the band is "AVI-E3", the
    record with the interval [56.0, 60.0). *)
Theorem bilt_80_4 `{Unicode} (woordenlijst : gset pystr) (tekst : pystr)
    (target_niveau : option pystr) (r : AVIResult.t) :
  analyse_avi woordenlijst tekst target_niveau = Ok (Some r) ->
  (AVIResult.pct_frequent r == 80 # 1)%Q ->
  (AVIResult.gem_woordlengte r == 4 # 1)%Q ->
  (AVIResult.bilt r
   == (4321 # 100) - (23 # 100) * (80 # 1) + (863 # 100) * (4 # 1))%Q
  /\ (AVIResult.bilt r == 5933 # 100)%Q
  /\ AVIResult.niveau r = lit "AVI-E3"
  /\ exists level,
       AVI_LEVELS !! 1 = Some level
       /\ Level.niveau level = lit "AVI-E3"
       /\ Level.bilt_min level = Some (56 # 1)%Q
       /\ Level.bilt_max level = Some (60 # 1)%Q.
Proof.
  intros Hr Hp Hg. apply analyse_avi_some in Hr as [_ ->].
  unfold avi_resultaat in *. cbn [AVIResult.bilt AVIResult.niveau
    AVIResult.pct_frequent AVIResult.gem_woordlengte] in *.
  set (p := pct_waarde woordenlijst (tokenize tekst) (70 # 1)) in *.
  set (g := gem_woordlengte_van (tokenize tekst)) in *.
  assert (Hb : (bilt_formule p g == 5933 # 100)%Q).
  { unfold bilt_formule. rewrite Hp, Hg. reflexivity. }
  assert (Hl : exists level,
             AVI_LEVELS !! 1 = Some level
             /\ Level.niveau level = lit "AVI-E3"
             /\ Level.bilt_min level = Some (56 # 1)%Q
             /\ Level.bilt_max level = Some (60 # 1)%Q).
  { eexists. split; [reflexivity|]. repeat split. }
  split; [rewrite Hb; reflexivity|]. split; [exact Hb|].
  split; [|exact Hl].
  destruct Hl as (level & Hl & Hn & Hmin & Hmax). rewrite <- Hn.
  apply (bepaal_avi_niveau_past _ 1 level Hl).
  unfold past. rewrite Hmin, Hmax, Hb. split; [discriminate | reflexivity].
Qed.

Lemma bilt_80_4_witness :
  exists r,
    @analyse_avi latin1 lijst_boom tekst_boom None = Ok (Some r)
    /\ (AVIResult.bilt r == 5933 # 100)%Q
    /\ AVIResult.niveau r = lit "AVI-E3".
Proof.
  exists (@avi_resultaat latin1 lijst_boom tekst_boom None).
  assert (Hr : @analyse_avi latin1 lijst_boom tekst_boom None
               = Ok (Some (@avi_resultaat latin1 lijst_boom tekst_boom None)))
    by (vm_compute; reflexivity).
  split; [exact Hr|].
  destruct (@bilt_80_4 latin1 lijst_boom tekst_boom None _ Hr)
    as (_ & Hb & Hn & _).
  - vm_compute. reflexivity.
  - vm_compute. reflexivity.
  - split; [exact Hb | exact Hn].
Defined.

(** The value 59.37 is not what the formula gives at (80, 4.0). *)
Lemma bilt_80_4_is_not_59_37 :
  exists r,
    @analyse_avi latin1 lijst_boom tekst_boom None = Ok (Some r)
    /\ (AVIResult.pct_frequent r == 80 # 1)%Q
    /\ (AVIResult.gem_woordlengte r == 4 # 1)%Q
    /\ ~ (AVIResult.bilt r == 5937 # 100)%Q.
Proof.
  eexists. split; [vm_compute; reflexivity|].
  split; [vm_compute; reflexivity|].
  split; [vm_compute; reflexivity|].
  vm_compute. discriminate.
Qed.

(** C2: for every score, scanning the eleven records in order assigns
    exactly one band: membership is [min <= bilt < max] with an absent
    limit read as unbounded, one record and only one holds the score and
    its band is the one returned, the lowest record holds exactly the
    scores below 56.0, the topmost exactly those from 77.0, and the loop
    never falls through to its default. *)
Theorem avi_band_total_nonoverlapping (bilt : Q) :
  length AVI_LEVELS = 11
  /\ (forall level, In level AVI_LEVELS ->
        in_band level bilt = true <-> past level bilt)
  /\ (exists i level,
        AVI_LEVELS !! i = Some level
        /\ in_band level bilt = true
        /\ _bepaal_avi_niveau bilt = Level.niveau level
        /\ forall j l, AVI_LEVELS !! j = Some l ->
                       in_band l bilt = true -> j = i)
  /\ (exists laagste,
        AVI_LEVELS !! 0 = Some laagste
        /\ Level.niveau laagste = lit "AVI-M3"
        /\ (in_band laagste bilt = true <-> (bilt < 56 # 1)%Q))
  /\ (exists hoogste,
        AVI_LEVELS !! 10 = Some hoogste
        /\ Level.niveau hoogste = lit "AVI-Plus"
        /\ (in_band hoogste bilt = true <-> (77 # 1 <= bilt)%Q))
  /\ existsb (fun level => in_band level bilt) AVI_LEVELS = true.
Proof.
  assert (Hmem : forall j l, AVI_LEVELS !! j = Some l -> In l AVI_LEVELS).
  { intros j l Hl. apply list_elem_of_In, (list_elem_of_lookup_2 _ j), Hl. }
  destruct (band_uniek bilt) as (k & lk & Hk & Hpk & Huniek).
  assert (Hin : in_band lk bilt = true)
    by (apply in_band_AVI_LEVELS; eauto).
  split; [reflexivity|].
  split; [intros level Hl; apply in_band_AVI_LEVELS, Hl|].
  split.
  { exists k, lk. split; [exact Hk|]. split; [exact Hin|]. split.
    - apply (bepaal_avi_niveau_past bilt k lk Hk Hpk).
    - intros j l Hj Hl. apply (Huniek j l Hj).
      apply in_band_AVI_LEVELS; eauto. }
  split.
  { eexists. split; [reflexivity|]. split; [reflexivity|].
    rewrite in_band_AVI_LEVELS by (apply (Hmem 0); reflexivity).
    unfold past; cbn [Level.bilt_min Level.bilt_max]. tauto. }
  split.
  { eexists. split; [reflexivity|]. split; [reflexivity|].
    rewrite in_band_AVI_LEVELS by (apply (Hmem 10); reflexivity).
    unfold past; cbn [Level.bilt_min Level.bilt_max]. tauto. }
  apply existsb_exists. exists lk. split; [eauto | exact Hin].
Qed.

Lemma avi_band_total_nonoverlapping_witness :
  in_band (Level.mk (lit "AVI-E3") (Some (56 # 1)%Q) (Some (60 # 1)%Q)
             (58 # 1) (80 # 1) (39 # 10) (Some 2) (Some 7) (72 # 10))
          (5933 # 100) = true.
Proof.
  destruct (avi_band_total_nonoverlapping (5933 # 100)) as (_ & Hpast & _).
  apply Hpast.
  - right. left. reflexivity.
  - unfold past; cbn [Level.bilt_min Level.bilt_max].
    split; [discriminate | reflexivity].
Defined.

(** C3: [analyse_avi] returns no result exactly when the text has fewer
    than 10 tokens and [analyse_ref] exactly when it has fewer than 20;
    from the threshold on each returns a result (and neither raises). *)
Theorem geen_resultaat_onder_minimum `{Unicode} (woordenlijst : gset pystr)
    (tekst : pystr) (target_niveau : option pystr) :
  (analyse_avi woordenlijst tekst target_niveau = Ok None
   <-> length (tokenize tekst) < 10)
  /\ ((exists r, analyse_avi woordenlijst tekst target_niveau = Ok (Some r))
      <-> 10 <= length (tokenize tekst))
  /\ (analyse_ref woordenlijst tekst = Ok None
      <-> length (tokenize tekst) < 20)
  /\ ((exists r, analyse_ref woordenlijst tekst = Ok (Some r))
      <-> 20 <= length (tokenize tekst)).
Proof.
  rewrite analyse_avi_eq, analyse_ref_eq.
  destruct (Nat.ltb_spec (length (tokenize tekst)) 10) as [H10|H10];
    destruct (Nat.ltb_spec (length (tokenize tekst)) 20) as [H20|H20];
    repeat split; intros; try lia; try discriminate; try reflexivity;
    try (eexists; reflexivity);
    repeat match goal with
           | E : exists _, _ |- _ => destruct E as [? ?]
           end; try discriminate.
Qed.

(** ** Comprehension bands *)

Lemma confidence_onderscheiden :
  lit "Hoog" <> lit "Gemiddeld"
  /\ lit "Hoog" <> lit "Gemiddeld (grensgebied)".
Proof. split; vm_compute; discriminate. Qed.

Lemma ref_indeling_1F (score : Q) :
  (score < 125 # 100)%Q ->
  fst (ref_indeling score) = lit "1F"
  /\ (snd (ref_indeling score) = lit "Hoog" <-> (score < 1 # 1)%Q)
  /\ (snd (ref_indeling score) = lit "Hoog"
      \/ snd (ref_indeling score) = lit "Gemiddeld").
Proof.
  intros H1. unfold ref_indeling, REF_CUTOFF_1F_2F.
  rewrite (proj2 (Qltb_lt _ _) H1). cbn [fst snd].
  destruct (Qltb score 1) eqn:E.
  - apply Qltb_lt in E. repeat split; auto.
  - apply Qltb_ge in E. split; [reflexivity|]. split; [|auto].
    split.
    + intros Hc. symmetry in Hc.
      destruct (proj1 confidence_onderscheiden Hc).
    + intros Hlt. lra.
Qed.

Lemma ref_indeling_2F (score : Q) :
  (125 # 100 <= score)%Q -> (score < 235 # 100)%Q ->
  fst (ref_indeling score) = lit "2F"
  /\ (snd (ref_indeling score) = lit "Hoog"
      <-> (15 # 10 <= score)%Q /\ (score <= 21 # 10)%Q)
  /\ (snd (ref_indeling score) = lit "Hoog"
      \/ snd (ref_indeling score) = lit "Gemiddeld (grensgebied)").
Proof.
  intros H1 H2. unfold ref_indeling, REF_CUTOFF_1F_2F, REF_CUTOFF_2F_3F.
  rewrite (proj2 (Qltb_ge _ _) H1), (proj2 (Qltb_lt _ _) H2). cbn [fst snd].
  destruct (Qle_bool (15 # 10) score && Qle_bool score (21 # 10)) eqn:E.
  - apply andb_true_iff in E as [Ea Eb].
    apply Qle_bool_iff in Ea, Eb. repeat split; auto.
  - split; [reflexivity|]. split; [|auto]. split.
    + intros Hc. symmetry in Hc.
      destruct (proj2 confidence_onderscheiden Hc).
    + intros [Ha Hb]. apply Qle_bool_iff in Ha, Hb.
      rewrite Ha, Hb in E. discriminate.
Qed.

Lemma ref_indeling_3F (score : Q) :
  (235 # 100 <= score)%Q ->
  fst (ref_indeling score) = lit "3F"
  /\ (snd (ref_indeling score) = lit "Hoog" <-> (27 # 10 < score)%Q)
  /\ (snd (ref_indeling score) = lit "Hoog"
      \/ snd (ref_indeling score) = lit "Gemiddeld").
Proof.
  intros H2. unfold ref_indeling, REF_CUTOFF_1F_2F, REF_CUTOFF_2F_3F.
  assert (H1 : (125 # 100 <= score)%Q) by lra.
  rewrite (proj2 (Qltb_ge _ _) H1), (proj2 (Qltb_ge _ _) H2). cbn [fst snd].
  destruct (Qltb (27 # 10) score) eqn:E.
  - apply Qltb_lt in E. repeat split; auto.
  - apply Qltb_ge in E. split; [reflexivity|]. split; [|auto]. split.
    + intros Hc. symmetry in Hc.
      destruct (proj1 confidence_onderscheiden Hc).
    + intros Hlt. lra.
Qed.

(** C4: for the score of every comprehension analysis: below 1.25 the
    band is "1F", with confidence "Hoog" exactly below 1.0 and "Gemiddeld"
    otherwise; from 1.25 and below 2.35 it is "2F", "Hoog" exactly between
    1.5 and 2.1 inclusive and "Gemiddeld (grensgebied)" otherwise; from 2.35
    it is "3F", "Hoog" exactly above 2.7 and "Gemiddeld" otherwise.  The
    scores 1.24, 1.25 and 2.35 fall in "1F", "2F" and "3F". *)
Theorem ref_banden `{Unicode} (woordenlijst : gset pystr) (tekst : pystr)
    (r : REFResult.t) :
  analyse_ref woordenlijst tekst = Ok (Some r) ->
  ((REFResult.score r < 125 # 100)%Q ->
     REFResult.niveau r = lit "1F"
     /\ (REFResult.confidence r = lit "Hoog"
         <-> (REFResult.score r < 1 # 1)%Q)
     /\ (REFResult.confidence r = lit "Hoog"
         \/ REFResult.confidence r = lit "Gemiddeld"))
  /\ ((125 # 100 <= REFResult.score r)%Q ->
      (REFResult.score r < 235 # 100)%Q ->
      REFResult.niveau r = lit "2F"
      /\ (REFResult.confidence r = lit "Hoog"
          <-> (15 # 10 <= REFResult.score r)%Q
              /\ (REFResult.score r <= 21 # 10)%Q)
      /\ (REFResult.confidence r = lit "Hoog"
          \/ REFResult.confidence r = lit "Gemiddeld (grensgebied)"))
  /\ ((235 # 100 <= REFResult.score r)%Q ->
      REFResult.niveau r = lit "3F"
      /\ (REFResult.confidence r = lit "Hoog"
          <-> (27 # 10 < REFResult.score r)%Q)
      /\ (REFResult.confidence r = lit "Hoog"
          \/ REFResult.confidence r = lit "Gemiddeld"))
  /\ fst (ref_indeling (124 # 100)) = lit "1F"
  /\ fst (ref_indeling (125 # 100)) = lit "2F"
  /\ fst (ref_indeling (235 # 100)) = lit "3F".
Proof.
  intros Hr. apply analyse_ref_some in Hr as [_ ->].
  unfold ref_resultaat.
  cbn [REFResult.score REFResult.niveau REFResult.confidence].
  split; [apply ref_indeling_1F|].
  split; [apply ref_indeling_2F|].
  split; [apply ref_indeling_3F|].
  repeat split.
Qed.

Lemma ref_banden_witness :
  exists r,
    @analyse_ref latin1 lijst_boom tekst_hond = Ok (Some r)
    /\ REFResult.niveau r = lit "1F"
    /\ REFResult.confidence r = lit "Hoog".
Proof.
  exists (@ref_resultaat latin1 lijst_boom tekst_hond).
  assert (Hr : @analyse_ref latin1 lijst_boom tekst_hond
               = Ok (Some (@ref_resultaat latin1 lijst_boom tekst_hond)))
    by (vm_compute; reflexivity).
  split; [exact Hr|].
  destruct (@ref_banden latin1 lijst_boom tekst_hond _ Hr) as (H1F & _).
  destruct H1F as (Hn & Hc & _); [vm_compute; reflexivity|].
  split; [exact Hn|]. apply Hc. vm_compute. reflexivity.
Defined.

(** ** Marker diversity *)

Lemma marker_stap_fold (t : pystr) (items : list (pystr * list pystr)) :
  forall (acc : gset pystr) (x : pystr),
    x ∈ fold_left (marker_stap t) items acc
    <-> x ∈ acc
        \/ exists markers, In (x, markers) items /\ str_in t markers = true.
Proof.
  induction items as [|[mtype markers] items IH]; intros acc x;
    cbn [fold_left].
  - split; [auto | intros [Hx | (ms & [] & _)]; exact Hx].
  - rewrite IH. unfold marker_stap.
    destruct (str_in t markers) eqn:E.
    + rewrite elem_of_union, elem_of_singleton. split.
      * intros [[Hx | ->] | (ms & Hin & Hs)]; eauto.
        -- right. exists markers. split; [left; reflexivity | exact E].
        -- right. exists ms. split; [right; exact Hin | exact Hs].
      * intros [Hx | (ms & [Heq | Hin] & Hs)]; eauto.
        injection Heq as -> ->. auto.
    + split.
      * intros [Hx | (ms & Hin & Hs)]; eauto.
        right. exists ms. split; [right; exact Hin | exact Hs].
      * intros [Hx | (ms & [Heq | Hin] & Hs)]; eauto.
        injection Heq as -> ->. congruence.
Qed.

Lemma marker_types_fold (tokens : list pystr) :
  forall (acc : gset pystr) (x : pystr),
    x ∈ fold_left
          (fun marker_types t =>
             fold_left (marker_stap t) DISCOURSE_MARKERS marker_types)
          tokens acc
    <-> x ∈ acc
        \/ exists markers,
             In (x, markers) DISCOURSE_MARKERS
             /\ categorie_geraakt tokens (x, markers) = true.
Proof.
  unfold categorie_geraakt. cbn [snd].
  induction tokens as [|t tokens IH]; intros acc x; cbn [fold_left existsb].
  - split; [auto | intros [Hx | (ms & _ & Hf)]; [exact Hx | discriminate]].
  - rewrite IH, marker_stap_fold. split.
    + intros [[Hx | (ms & Hin & Hs)] | (ms & Hin & Hs)]; eauto.
      * right. exists ms. split; [exact Hin|]. rewrite Hs. reflexivity.
      * right. exists ms. split; [exact Hin|]. rewrite Hs.
        apply orb_true_r.
    + intros [Hx | (ms & Hin & Hs)]; eauto.
      apply orb_true_iff in Hs as [Hs | Hs]; eauto 6.
Qed.

Lemma NoDup_fst_filter {A B : Type} (f : A * B -> bool) (l : list (A * B)) :
  NoDup (List.map fst l) -> NoDup (List.map fst (List.filter f l)).
Proof.
  induction l as [|a l IH]; cbn [List.map List.filter]; [auto|].
  rewrite NoDup_cons. intros [Hnotin Hnd].
  destruct (f a); cbn [List.map]; [|auto].
  apply NoDup_cons. split; [|auto].
  intros Hin. apply Hnotin.
  apply list_elem_of_In in Hin. apply list_elem_of_In.
  apply in_map_iff in Hin as (y & Hy & Hyin).
  apply filter_In in Hyin as [Hyin _].
  apply in_map_iff. eauto.
Qed.

Lemma DISCOURSE_MARKERS_sleutels :
  List.map fst DISCOURSE_MARKERS
  = [lit "additief"; lit "temporeel"; lit "causaal"; lit "contrastief";
     lit "conclusief"].
Proof. reflexivity. Qed.

Lemma DISCOURSE_MARKERS_NoDup : NoDup (List.map fst DISCOURSE_MARKERS).
Proof.
  apply (bool_decide_unpack _). vm_compute. exact I.
Qed.

(** The size of the set built by the loops is the number of categories
    that some token matches. *)
Lemma marker_types_size `{Unicode} (tokens : list pystr) :
  size (marker_types_van tokens) = aantal_categorieen tokens.
Proof.
  unfold aantal_categorieen.
  rewrite <- (length_map fst).
  rewrite <- (size_list_to_set (C := gset pystr))
    by apply NoDup_fst_filter, DISCOURSE_MARKERS_NoDup.
  f_equal. apply set_eq. intros x.
  unfold marker_types_van. rewrite marker_types_fold.
  rewrite elem_of_list_to_set, list_elem_of_In, in_map_iff. split.
  - intros [Hx | (ms & Hin & Hg)]; [set_solver|].
    exists (x, ms). split; [reflexivity|]. apply filter_In. auto.
  - intros ([y ms] & Hy & Hin). cbn in Hy. subst y.
    apply filter_In in Hin as [Hin Hg]. right. eauto.
Qed.

(** The count depends only on which marker words occur among the tokens. *)
Lemma aantal_categorieen_alleen (tokens aanwezig : list pystr) :
  (forall m, In m aanwezig -> In m tokens) ->
  (forall t, In t tokens -> is_marker t = true -> In t aanwezig) ->
  aantal_categorieen tokens = aantal_categorieen aanwezig.
Proof.
  intros Hsub Halleen. unfold aantal_categorieen. f_equal.
  apply filter_ext_in. intros item Hitem. unfold categorie_geraakt.
  apply eq_true_iff_eq. rewrite !existsb_exists. split.
  - intros (t & Ht & Hs). exists t. split; [|exact Hs].
    apply (Halleen t Ht). apply existsb_exists. exists item. auto.
  - intros (m & Hm & Hs). exists m. auto.
Qed.

(** C8: the [marker_diversity] of a comprehension analysis is the number
    of the five marker categories (additief, temporeel, causaal,
    contrastief, conclusief) for which some token is a word of the
    category's list, hence between 0 and 5; categories are counted, not
    tokens, and a token in several lists ("terwijl") counts for each of
    its categories; a text whose only markers are "maar" and "omdat" has
    diversity 2. *)
Theorem marker_diversity_telt_categorieen `{Unicode}
    (woordenlijst : gset pystr) (tekst : pystr) (r : REFResult.t) :
  analyse_ref woordenlijst tekst = Ok (Some r) ->
  REFResult.marker_diversity r = aantal_categorieen (tokenize tekst)
  /\ 0 <= REFResult.marker_diversity r <= 5
  /\ List.map fst DISCOURSE_MARKERS
     = [lit "additief"; lit "temporeel"; lit "causaal"; lit "contrastief";
        lit "conclusief"]
  /\ (In (lit "terwijl") (tokenize tekst) ->
      (forall t, In t (tokenize tekst) -> is_marker t = true ->
                 t = lit "terwijl") ->
      REFResult.marker_diversity r = 2)
  /\ (In (lit "maar") (tokenize tekst) ->
      In (lit "omdat") (tokenize tekst) ->
      (forall t, In t (tokenize tekst) -> is_marker t = true ->
                 t = lit "maar" \/ t = lit "omdat") ->
      REFResult.marker_diversity r = 2).
Proof.
  intros Hr. apply analyse_ref_some in Hr as [_ ->].
  unfold ref_resultaat. cbn [REFResult.marker_diversity].
  rewrite marker_types_size.
  split; [reflexivity|]. split.
  { split; [lia|]. unfold aantal_categorieen.
    etransitivity; [apply filter_length_le | reflexivity]. }
  split; [reflexivity|]. split.
  - intros Hin Halleen.
    rewrite (aantal_categorieen_alleen _ [lit "terwijl"]); [reflexivity| |].
    + intros m [<- | []]. exact Hin.
    + intros t Ht Hm. left. symmetry. auto.
  - intros Hmaar Homdat Halleen.
    rewrite (aantal_categorieen_alleen _ [lit "maar"; lit "omdat"]);
      [reflexivity| |].
    + intros m [<- | [<- | []]]; assumption.
    + intros t Ht Hm. destruct (Halleen t Ht Hm) as [-> | ->];
        [left | right; left]; reflexivity.
Qed.

Lemma marker_diversity_telt_categorieen_witness :
  exists r,
    @analyse_ref latin1 lijst_boom tekst_hond = Ok (Some r)
    /\ REFResult.marker_diversity r = 2.
Proof.
  exists (@ref_resultaat latin1 lijst_boom tekst_hond).
  assert (Hr : @analyse_ref latin1 lijst_boom tekst_hond
               = Ok (Some (@ref_resultaat latin1 lijst_boom tekst_hond)))
    by (vm_compute; reflexivity).
  split; [exact Hr|].
  destruct (@marker_diversity_telt_categorieen latin1 lijst_boom tekst_hond
              _ Hr) as (_ & _ & _ & _ & Hmo).
  apply Hmo.
  - vm_compute. tauto.
  - vm_compute. tauto.
  - intros t Ht Hm. vm_compute in Ht.
    repeat (destruct Ht as [<- | Ht]); try contradiction;
      first [ left; reflexivity
            | right; reflexivity
            | vm_compute in Hm; discriminate ].
Defined.

(** ** The syllable histogram *)

Lemma som_waarden_insert_nieuw (m : gmap nat nat) (k v : nat) :
  m !! k = None -> som_waarden (<[k := v]> m) = v + som_waarden m.
Proof.
  intros Hk. unfold som_waarden.
  apply (map_fold_insert_L (fun _ v acc => v + acc)); [|exact Hk].
  intros. lia.
Qed.

Lemma som_waarden_ophogen (m : gmap nat nat) (k : nat) :
  som_waarden (<[k := default 0 (m !! k) + 1]> m) = som_waarden m + 1.
Proof.
  destruct (m !! k) as [v|] eqn:Hk; cbn [default].
  - rewrite <- (insert_delete_eq m k (v + 1)).
    rewrite <- (insert_delete_id m k v Hk) at 2.
    rewrite !som_waarden_insert_nieuw by apply lookup_delete_eq. lia.
  - rewrite som_waarden_insert_nieuw by exact Hk. lia.
Qed.

Lemma som_waarden_fold `{Unicode} (tokens : list pystr) :
  forall m : gmap nat nat,
    som_waarden (fold_left verdeling_stap tokens m)
    = som_waarden m + length tokens.
Proof.
  induction tokens as [|t tokens IH]; intros m; cbn [fold_left length].
  - lia.
  - rewrite IH. unfold verdeling_stap. rewrite som_waarden_ophogen. lia.
Qed.

Lemma som_waarden_verdeling `{Unicode} (tokens : list pystr) :
  som_waarden (verdeling_van tokens) = length tokens.
Proof.
  unfold verdeling_van. rewrite som_waarden_fold.
  unfold som_waarden. rewrite map_fold_empty. reflexivity.
Qed.

(** C10: in every result of [analyse_avi] the values of
    [lettergreep_verdeling] add up to [totaal_woorden], which is the number
    of tokens of the text and at least 10. *)
Theorem verdeling_telt_alle_tokens `{Unicode} (woordenlijst : gset pystr)
    (tekst : pystr) (target_niveau : option pystr) (r : AVIResult.t) :
  analyse_avi woordenlijst tekst target_niveau = Ok (Some r) ->
  som_waarden (AVIResult.lettergreep_verdeling r) = AVIResult.totaal_woorden r
  /\ AVIResult.totaal_woorden r = length (tokenize tekst)
  /\ 10 <= AVIResult.totaal_woorden r.
Proof.
  intros Hr. apply analyse_avi_some in Hr as [Hlen ->].
  unfold avi_resultaat.
  cbn [AVIResult.lettergreep_verdeling AVIResult.totaal_woorden].
  split; [apply som_waarden_verdeling|]. split; [reflexivity | exact Hlen].
Qed.

Lemma verdeling_telt_alle_tokens_witness :
  exists r,
    @analyse_avi latin1 lijst_boom tekst_hond (Some (lit "AVI-M3"))
    = Ok (Some r)
    /\ som_waarden (AVIResult.lettergreep_verdeling r) = 23
    /\ AVIResult.totaal_woorden r = 23.
Proof.
  exists (@avi_resultaat latin1 lijst_boom tekst_hond (Some (lit "AVI-M3"))).
  assert (Hr : @analyse_avi latin1 lijst_boom tekst_hond (Some (lit "AVI-M3"))
               = Ok (Some (@avi_resultaat latin1 lijst_boom tekst_hond
                             (Some (lit "AVI-M3")))))
    by (vm_compute; reflexivity).
  split; [exact Hr|].
  destruct (@verdeling_telt_alle_tokens latin1 lijst_boom tekst_hond _ _ Hr)
    as (Hsom & Htot & _).
  rewrite Hsom, Htot. split; vm_compute; reflexivity.
Defined.

(** ** The empty word list *)

Lemma pct_waarde_leeg (tokens : list pystr) (anders : Q) :
  pct_waarde ∅ tokens anders = anders.
Proof. reflexivity. Qed.

(** C9: with the empty word list both analyses still produce a result for
    every text that reaches the token minimum (10 tokens for technical
    reading, 20 for comprehension), as they do with a word list; in that
    result the frequent-word percentage is 70 (technical reading) or 65
    (comprehension), every other feature is the same, and the score is
    computed by the same formula (for the comprehension score, which does
    not use the percentage, the score, the band and the confidence are the
    same).  Below the minimum there is no result, with or without a word
    list. *)
Theorem lege_woordenlijst `{Unicode} (woordenlijst : gset pystr)
    (tekst : pystr) (target_niveau : option pystr) :
  (10 <= length (tokenize tekst) ->
   exists r,
     analyse_avi woordenlijst tekst target_niveau = Ok (Some r)
     /\ analyse_avi ∅ tekst target_niveau
        = Ok (Some (met_pct_avi (70 # 1) r))
     /\ AVIResult.bilt r
        = bilt_formule (AVIResult.pct_frequent r)
                       (AVIResult.gem_woordlengte r)
     /\ AVIResult.niveau r = _bepaal_avi_niveau (AVIResult.bilt r))
  /\ (20 <= length (tokenize tekst) ->
      exists r,
        analyse_ref woordenlijst tekst = Ok (Some r)
        /\ analyse_ref ∅ tekst = Ok (Some (met_pct_ref (65 # 1) r)))
  /\ (length (tokenize tekst) < 10 ->
      analyse_avi woordenlijst tekst target_niveau = Ok None
      /\ analyse_avi ∅ tekst target_niveau = Ok None)
  /\ (length (tokenize tekst) < 20 ->
      analyse_ref woordenlijst tekst = Ok None
      /\ analyse_ref ∅ tekst = Ok None).
Proof.
  rewrite !analyse_avi_eq, !analyse_ref_eq.
  split; [|split; [|split]].
  - intros Hlen. apply Nat.ltb_ge in Hlen. rewrite Hlen.
    exists (avi_resultaat woordenlijst tekst target_niveau).
    repeat split.
  - intros Hlen. apply Nat.ltb_ge in Hlen. rewrite Hlen.
    exists (ref_resultaat woordenlijst tekst).
    split; reflexivity.
  - intros Hlen. apply Nat.ltb_lt in Hlen. rewrite Hlen.
    split; reflexivity.
  - intros Hlen. apply Nat.ltb_lt in Hlen. rewrite Hlen.
    split; reflexivity.
Qed.

Lemma lege_woordenlijst_witness :
  exists ra rr,
    @analyse_avi latin1 ∅ tekst_hond None = Ok (Some ra)
    /\ (AVIResult.pct_frequent ra == 70 # 1)%Q
    /\ @analyse_ref latin1 ∅ tekst_hond = Ok (Some rr)
    /\ (REFResult.pct_frequent rr == 65 # 1)%Q
    /\ REFResult.niveau rr = lit "1F".
Proof.
  destruct (@lege_woordenlijst latin1 lijst_boom tekst_hond None)
    as (Ha & Hr & _).
  destruct Ha as (ra & _ & Hra & _); [vm_compute; lia|].
  destruct Hr as (rr & Hrr & Hrr0); [vm_compute; lia|].
  exists (met_pct_avi (70 # 1) ra), (met_pct_ref (65 # 1) rr).
  split; [exact Hra|]. split; [reflexivity|].
  split; [exact Hrr0|]. split; [reflexivity|].
  apply analyse_ref_some in Hrr as [_ ->]. vm_compute. reflexivity.
Defined.

(** ** Syllables *)

Lemma tel_loop_klinker_runs (s : pystr) :
  tel_loop s = klinker_runs_vanaf false s
  /\ klinker_run s = klinker_runs_vanaf true s.
Proof.
  induction s as [|c s [IH1 IH2]]; [split; reflexivity|].
  cbn [tel_loop klinker_run klinker_runs_vanaf].
  destruct (char_in c klinkers); cbn [andb negb]; rewrite ?IH1, ?IH2;
    split; reflexivity.
Qed.

Lemma char_in_In (c : char) (s : pystr) : char_in c s = true <-> In c s.
Proof.
  unfold char_in. rewrite existsb_exists. split.
  - intros (v & Hv & Heq). apply N.eqb_eq in Heq. subst v. exact Hv.
  - intros Hc. exists c. split; [exact Hc | apply N.eqb_refl].
Qed.

Lemma klinkers_geen_spatie :
  forallb (fun c => negb (is_space c)) klinkers = true.
Proof. vm_compute. reflexivity. Qed.

Lemma spatie_geen_klinker (c : char) :
  is_space c = true -> char_in c klinkers = false.
Proof.
  intros Hs. destruct (char_in c klinkers) eqn:E; [|reflexivity].
  apply char_in_In in E.
  pose proof (proj1 (forallb_forall _ _) klinkers_geen_spatie c E) as Hn.
  cbv beta in Hn. rewrite Hs in Hn. discriminate.
Qed.

Lemma klinkers_groepen (c : char) :
  char_in c klinkers = true <-> In c klinker_groepen.
Proof.
  assert (H1 : forallb (fun c => char_in c klinker_groepen) klinkers = true)
    by (vm_compute; reflexivity).
  assert (H2 : forallb (fun c => char_in c klinkers) klinker_groepen = true)
    by (vm_compute; reflexivity).
  rewrite char_in_In. split; intros Hc.
  - apply char_in_In.
    exact (proj1 (forallb_forall _ _) H1 c Hc).
  - apply char_in_In.
    exact (proj1 (forallb_forall _ _) H2 c Hc).
Qed.

Lemma lstrip_split (s : pystr) :
  exists ws, s = ws ++ lstrip s /\ Forall (fun c => is_space c = true) ws.
Proof.
  induction s as [|c s (ws & Hs & Hws)]; [exists []; split; auto|].
  cbn [lstrip]. destruct (is_space c) eqn:E.
  - exists (c :: ws). split; [cbn; congruence | constructor; assumption].
  - exists []. split; auto.
Qed.

Lemma rstrip_split (s : pystr) :
  exists ws, s = rstrip s ++ ws /\ Forall (fun c => is_space c = true) ws.
Proof.
  destruct (lstrip_split (rev s)) as (ws & Hs & Hws).
  exists (rev ws). split.
  - unfold rstrip. rewrite <- rev_app_distr, <- Hs, rev_involutive.
    reflexivity.
  - apply List.Forall_rev, Hws.
Qed.

Lemma klinker_runs_spaties (vorige : bool) (ws : pystr) :
  Forall (fun c => is_space c = true) ws ->
  klinker_runs_vanaf vorige ws = 0.
Proof.
  intros Hws. revert vorige.
  induction Hws as [|c ws Hc _ IH]; intros vorige; [reflexivity|].
  cbn [klinker_runs_vanaf]. rewrite (spatie_geen_klinker c Hc).
  cbn [andb]. apply IH.
Qed.

Lemma klinker_runs_app_spaties (s ws : pystr) :
  Forall (fun c => is_space c = true) ws ->
  forall vorige,
    klinker_runs_vanaf vorige (s ++ ws) = klinker_runs_vanaf vorige s.
Proof.
  intros Hws. induction s as [|c s IH]; intros vorige.
  - apply klinker_runs_spaties, Hws.
  - cbn [app klinker_runs_vanaf]. rewrite IH. reflexivity.
Qed.

Lemma klinker_runs_strip (s : pystr) :
  klinker_runs (strip s) = klinker_runs s.
Proof.
  unfold klinker_runs, strip.
  destruct (lstrip_split s) as (ws & Hs & Hws).
  destruct (rstrip_split (lstrip s)) as (ws' & Hs' & Hws').
  rewrite Hs at 2. rewrite Hs' at 2.
  rewrite <- (klinker_runs_app_spaties (rstrip (lstrip s)) ws' Hws').
  clear Hs Hs'. induction Hws as [|c ws Hc _ IH]; [reflexivity|].
  cbn [app klinker_runs_vanaf]. rewrite (spatie_geen_klinker c Hc).
  exact IH.
Qed.

Lemma tel_lettergrepen_runs `{Unicode} (woord : pystr) :
  tel_lettergrepen woord
  = match strip (str_lower woord) with
    | [] => 0
    | _ :: _ => Nat.max 1 (klinker_runs (str_lower woord))
    end.
Proof.
  unfold tel_lettergrepen.
  rewrite <- (klinker_runs_strip (str_lower woord)).
  destruct (strip (str_lower woord)) as [|c s]; [reflexivity|].
  rewrite (proj1 (tel_loop_klinker_runs (c :: s))).
  unfold klinker_runs. reflexivity.
Qed.

(** C7 (as amended): for every word the syllable counter returns the
    number of maximal runs of vowels (a e i o u y and the acute, grave,
    diaeresis and circumflex variants of a e i o u) of the lowercased word,
    except that it returns 1 when there is no such run and the word is not
    empty after stripping white space, and 0 when the word is empty or white
    space only; "ik" gives 1, "computer" 3, "" 0 and a word of consonants
    only 1. *)
Theorem tel_lettergrepen_klinker_runs `{Unicode} (woord : pystr) :
  tel_lettergrepen woord
  = match strip (str_lower woord) with
    | [] => 0
    | _ :: _ => Nat.max 1 (klinker_runs (str_lower woord))
    end
  /\ (strip (str_lower woord) = [] <->
      Forall (fun c => is_space c = true) (str_lower woord))
  /\ (strip (str_lower woord) <> [] ->
      klinker_runs (str_lower woord) = 0 -> tel_lettergrepen woord = 1)
  /\ (forall c, char_in c klinkers = true <-> In c klinker_groepen)
  /\ @tel_lettergrepen latin1 (lit "ik") = 1
  /\ @tel_lettergrepen latin1 (lit "computer") = 3
  /\ @tel_lettergrepen latin1 (lit "") = 0
  /\ @tel_lettergrepen latin1 (lit "brr") = 1.
Proof.
  split; [apply tel_lettergrepen_runs|]. split.
  { generalize (str_lower woord). intros s. unfold strip. split.
    - intros Hs.
      destruct (lstrip_split s) as (ws & Hs1 & Hws).
      destruct (rstrip_split (lstrip s)) as (ws' & Hs2 & Hws').
      rewrite Hs in Hs2. cbn [app] in Hs2. rewrite Hs1, Hs2.
      apply Forall_app. auto.
    - intros Hall.
      assert (Hl : lstrip s = []).
      { induction Hall as [|c s Hc _ IH]; [reflexivity|].
        cbn [lstrip]. rewrite Hc. exact IH. }
      rewrite Hl. reflexivity. }
  split.
  { intros Hne Hruns. rewrite tel_lettergrepen_runs, Hruns.
    destruct (strip (str_lower woord)); [congruence | reflexivity]. }
  split; [apply klinkers_groepen|].
  repeat split.
Qed.

Lemma tel_lettergrepen_klinker_runs_witness :
  @tel_lettergrepen latin1 (lit "brr") = 1.
Proof.
  destruct (@tel_lettergrepen_klinker_runs latin1 (lit "brr"))
    as (_ & _ & Hmedeklinkers & _).
  apply Hmedeklinkers.
  - vm_compute. discriminate.
  - vm_compute. reflexivity.
Defined.

(** A word of one space is not empty and has no run of vowels, and its
    count is 0. *)
Lemma tel_lettergrepen_spatie :
  lit " " <> []
  /\ klinker_runs (@str_lower latin1 (lit " ")) = 0
  /\ @tel_lettergrepen latin1 (lit " ") = 0
  /\ @tel_lettergrepen latin1 (lit " ") <> 1.
Proof.
  split; [vm_compute; discriminate|]. split; [reflexivity|].
  split; [reflexivity | vm_compute; discriminate].
Qed.

(** ** Suggestions *)

Lemma str_eqb_eq (a b : pystr) : str_eqb a b = true <-> a = b.
Proof.
  revert b. induction a as [|x a IH]; intros [|y b]; cbn [str_eqb];
    try (split; [discriminate | discriminate]); [tauto|].
  rewrite andb_true_iff, N.eqb_eq, IH. split.
  - intros [-> ->]. reflexivity.
  - intros [= -> ->]. auto.
Qed.

Lemma dict_get_In {V} (d : list (pystr * V)) (k : pystr) (v : V) :
  dict_get d k = Some v -> In (k, v) d.
Proof.
  induction d as [|[k' v'] d IH]; cbn [dict_get]; [discriminate|].
  destruct (str_eqb k' k) eqn:E.
  - apply str_eqb_eq in E. intros [= ->]. left. congruence.
  - intros Hd. right. auto.
Qed.

Lemma eerste_index_lt (levels : list Level.t) (n : pystr) :
  forall i k, eerste_index levels n i = Some k -> k < i + length levels.
Proof.
  induction levels as [|l levels IH]; intros i k; cbn [eerste_index length];
    [discriminate|].
  destruct (str_eqb (Level.niveau l) n).
  - intros [= <-]. lia.
  - intros Hk. apply IH in Hk. lia.
Qed.

Lemma level_index_lt (n : pystr) : level_index n < length AVI_LEVELS.
Proof.
  unfold level_index.
  destruct (eerste_index AVI_LEVELS n 0) as [k|] eqn:E.
  - change (default 5 (Some k)) with k. apply eerste_index_lt in E. lia.
  - change (5 < 11). lia.
Qed.

(** [AVI_LEVELS[target_idx]] is always in range. *)
Lemma target_specs_ok (target : pystr) :
  exists specs,
    AVI_LEVELS !! level_index target = Some specs
    /\ list_index AVI_LEVELS (level_index target) = Ok specs.
Proof.
  destruct (lookup_lt_is_Some_2 AVI_LEVELS (level_index target)
              (level_index_lt target)) as [specs Hs].
  exists specs. unfold list_index. rewrite Hs. auto.
Qed.

Lemma AVI_KENMERKEN_woordtypen :
  forallb (fun item : pystr * Kenmerken.t =>
             waar_str (Some (Kenmerken.woordtypen (snd item))))
          AVI_KENMERKEN = true.
Proof. vm_compute. reflexivity. Qed.

Lemma In_als (c : bool) (x s : suggestie) : In s (als c x) -> c = true /\ s = x.
Proof.
  destruct c; cbn; [intros [<- | []]; auto | intros []].
Qed.

Lemma ref_tabellen (n : pystr) :
  In n ref_niveaus ->
  exists info k,
    dict_get REF_NIVEAU_INFO n = Some info
    /\ dict_get niveau_order n = Some k.
Proof.
  intros [<- | [<- | [<- | []]]]; eexists _, _; split; reflexivity.
Qed.

Lemma get_avi_suggesties_eq (result : AVIResult.t) (target : pystr)
    (specs : Level.t) :
  AVI_LEVELS !! level_index target = Some specs ->
  get_avi_suggesties result target
  = Ok ((if level_index target <? level_index (AVIResult.niveau result)
         then avi_eenvoudiger result specs (dict_get AVI_KENMERKEN target)
         else avi_moeilijker result specs (dict_get AVI_KENMERKEN target))
        ++ (let w := Kenmerken.woordtypen <$> dict_get AVI_KENMERKEN target in
            als (waar_str w) (AviWoordtypen target (default [] w)))).
Proof.
  intros Hs. unfold get_avi_suggesties, list_index. rewrite Hs. reflexivity.
Qed.

Lemma get_ref_suggesties_eq (result : REFResult.t) (target : pystr)
    (info : NiveauInfo.t) (t c : nat) :
  dict_get REF_NIVEAU_INFO target = Some info ->
  dict_get niveau_order target = Some t ->
  dict_get niveau_order (REFResult.niveau result) = Some c ->
  get_ref_suggesties result target
  = Ok (if t <? c then ref_eenvoudiger result info
        else ref_moeilijker result info).
Proof.
  intros Hi Ht Hc. unfold get_ref_suggesties, dict_index.
  rewrite Hi, Ht, Hc. reflexivity.
Qed.

(** C5 (as amended): [get_avi_suggesties] never fails; [get_ref_suggesties]
    does not fail when the target and the band of the result are among
    "1F", "2F", "3F".  When no comparison of the result with the target
    profile fires, [get_ref_suggesties] returns exactly one line, the general
    tip of its branch, and [get_avi_suggesties] returns the lines that do not
    depend on the result, which is the empty sequence only for a target that
    is not in the table of band characteristics. *)
Theorem suggesties_zonder_kloof (avi : AVIResult.t) (ref : REFResult.t)
    (target : pystr) :
  (exists specs l,
     AVI_LEVELS !! level_index target = Some specs
     /\ get_avi_suggesties avi target = Ok l
     /\ (avi_kloof
           (level_index target <? level_index (AVIResult.niveau avi))
           avi specs = false ->
         l = avi_vaste_regels
               (level_index target <? level_index (AVIResult.niveau avi))
               target (dict_get AVI_KENMERKEN target))
     /\ (is_Some (dict_get AVI_KENMERKEN target) -> l <> [])
     /\ (dict_get AVI_KENMERKEN target = None ->
         avi_kloof
           (level_index target <? level_index (AVIResult.niveau avi))
           avi specs = false ->
         l = []))
  /\ (In target ref_niveaus ->
      In (REFResult.niveau ref) ref_niveaus ->
      exists info t c l,
        dict_get REF_NIVEAU_INFO target = Some info
        /\ dict_get niveau_order target = Some t
        /\ dict_get niveau_order (REFResult.niveau ref) = Some c
        /\ get_ref_suggesties ref target = Ok l
        /\ l <> []
        /\ (ref_kloof (t <? c) ref info = false ->
            l = [if t <? c then RefTipEenvoudig else RefTipVerrijk]))
  /\ (forall (U : Unicode) woordenlijst tekst r,
        analyse_ref woordenlijst tekst = Ok (Some r) ->
        In (REFResult.niveau r) ref_niveaus).
Proof.
  split; [|split].
  3: { intros U woordenlijst tekst r Hr.
       apply analyse_ref_some in Hr as [_ ->].
       unfold ref_resultaat. cbn [REFResult.niveau]. unfold ref_indeling.
       repeat match goal with
              | |- context [if ?b then _ else _] => destruct b
              end; cbn [fst ref_niveaus In]; auto. }
  - destruct (target_specs_ok target) as (specs & Hs & _).
    exists specs. eexists. split; [exact Hs|].
    split; [apply (get_avi_suggesties_eq avi target specs Hs)|].
    assert (Hkloof :
      avi_kloof (level_index target <? level_index (AVIResult.niveau avi))
                avi specs = false ->
      (if level_index target <? level_index (AVIResult.niveau avi)
       then avi_eenvoudiger avi specs (dict_get AVI_KENMERKEN target)
       else avi_moeilijker avi specs (dict_get AVI_KENMERKEN target))
      ++ (let w := Kenmerken.woordtypen <$> dict_get AVI_KENMERKEN target in
          als (waar_str w) (AviWoordtypen target (default [] w)))
      = avi_vaste_regels
          (level_index target <? level_index (AVIResult.niveau avi))
          target (dict_get AVI_KENMERKEN target)).
    { unfold avi_kloof, avi_vaste_regels, avi_eenvoudiger, avi_moeilijker.
      destruct (level_index target <? level_index (AVIResult.niveau avi));
        intros Hk; apply orb_false_iff in Hk as [-> ->]; reflexivity. }
    split; [exact Hkloof|]. split.
    + intros [k Hk] Hl. apply app_eq_nil in Hl as [_ Hl]. rewrite Hk in Hl.
      pose proof (proj1 (forallb_forall _ _) AVI_KENMERKEN_woordtypen
                    (target, k) (dict_get_In _ _ _ Hk)) as Hw.
      cbn [snd] in Hw. cbn [fmap option_fmap option_map] in Hl.
      rewrite Hw in Hl. discriminate.
    + intros Hnone Hk. rewrite (Hkloof Hk), Hnone.
      destruct (level_index target <? level_index (AVIResult.niveau avi));
        reflexivity.
  - intros Ht Hn.
    destruct (ref_tabellen target Ht) as (info & t & Hi & Hrt).
    destruct (ref_tabellen _ Hn) as (_ & c & _ & Hrc).
    exists info, t, c. eexists. split; [exact Hi|]. split; [exact Hrt|].
    split; [exact Hrc|].
    split; [apply (get_ref_suggesties_eq ref target info t c Hi Hrt Hrc)|].
    unfold ref_kloof, ref_eenvoudiger, ref_moeilijker. split.
    + destruct (t <? c); intros Hl; repeat apply app_eq_nil in Hl as [_ Hl];
        discriminate.
    + destruct (t <? c); intros Hk;
        repeat (apply orb_false_iff in Hk as [Hk ?]);
        repeat match goal with E : _ = false |- _ => rewrite E; clear E end;
        reflexivity.
Qed.

Lemma suggesties_zonder_kloof_witness :
  get_ref_suggesties ref_op_profiel (lit "2F") = Ok [RefTipVerrijk].
Proof.
  destruct (suggesties_zonder_kloof
              (@avi_resultaat latin1 lijst_boom tekst_boom None)
              ref_op_profiel (lit "2F")) as (_ & Href & _).
  destruct Href as (info & t & c & l & Hi & Ht & Hc & Hl & _ & Hgeen).
  - vm_compute. tauto.
  - vm_compute. tauto.
  - rewrite Hl. f_equal.
    assert (Hi' : dict_get REF_NIVEAU_INFO (lit "2F")
                  = Some (NiveauInfo.mk (lit "Einde vmbo / mbo-2,3")
                            (491 # 100) (144 # 10) (15 # 1)))
      by reflexivity.
    assert (Ht' : dict_get niveau_order (lit "2F") = Some 2) by reflexivity.
    assert (Hc' : dict_get niveau_order (REFResult.niveau ref_op_profiel)
                  = Some 2) by (vm_compute; reflexivity).
    rewrite Hi' in Hi. rewrite Ht' in Ht. rewrite Hc' in Hc.
    injection Hi as <-. injection Ht as <-. injection Hc as <-.
    apply Hgeen. vm_compute. reflexivity.
Defined.

(** On the profile of the target no comparison fires and still one line
    is returned; a target outside "1F", "2F", "3F" raises [KeyError]. *)
Lemma suggesties_niet_leeg_en_keyerror :
  REFResult.niveau ref_op_profiel = lit "2F"
  /\ (exists info,
        dict_get REF_NIVEAU_INFO (lit "2F") = Some info
        /\ ref_kloof false ref_op_profiel info = false)
  /\ get_ref_suggesties ref_op_profiel (lit "2F") = Ok [RefTipVerrijk]
  /\ get_ref_suggesties ref_op_profiel (lit "2F") <> Ok []
  /\ get_ref_suggesties ref_op_profiel (lit "4F")
     = Raise (KeyError (lit "4F")).
Proof.
  split; [vm_compute; reflexivity|]. split.
  { eexists. split; vm_compute; reflexivity. }
  split; [vm_compute; reflexivity|].
  split; [vm_compute; discriminate | vm_compute; reflexivity].
Qed.

Ltac regel_richting :=
  repeat match goal with
         | H : In _ (_ ++ _) |- _ => apply in_app_iff in H as [H | H]
         | H : In _ (als _ _) |- _ => apply In_als in H as [_ ->]
         | H : In _ [_] |- _ => destruct H as [<- | []]
         end; cbn [richting_van]; auto.

Lemma avi_eenvoudiger_richting (result : AVIResult.t) (specs : Level.t)
    (kenmerken : option Kenmerken.t) (s : suggestie) :
  In s (avi_eenvoudiger result specs kenmerken) ->
  richting_van s = Eenvoudiger.
Proof. unfold avi_eenvoudiger. intros Hs. regel_richting. Qed.

Lemma avi_moeilijker_richting (result : AVIResult.t) (specs : Level.t)
    (kenmerken : option Kenmerken.t) (s : suggestie) :
  In s (avi_moeilijker result specs kenmerken) ->
  richting_van s = Moeilijker.
Proof. unfold avi_moeilijker. intros Hs. regel_richting. Qed.

Lemma ref_eenvoudiger_richting (result : REFResult.t) (info : NiveauInfo.t)
    (s : suggestie) :
  In s (ref_eenvoudiger result info) -> richting_van s = Eenvoudiger.
Proof. unfold ref_eenvoudiger. intros Hs. regel_richting. Qed.

Lemma ref_moeilijker_richting (result : REFResult.t) (info : NiveauInfo.t)
    (s : suggestie) :
  In s (ref_moeilijker result info) -> richting_van s = Moeilijker.
Proof. unfold ref_moeilijker. intros Hs. regel_richting. Qed.

(** C6 (as amended): the direction of the advice follows from comparing
    the position of the target band with that of the current band, in two
    ways only: a target below the current band gives advice to simplify, a
    target above it or equal to it gives advice to enrich (the line on the
    word types of the target belongs to neither). *)
Theorem richting_volgt_rangorde (avi : AVIResult.t) (ref : REFResult.t)
    (target : pystr) :
  (forall l, get_avi_suggesties avi target = Ok l ->
     (level_index target < level_index (AVIResult.niveau avi) ->
      forall s, In s l ->
                richting_van s = Eenvoudiger \/ richting_van s = Algemeen)
     /\ (level_index (AVIResult.niveau avi) < level_index target ->
         forall s, In s l ->
                   richting_van s = Moeilijker \/ richting_van s = Algemeen)
     /\ (level_index target = level_index (AVIResult.niveau avi) ->
         forall s, In s l ->
                   richting_van s = Moeilijker \/ richting_van s = Algemeen))
  /\ (forall l t c,
        get_ref_suggesties ref target = Ok l ->
        dict_get niveau_order target = Some t ->
        dict_get niveau_order (REFResult.niveau ref) = Some c ->
        (t < c ->
         In RefTipEenvoudig l
         /\ forall s, In s l -> richting_van s = Eenvoudiger)
        /\ (c < t ->
            In RefTipVerrijk l
            /\ forall s, In s l -> richting_van s = Moeilijker)
        /\ (t = c ->
            In RefTipVerrijk l
            /\ forall s, In s l -> richting_van s = Moeilijker)).
Proof.
  split.
  - intros l Hl.
    destruct (target_specs_ok target) as (specs & Hs & _).
    rewrite (get_avi_suggesties_eq avi target specs Hs) in Hl.
    injection Hl as <-.
    assert (Hlaatste : forall s,
      In s (let w := Kenmerken.woordtypen <$> dict_get AVI_KENMERKEN target in
            als (waar_str w) (AviWoordtypen target (default [] w))) ->
      richting_van s = Algemeen).
    { intros s Hin. apply In_als in Hin as [_ ->]. reflexivity. }
    destruct (Nat.ltb_spec (level_index target)
                           (level_index (AVIResult.niveau avi))) as [Hlt|Hge];
      (split; [|split]); intros Hcmp s Hin; try lia;
      apply in_app_iff in Hin as [Hin | Hin]; auto.
    + left. apply (avi_eenvoudiger_richting _ _ _ _ Hin).
    + left. apply (avi_moeilijker_richting _ _ _ _ Hin).
    + left. apply (avi_moeilijker_richting _ _ _ _ Hin).
  - intros l t c Hl Ht Hc.
    assert (Hi : exists info, dict_get REF_NIVEAU_INFO target = Some info).
    { unfold get_ref_suggesties, dict_index in Hl.
      destruct (dict_get REF_NIVEAU_INFO target) as [info|];
        [eauto | discriminate]. }
    destruct Hi as [info Hi].
    rewrite (get_ref_suggesties_eq ref target info t c Hi Ht Hc) in Hl.
    injection Hl as <-.
    destruct (Nat.ltb_spec t c) as [Hlt|Hge].
    + split; [|split; intros; lia]. intros _. split.
      * unfold ref_eenvoudiger. do 3 (apply in_or_app; right).
        left. reflexivity.
      * intros s Hin. apply (ref_eenvoudiger_richting _ _ _ Hin).
    + assert (Hm : In RefTipVerrijk (ref_moeilijker ref info)
                   /\ forall s, In s (ref_moeilijker ref info) ->
                                richting_van s = Moeilijker).
      { split.
        - unfold ref_moeilijker. do 4 (apply in_or_app; right).
          left. reflexivity.
        - intros s Hin. apply (ref_moeilijker_richting _ _ _ Hin). }
      split; [intros; lia|]. split; intros _; exact Hm.
Qed.

Lemma richting_volgt_rangorde_witness :
  exists l,
    get_ref_suggesties ref_op_profiel (lit "1F") = Ok l
    /\ In RefTipEenvoudig l.
Proof.
  pose (info := NiveauInfo.mk (lit "Einde basisonderwijs / vmbo-bb")
                  (473 # 100) (109 # 10) (7 # 1)).
  assert (Hl : get_ref_suggesties ref_op_profiel (lit "1F")
               = Ok (ref_eenvoudiger ref_op_profiel info))
    by (vm_compute; reflexivity).
  exists (ref_eenvoudiger ref_op_profiel info). split; [exact Hl|].
  destruct (proj2 (richting_volgt_rangorde
                     (@avi_resultaat latin1 lijst_boom tekst_boom None)
                     ref_op_profiel (lit "1F")) _ 1 2 Hl) as [Hlager _].
  - reflexivity.
  - vm_compute. reflexivity.
  - apply Hlager. lia.
Defined.

(** The analysis of a text in band "1F" with target "1F": the positions
    are equal and every line is advice to enrich, the same branch as for a
    target above the current band. *)
Lemma gelijke_rang_is_moeilijker :
  exists r l,
    @analyse_ref latin1 lijst_boom tekst_hond = Ok (Some r)
    /\ REFResult.niveau r = lit "1F"
    /\ dict_get niveau_order (REFResult.niveau r)
       = dict_get niveau_order (lit "1F")
    /\ get_ref_suggesties r (lit "1F") = Ok l
    /\ In RefTipVerrijk l
    /\ Forall (fun s => richting_van s = Moeilijker) l
    /\ exists info, 
         dict_get REF_NIVEAU_INFO (lit "1F") = Some info
         /\ l = ref_moeilijker r info.
Proof.
  eexists. eexists.
  split; [vm_compute; reflexivity|].
  split; [vm_compute; reflexivity|].
  split; [vm_compute; reflexivity|].
  split; [vm_compute; reflexivity|].
  split; [cbn; tauto|].
  split; [repeat constructor|].
  eexists. split; vm_compute; reflexivity.
Qed.

(** * Further properties of the engine *)

(** ** Tokens *)


Lemma findall_words_tokens `{Unicode} (s : pystr) :
  forall acc t,
    forallb is_word acc = true ->
    In t (findall_words acc s) ->
    t <> [] /\ forallb is_word t = true.
Proof.
  assert (Hrev : forall acc, acc <> [] -> forallb is_word acc = true ->
                 rev acc <> [] /\ forallb is_word (rev acc) = true).
  { intros acc Hne Hacc. split.
    - intros E. apply Hne. rewrite <- (rev_involutive acc), E. reflexivity.
    - apply forallb_forall. intros x Hx. apply in_rev in Hx.
      exact (proj1 (forallb_forall _ _) Hacc x Hx). }
  induction s as [|c s IH]; intros acc t Hacc Ht; cbn [findall_words] in Ht.
  - destruct acc as [|a acc]; [destruct Ht|].
    destruct Ht as [<- | []]. apply Hrev; [discriminate | exact Hacc].
  - destruct (is_word c) eqn:Ec.
    + apply (IH (c :: acc) t); [|exact Ht].
      cbn [forallb]. rewrite Ec, Hacc. reflexivity.
    + destruct acc as [|a acc].
      * apply (IH [] t); [reflexivity | exact Ht].
      * destruct Ht as [<- | Ht].
        -- apply Hrev; [discriminate | exact Hacc].
        -- apply (IH [] t); [reflexivity | exact Ht].
Qed.


(** ** Sentences *)

Lemma lstrip_kop (s : pystr) :
  match lstrip s with
  | [] => True
  | c :: _ => is_space c = false
  end.
Proof.
  induction s as [|c s IH]; cbn [lstrip]; [exact I|].
  destruct (is_space c) eqn:E; [exact IH | exact E].
Qed.

Lemma lstrip_vast (s : pystr) :
  match s with
  | [] => True
  | c :: _ => is_space c = false
  end -> lstrip s = s.
Proof.
  destruct s as [|c s]; [reflexivity|]. cbn [lstrip]. intros ->. reflexivity.
Qed.

Lemma lstrip_idem (s : pystr) : lstrip (lstrip s) = lstrip s.
Proof. apply lstrip_vast, lstrip_kop. Qed.

Lemma strip_idem (s : pystr) : strip (strip s) = strip s.
Proof.
  unfold strip. set (t := lstrip s).
  assert (Hl : lstrip (rstrip t) = rstrip t).
  { apply lstrip_vast.
    destruct (rstrip_split t) as (ws & Ht & _).
    pose proof (lstrip_kop s) as Hk. fold t in Hk.
    destruct (rstrip t) as [|c u]; [exact I|].
    rewrite Ht in Hk. exact Hk. }
  rewrite Hl. unfold rstrip. rewrite rev_involutive, lstrip_idem.
  reflexivity.
Qed.

Lemma lstrip_deel (P : char -> bool) (s : pystr) :
  forallb P s = true -> forallb P (lstrip s) = true.
Proof.
  induction s as [|c s IH]; cbn [lstrip]; [auto|].
  destruct (is_space c); [|auto].
  cbn [forallb]. intros E. apply andb_true_iff in E as [_ E]. auto.
Qed.

Lemma forallb_rev {A} (P : A -> bool) (l : list A) :
  forallb P (rev l) = forallb P l.
Proof.
  apply eq_true_iff_eq. rewrite !forallb_forall. split; intros Hl x Hx.
  - apply Hl, in_rev. rewrite rev_involutive. exact Hx.
  - apply Hl, in_rev. exact Hx.
Qed.

Lemma strip_deel (P : char -> bool) (s : pystr) :
  forallb P s = true -> forallb P (strip s) = true.
Proof.
  intros Hs. unfold strip, rstrip.
  rewrite forallb_rev. apply lstrip_deel. rewrite forallb_rev.
  apply lstrip_deel, Hs.
Qed.

Lemma re_split_geen_punt (s : pystr) :
  (forall acc p,
     forallb (fun c => negb (is_punct c)) acc = true ->
     In p (re_split acc s) ->
     forallb (fun c => negb (is_punct c)) p = true)
  /\ (forall p, In p (skip_punct s) ->
                forallb (fun c => negb (is_punct c)) p = true).
Proof.
  induction s as [|c s [IH1 IH2]]; split.
  - intros acc p Hacc [<- | []]. rewrite forallb_rev. exact Hacc.
  - intros p [<- | []]. reflexivity.
  - intros acc p Hacc Hp. cbn [re_split] in Hp.
    destruct (is_punct c) eqn:Ec.
    + destruct Hp as [<- | Hp]; [rewrite forallb_rev; exact Hacc | auto].
    + apply (IH1 (c :: acc) p); [|exact Hp].
      cbn [forallb]. rewrite Ec, Hacc. reflexivity.
  - intros p Hp. cbn [skip_punct] in Hp.
    destruct (is_punct c) eqn:Ec; [auto|].
    apply (IH1 [c] p); [|exact Hp]. cbn [forallb]. rewrite Ec. reflexivity.
Qed.

Lemma re_split_zonder_punt (s : pystr) :
  forallb (fun c => negb (is_punct c)) s = true ->
  forall acc, re_split acc s = [rev acc ++ s].
Proof.
  induction s as [|c s IH]; intros Hs acc; cbn [re_split].
  - rewrite app_nil_r. reflexivity.
  - cbn [forallb] in Hs. apply andb_true_iff in Hs as [Hc Hs].
    apply negb_true_iff in Hc. rewrite Hc, (IH Hs). cbn [rev].
    rewrite <- app_assoc. reflexivity.
Qed.

(** X2: every sentence that [split_sentences] returns has more than five
    characters, contains none of the characters . ! ? and has no white space
    at either end (stripping it again changes nothing). *)
Theorem split_sentences_zinnen (text zin : pystr) :
  In zin (split_sentences text) ->
  5 < length zin
  /\ forallb (fun c => negb (is_punct c)) zin = true
  /\ strip zin = zin
  /\ match zin with [] => False | c :: _ => is_space c = false end
  /\ match rev zin with [] => False | c :: _ => is_space c = false end.
Proof.
  unfold split_sentences. intros Hin.
  apply in_map_iff in Hin as (p & <- & Hp).
  apply filter_In in Hp as [Hp Hf].
  apply andb_true_iff in Hf as [_ Hlen]. apply Nat.ltb_lt in Hlen.
  assert (Hidem : strip (strip p) = strip p) by apply strip_idem.
  split; [exact Hlen|]. split.
  { apply strip_deel.
    apply (proj1 (re_split_geen_punt text) [] p); [reflexivity | exact Hp]. }
  split; [exact Hidem|].
  assert (Hkop : forall s, strip s = s -> 5 < length s ->
                 match s with [] => False | c :: _ => is_space c = false end).
  { intros s Hs Hl. destruct s as [|c s]; [cbn in Hl; lia|].
    unfold strip in Hs.
    pose proof (lstrip_kop (c :: s)) as Hk.
    destruct (rstrip_split (lstrip (c :: s))) as (ws & Ht & _).
    rewrite Hs in Ht. rewrite Ht in Hk. exact Hk. }
  split; [apply Hkop; assumption|].
  assert (Hrev : rev (strip p) = lstrip (rev (lstrip p))).
  { unfold strip, rstrip. apply rev_involutive. }
  pose proof (lstrip_kop (rev (lstrip p))) as Hk. rewrite <- Hrev in Hk.
  destruct (rev (strip p)) as [|c r] eqn:Er; [|exact Hk].
  apply (f_equal (@length char)) in Er. rewrite length_rev in Er.
  cbn [length] in Er. lia.
Qed.

Lemma split_sentences_zinnen_witness :
  In (lit "Dit is een zin") (split_sentences (lit "Hallo. Ja! Dit is een zin?! "))
  /\ strip (lit "Dit is een zin") = lit "Dit is een zin".
Proof.
  assert (Hin : In (lit "Dit is een zin")
                   (split_sentences (lit "Hallo. Ja! Dit is een zin?! ")))
    by (vm_compute; tauto).
  split; [exact Hin|].
  exact (proj1 (proj2 (proj2 (split_sentences_zinnen _ _ Hin)))).
Defined.

(** X3: a text without any of the characters . ! ? is one sentence, the
    stripped text, when that has more than five characters, and no sentence
    at all otherwise (the analyses then take the whole text as one
    sentence). *)
Theorem split_sentences_zonder_punt (text : pystr) :
  forallb (fun c => negb (is_punct c)) text = true ->
  split_sentences text
  = if 5 <? length (strip text) then [strip text] else [].
Proof.
  intros Hs. unfold split_sentences.
  rewrite (re_split_zonder_punt text Hs []). cbn [rev app List.filter].
  destruct (5 <? length (strip text)) eqn:E.
  - assert (Hne : str_eqb (strip text) [] = false).
    { destruct (strip text); [discriminate | reflexivity]. }
    rewrite Hne. reflexivity.
  - rewrite andb_false_r. reflexivity.
Qed.

Lemma split_sentences_zonder_punt_witness :
  split_sentences (lit "  de kat zit op de mat ") = [lit "de kat zit op de mat"]
  /\ split_sentences (lit " kat ") = [].
Proof.
  split.
  - rewrite split_sentences_zonder_punt by (vm_compute; reflexivity).
    vm_compute. reflexivity.
  - rewrite split_sentences_zonder_punt by (vm_compute; reflexivity).
    vm_compute. reflexivity.
Defined.

(** ** Syllable counts *)

Lemma klinker_runs_grens (s : pystr) :
  forall vorige,
    2 * klinker_runs_vanaf vorige s
    <= length s + (if vorige then 0 else 1).
Proof.
  induction s as [|c s IH]; intros vorige; cbn [klinker_runs_vanaf length].
  - destruct vorige; lia.
  - pose proof (IH (char_in c klinkers)) as IHc.
    destruct (char_in c klinkers), vorige; cbn [andb negb] in *; lia.
Qed.

(** X4: a word that is not empty after lowercasing and stripping counts at
    least one syllable and at most half its number of characters, rounded
    up: two runs of vowels are always separated by another character. *)
Theorem tel_lettergrepen_grenzen `{Unicode} (woord : pystr) :
  strip (str_lower woord) <> [] ->
  1 <= tel_lettergrepen woord
  /\ 2 * tel_lettergrepen woord <= length (strip (str_lower woord)) + 1.
Proof.
  intros Hne. unfold tel_lettergrepen.
  destruct (strip (str_lower woord)) as [|c s] eqn:E; [congruence|].
  rewrite (proj1 (tel_loop_klinker_runs (c :: s))).
  pose proof (klinker_runs_grens (c :: s) false) as Hg.
  cbn [length] in *. lia.
Qed.

Lemma tel_lettergrepen_grenzen_witness :
  1 <= @tel_lettergrepen latin1 (lit "aeoa")
  /\ 2 * @tel_lettergrepen latin1 (lit "banana") <= 7.
Proof.
  split.
  - apply (@tel_lettergrepen_grenzen latin1 (lit "aeoa")).
    vm_compute. discriminate.
  - apply (@tel_lettergrepen_grenzen latin1 (lit "banana")).
    vm_compute. discriminate.
Defined.

(** ** Features of an analysis *)

Lemma Qnat_le (a b : nat) : a <= b -> (Qnat a <= Qnat b)%Q.
Proof. intros Hab. unfold Qnat. rewrite <- Zle_Qle. lia. Qed.

Lemma Qnat_pos (n : nat) : n <> 0 -> (0 < Qnat n)%Q.
Proof.
  intros Hn. unfold Qnat. change 0%Q with (inject_Z 0).
  rewrite <- Zlt_Qlt. lia.
Qed.

Lemma Qnat_inj (a b : nat) : (Qnat a == Qnat b)%Q -> a = b.
Proof.
  unfold Qnat, Qeq. cbn [Qnum Qden inject_Z]. lia.
Qed.

Lemma breuk_grenzen (f n : nat) :
  n <> 0 -> f <= n ->
  (0 <= Qnat f / Qnat n)%Q /\ (Qnat f / Qnat n <= 1)%Q
  /\ ((Qnat f / Qnat n == 1)%Q <-> f = n)
  /\ ((Qnat f / Qnat n == 0)%Q <-> f = 0).
Proof.
  intros Hn Hfn. pose proof (Qnat_pos n Hn) as Hpos.
  assert (Hnz : ~ (Qnat n == 0)%Q) by lra.
  assert (Hx : (Qnat n * (Qnat f / Qnat n) == Qnat f)%Q)
    by (apply Qmult_div_r, Hnz).
  split; [|split; [|split]].
  - apply Qle_shift_div_l; [exact Hpos|].
    rewrite Qmult_0_l. apply (Qnat_le 0). lia.
  - apply Qle_shift_div_r; [exact Hpos|].
    rewrite Qmult_1_l. apply Qnat_le, Hfn.
  - split.
    + intros E. rewrite E, Qmult_1_r in Hx. symmetry.
      apply Qnat_inj, Hx.
    + intros ->. unfold Qdiv. apply Qmult_inv_r, Hnz.
  - split.
    + intros E. rewrite E, Qmult_0_r in Hx.
      apply (Qnat_inj f 0). symmetry. exact Hx.
    + intros ->. unfold Qdiv. apply Qmult_0_l.
Qed.

Lemma filter_alles {A} (P : A -> bool) (l : list A) :
  length (List.filter P l) = length l <-> forallb P l = true.
Proof.
  induction l as [|a l IH]; cbn [List.filter forallb length]; [tauto|].
  pose proof (filter_length_le P l) as Hle.
  destruct (P a); cbn [length andb].
  - rewrite <- IH. lia.
  - split; [lia | discriminate].
Qed.

Lemma filter_niets {A} (P : A -> bool) (l : list A) :
  length (List.filter P l) = 0 <-> forallb (fun a => negb (P a)) l = true.
Proof.
  induction l as [|a l IH]; cbn [List.filter forallb length]; [tauto|].
  destruct (P a); cbn [length andb negb]; [split; [lia | discriminate]|].
  exact IH.
Qed.

Lemma pct_waarde_grenzen `{Unicode} (woordenlijst : gset pystr)
    (tokens : list pystr) (anders : Q) :
  tokens <> [] -> (0 <= anders)%Q -> (anders <= 100)%Q ->
  (0 <= pct_waarde woordenlijst tokens anders)%Q
  /\ (pct_waarde woordenlijst tokens anders <= 100)%Q
  /\ (woordenlijst <> ∅ ->
      ((pct_waarde woordenlijst tokens anders == 100)%Q
       <-> forall t, In t tokens -> t ∈ woordenlijst)
      /\ ((pct_waarde woordenlijst tokens anders == 0)%Q
          <-> forall t, In t tokens -> t ∉ woordenlijst)).
Proof.
  intros Hne H0 H100. unfold pct_waarde.
  assert (Hn : length tokens <> 0) by (destruct tokens; [congruence | discriminate]).
  destruct (breuk_grenzen (freq_count woordenlijst tokens) (length tokens) Hn
              (filter_length_le _ _)) as (Hge & Hle & Heen & Hnul).
  set (x := (Qnat (freq_count woordenlijst tokens) / Qnat (length tokens))%Q)
    in *.
  case_bool_decide as Hwl.
  - split; [lra|]. split; [lra|]. intros _. split.
    + transitivity (x == 1)%Q; [split; intros E; lra|].
      rewrite Heen. unfold freq_count. rewrite filter_alles, forallb_forall.
      split; intros Hall t Ht.
      * specialize (Hall t Ht). apply bool_decide_eq_true in Hall.
        exact Hall.
      * apply bool_decide_eq_true. exact (Hall t Ht).
    + transitivity (x == 0)%Q; [split; intros E; lra|].
      rewrite Hnul. unfold freq_count. rewrite filter_niets, forallb_forall.
      split; intros Hall t Ht.
      * specialize (Hall t Ht). apply negb_true_iff in Hall.
        apply bool_decide_eq_false in Hall. exact Hall.
      * apply negb_true_iff, bool_decide_eq_false. exact (Hall t Ht).
  - split; [exact H0|]. split; [exact H100|]. intros Hwl'. contradiction.
Qed.

(** X5: in every result of either analysis the frequent-word percentage
    lies between 0 and 100; with a word list that is not empty it is 100
    exactly when every token is in the list and 0 exactly when none is. *)
Theorem pct_frequent_grenzen `{Unicode} (woordenlijst : gset pystr)
    (tekst : pystr) (target_niveau : option pystr) :
  (forall r, analyse_avi woordenlijst tekst target_niveau = Ok (Some r) ->
     (0 <= AVIResult.pct_frequent r <= 100)%Q
     /\ (woordenlijst <> ∅ ->
         ((AVIResult.pct_frequent r == 100)%Q
          <-> forall t, In t (tokenize tekst) -> t ∈ woordenlijst)
         /\ ((AVIResult.pct_frequent r == 0)%Q
             <-> forall t, In t (tokenize tekst) -> t ∉ woordenlijst)))
  /\ (forall r, analyse_ref woordenlijst tekst = Ok (Some r) ->
        (0 <= REFResult.pct_frequent r <= 100)%Q
        /\ (woordenlijst <> ∅ ->
            ((REFResult.pct_frequent r == 100)%Q
             <-> forall t, In t (tokenize tekst) -> t ∈ woordenlijst)
            /\ ((REFResult.pct_frequent r == 0)%Q
                <-> forall t, In t (tokenize tekst) -> t ∉ woordenlijst))).
Proof.
  split; intros r Hr.
  - apply analyse_avi_some in Hr as [Hlen ->].
    unfold avi_resultaat. cbn [AVIResult.pct_frequent].
    destruct (pct_waarde_grenzen woordenlijst (tokenize tekst) (70 # 1))
      as (H0 & H100 & Hwl); try lra.
    { intros E. rewrite E in Hlen. cbn in Hlen. lia. }
    auto.
  - apply analyse_ref_some in Hr as [Hlen ->].
    unfold ref_resultaat. cbn [REFResult.pct_frequent].
    destruct (pct_waarde_grenzen woordenlijst (tokenize tekst) (65 # 1))
      as (H0 & H100 & Hwl); try lra.
    { intros E. rewrite E in Hlen. cbn in Hlen. lia. }
    auto.
Qed.

Lemma pct_frequent_grenzen_witness :
  exists r,
    @analyse_avi latin1 lijst_boom tekst_boom None = Ok (Some r)
    /\ (0 <= AVIResult.pct_frequent r <= 100)%Q.
Proof.
  exists (@avi_resultaat latin1 lijst_boom tekst_boom None).
  assert (Hr : @analyse_avi latin1 lijst_boom tekst_boom None
               = Ok (Some (@avi_resultaat latin1 lijst_boom tekst_boom None)))
    by (vm_compute; reflexivity).
  split; [exact Hr|].
  exact (proj1 (proj1 (@pct_frequent_grenzen latin1 lijst_boom tekst_boom
                         None) _ Hr)).
Defined.

Lemma som_lengtes_grens (tokens : list pystr) :
  (forall t, In t tokens -> t <> []) ->
  length tokens <= som (List.map (fun t => length t) tokens).
Proof.
  induction tokens as [|t tokens IH]; intros Hne; [reflexivity|].
  cbn [List.map som fold_right length].
  fold (som (List.map (fun t => length t) tokens)).
  assert (Ht : t <> []) by (apply Hne; left; reflexivity).
  destruct t; [congruence|]. cbn [length].
  assert (IH' : length tokens <= som (List.map (fun t => length t) tokens)).
  { apply IH. intros t' Ht'. apply Hne. right. exact Ht'. }
  lia.
Qed.

Lemma gem_woordlengte_van_grens `{Unicode} (tekst : pystr) :
  tokenize tekst <> [] ->
  (1 <= gem_woordlengte_van (tokenize tekst))%Q.
Proof.
  intros Hne. unfold gem_woordlengte_van.
  assert (Hn : length (tokenize tekst) <> 0)
    by (destruct (tokenize tekst); [congruence | discriminate]).
  apply Qle_shift_div_l; [apply Qnat_pos, Hn|].
  rewrite Qmult_1_l. apply Qnat_le, som_lengtes_grens.
  intros t Ht.
  apply (findall_words_tokens (str_lower tekst) [] t); [reflexivity|exact Ht].
Qed.

(** X6: in every result of either analysis the mean word length is at
    least 1, and the technical-reading score is therefore at least
    43.21 - 0.23 * 100 + 8.63 * 1 = 28.84: [bilt] is never negative. *)
Theorem gem_woordlengte_en_bilt_ondergrens `{Unicode}
    (woordenlijst : gset pystr) (tekst : pystr)
    (target_niveau : option pystr) :
  (forall r, analyse_avi woordenlijst tekst target_niveau = Ok (Some r) ->
     (1 <= AVIResult.gem_woordlengte r)%Q
     /\ (2884 # 100 <= AVIResult.bilt r)%Q)
  /\ (forall r, analyse_ref woordenlijst tekst = Ok (Some r) ->
        (1 <= REFResult.gem_woordlengte r)%Q).
Proof.
  split; intros r Hr.
  - apply analyse_avi_some in Hr as [Hlen ->].
    assert (Hne : tokenize tekst <> [])
      by (intros E; rewrite E in Hlen; cbn in Hlen; lia).
    unfold avi_resultaat. cbn [AVIResult.gem_woordlengte AVIResult.bilt].
    pose proof (gem_woordlengte_van_grens tekst Hne) as Hg.
    destruct (pct_waarde_grenzen woordenlijst (tokenize tekst) (70 # 1) Hne)
      as (_ & H100 & _); try lra.
    split; [exact Hg|].
    unfold bilt_formule, BILT_INTERCEPT, BILT_COEF_FREQ, BILT_COEF_WLEN.
    lra.
  - apply analyse_ref_some in Hr as [Hlen ->].
    assert (Hne : tokenize tekst <> [])
      by (intros E; rewrite E in Hlen; cbn in Hlen; lia).
    unfold ref_resultaat. cbn [REFResult.gem_woordlengte].
    apply (gem_woordlengte_van_grens tekst Hne).
Qed.

Lemma gem_woordlengte_en_bilt_ondergrens_witness :
  exists r,
    @analyse_avi latin1 lijst_boom tekst_hond None = Ok (Some r)
    /\ (2884 # 100 <= AVIResult.bilt r)%Q.
Proof.
  exists (@avi_resultaat latin1 lijst_boom tekst_hond None).
  assert (Hr : @analyse_avi latin1 lijst_boom tekst_hond None
               = Ok (Some (@avi_resultaat latin1 lijst_boom tekst_hond None)))
    by (vm_compute; reflexivity).
  split; [exact Hr|].
  exact (proj2 (proj1 (@gem_woordlengte_en_bilt_ondergrens latin1 lijst_boom
                         tekst_hond None) _ Hr)).
Defined.

(** ** The histogram, entry by entry *)

Lemma verdeling_stap_lookup `{Unicode} (m : gmap nat nat) (t : pystr)
    (k : nat) :
  verdeling_stap m t !! k
  = if tel_lettergrepen t =? k then Some (default 0 (m !! k) + 1)
    else m !! k.
Proof.
  unfold verdeling_stap.
  destruct (Nat.eqb_spec (tel_lettergrepen t) k) as [<- | Hne].
  - apply lookup_insert_eq.
  - apply lookup_insert_ne, Hne.
Qed.

Lemma verdeling_fold_lookup `{Unicode} (tokens : list pystr) (k : nat) :
  forall m : gmap nat nat,
    fold_left verdeling_stap tokens m !! k
    = if aantal_met k tokens =? 0 then m !! k
      else Some (default 0 (m !! k) + aantal_met k tokens).
Proof.
  unfold aantal_met.
  induction tokens as [|t tokens IH]; intros m;
    cbn [fold_left List.filter]; [reflexivity|].
  rewrite IH, verdeling_stap_lookup.
  destruct (tel_lettergrepen t =? k); cbn [length].
  - destruct (length _ =? 0) eqn:E.
    + apply Nat.eqb_eq in E. rewrite E. cbn. f_equal.
    + cbn. f_equal. change (default 0 (Some ?x)) with x. lia.
  - reflexivity.
Qed.

(** X7: in every result of [analyse_avi] the histogram holds under each
    syllable count [k] exactly the number of tokens that count [k]
    syllables, and has no entry for a count that no token has. *)
Theorem verdeling_per_lettergreep `{Unicode} (woordenlijst : gset pystr)
    (tekst : pystr) (target_niveau : option pystr) (r : AVIResult.t)
    (k : nat) :
  analyse_avi woordenlijst tekst target_niveau = Ok (Some r) ->
  default 0 (AVIResult.lettergreep_verdeling r !! k)
  = aantal_met k (tokenize tekst)
  /\ (AVIResult.lettergreep_verdeling r !! k = None
      <-> forall t, In t (tokenize tekst) -> tel_lettergrepen t <> k).
Proof.
  intros Hr. apply analyse_avi_some in Hr as [_ ->].
  unfold avi_resultaat. cbn [AVIResult.lettergreep_verdeling].
  unfold verdeling_van. rewrite verdeling_fold_lookup, lookup_empty.
  assert (Hnul : aantal_met k (tokenize tekst) = 0
                 <-> forall t, In t (tokenize tekst) ->
                               tel_lettergrepen t <> k).
  { unfold aantal_met. rewrite filter_niets, forallb_forall.
    split; intros Hall t Ht; specialize (Hall t Ht).
    - apply negb_true_iff, Nat.eqb_neq in Hall. exact Hall.
    - apply negb_true_iff, Nat.eqb_neq. exact Hall. }
  destruct (Nat.eqb_spec (aantal_met k (tokenize tekst)) 0) as [E | E].
  - rewrite E. split; [reflexivity|]. rewrite <- Hnul. tauto.
  - split; [reflexivity|]. rewrite <- Hnul. split; [discriminate | tauto].
Qed.

Lemma verdeling_per_lettergreep_witness :
  exists r,
    @analyse_avi latin1 lijst_boom tekst_hond None = Ok (Some r)
    /\ default 0 (AVIResult.lettergreep_verdeling r !! 2) = 1.
Proof.
  exists (@avi_resultaat latin1 lijst_boom tekst_hond None).
  assert (Hr : @analyse_avi latin1 lijst_boom tekst_hond None
               = Ok (Some (@avi_resultaat latin1 lijst_boom tekst_hond None)))
    by (vm_compute; reflexivity).
  split; [exact Hr|].
  rewrite (proj1 (@verdeling_per_lettergreep latin1 lijst_boom tekst_hond
                    None _ 2 Hr)).
  vm_compute. reflexivity.
Defined.

(** ** Words and sentences over the caps of the target *)

Lemma te_lang_waarde_grens `{Unicode} (target_niveau : option pystr)
    (tokens sentences : list pystr) :
  te_lang_waarde target_niveau tokens sentences
  = (te_lange_woorden_van
       (grens_van Kenmerken.max_lettergrepen target_niveau) tokens,
     te_lange_zinnen_van
       (grens_van Kenmerken.max_zinslengte target_niveau) sentences).
Proof.
  unfold te_lang_waarde, grens_van.
  destruct (waar_str target_niveau); [|reflexivity].
  f_equal.
  - destruct (_ ≫= Kenmerken.max_lettergrepen) as [[|n]|]; reflexivity.
  - destruct (_ ≫= Kenmerken.max_zinslengte) as [[|n]|]; reflexivity.
Qed.

Lemma grens_van_positief (veld : Kenmerken.t -> option nat)
    (target_niveau : option pystr) (cap : nat) :
  grens_van veld target_niveau = Some cap ->
  0 < cap
  /\ exists tn k,
       target_niveau = Some tn /\ dict_get AVI_KENMERKEN tn = Some k
       /\ veld k = Some cap.
Proof.
  unfold grens_van. destruct target_niveau as [[|c tn]|]; cbn [waar_str];
    try discriminate.
  change (default [] (Some (c :: tn))) with (c :: tn).
  destruct (dict_get AVI_KENMERKEN (c :: tn)) as [k|] eqn:Ek;
    cbn [mbind option_bind]; [|discriminate].
  destruct (veld k) as [[|n]|] eqn:Ev; try discriminate.
  intros [= <-]. split; [lia|]. eauto.
Qed.

(** What the loop over the tokens has collected after [tokens]. *)
Lemma te_lang_fold `{Unicode} (cap : nat) (tokens : list pystr) :
  let st := fold_left (te_lang_stap cap) tokens ([], ∅) in
  (forall w, w ∈ snd st <-> In w (List.map fst (fst st)))
  /\ NoDup (List.map fst (fst st))
  /\ (forall w lg, In (w, lg) (fst st)
                   <-> In w tokens /\ lg = tel_lettergrepen w /\ cap < lg).
Proof.
  induction tokens as [|t tokens IH] using rev_ind; cbn zeta.
  - cbn [fold_left fst snd List.map]. split; [|split].
    + intros w. split; [set_solver | intros []].
    + constructor.
    + intros w lg. split; [intros [] | intros [[] _]].
  - rewrite fold_left_app. cbn [fold_left].
    destruct (fold_left (te_lang_stap cap) tokens ([], ∅))
      as [acc gezien] eqn:Est.
    cbn zeta in IH. cbn [fst snd] in IH.
    destruct IH as (Hgez & Hnd & Hacc).
    assert (Houd : forall w lg,
              In w tokens /\ lg = tel_lettergrepen w /\ cap < lg ->
              In w (tokens ++ [t]) /\ lg = tel_lettergrepen w /\ cap < lg).
    { intros w lg (Hw & Hlg & Hc). rewrite in_app_iff. auto. }
    unfold te_lang_stap. case_bool_decide as Hin.
    + cbn [fst snd]. split; [exact Hgez|]. split; [exact Hnd|].
      intros w lg. rewrite Hacc. split; [apply Houd|].
      intros (Hw & Hlg & Hc). apply in_app_iff in Hw as [Hw | [<- | []]];
        [auto|].
      apply Hgez, in_map_iff in Hin as ([w' lg'] & Hfst & Hin').
      cbn [fst] in Hfst. subst w'. apply Hacc in Hin' as (Hw' & _ & _).
      auto.
    + destruct (Nat.ltb_spec cap (tel_lettergrepen t)) as [Hlt | Hge];
        cbn [fst snd].
      * split; [|split].
        -- intros w. rewrite elem_of_union, elem_of_singleton, Hgez.
           rewrite map_app, in_app_iff. cbn [List.map fst In].
           intuition congruence.
        -- rewrite map_app. cbn [List.map fst].
           apply NoDup_app. split; [exact Hnd|]. split.
           ++ intros w Hw Hw'. apply list_elem_of_In in Hw, Hw'.
              destruct Hw' as [<- | []]. apply Hin, Hgez, Hw.
           ++ apply NoDup_singleton.
        -- intros w lg. rewrite !in_app_iff, Hacc. cbn [In]. split.
           ++ intros [(Hw & Hlg & Hc) | [[= <- <-] | []]]; auto.
           ++ intros ([Hw | [<- | []]] & Hlg & Hc); subst; auto.
      * split; [exact Hgez|]. split; [exact Hnd|].
        intros w lg. rewrite Hacc. split; [apply Houd|].
        intros (Hw & Hlg & Hc). apply in_app_iff in Hw as [Hw | [<- | []]];
          [auto|]. lia.
Qed.

(** X8: the words that [analyse_avi] reports as too long for the target
    are exactly the tokens whose syllable count is above the target's cap on
    syllables, each once and with that count; without such a cap there are
    none. *)
Theorem te_lange_woorden_precies `{Unicode} (woordenlijst : gset pystr)
    (tekst : pystr) (target_niveau : option pystr) (r : AVIResult.t) :
  analyse_avi woordenlijst tekst target_niveau = Ok (Some r) ->
  NoDup (List.map fst (AVIResult.te_lange_woorden r))
  /\ (forall w lg,
        In (w, lg) (AVIResult.te_lange_woorden r)
        <-> exists cap,
              grens_van Kenmerken.max_lettergrepen target_niveau = Some cap
              /\ In w (tokenize tekst)
              /\ lg = tel_lettergrepen w /\ cap < lg).
Proof.
  intros Hr. apply analyse_avi_some in Hr as [_ ->].
  unfold avi_resultaat. cbn [AVIResult.te_lange_woorden].
  rewrite te_lang_waarde_grens. cbn [fst].
  destruct (grens_van Kenmerken.max_lettergrepen target_niveau)
    as [cap|] eqn:Eg.
  - destruct (grens_van_positief _ _ _ Eg) as [Hpos _].
    unfold te_lange_woorden_van.
    destruct cap as [|cap]; [lia|]. cbn [waar_int].
    change (default 0 (Some (S cap))) with (S cap).
    destruct (te_lang_fold (S cap) (tokenize tekst)) as (_ & Hnd & Hacc).
    split; [exact Hnd|]. intros w lg. rewrite Hacc. split.
    + intros Hw. exists (S cap). auto.
    + intros (cap' & [= <-] & Hw). exact Hw.
  - cbn [te_lange_woorden_van waar_int List.map]. split; [constructor|].
    intros w lg. split; [intros [] | intros (cap & Hc & _); discriminate].
Qed.

Lemma te_lange_woorden_precies_witness :
  exists r,
    @analyse_avi latin1 lijst_boom tekst_hond (Some (lit "AVI-M3"))
    = Ok (Some r)
    /\ In (lit "omdat", 2) (AVIResult.te_lange_woorden r).
Proof.
  pose (r0 := @avi_resultaat latin1 lijst_boom tekst_hond
                (Some (lit "AVI-M3"))).
  assert (Hr : @analyse_avi latin1 lijst_boom tekst_hond (Some (lit "AVI-M3"))
               = Ok (Some r0))
    by (vm_compute; reflexivity).
  exists r0. split; [exact Hr|].
  pose proof (proj2 (@te_lange_woorden_precies latin1 lijst_boom tekst_hond
                       (Some (lit "AVI-M3")) r0 Hr) (lit "omdat") 2)
    as [_ Hterug].
  clearbody r0. apply Hterug.
  exists 1. split; [vm_compute; reflexivity|].
  split; [vm_compute; tauto|].
  split; [vm_compute; reflexivity | vm_compute; lia].
Defined.

Lemma omap_als_lengte {A B} (p : A -> bool) (f : A -> B) (l : list A) :
  length (omap (fun x => if p x then Some (f x) else None) l)
  = length (List.filter p l).
Proof.
  induction l as [|a l IH]; [reflexivity|].
  change (omap (fun x => if p x then Some (f x) else None) (a :: l))
    with (match (if p a then Some (f a) else None) with
          | Some y => y :: omap (fun x => if p x then Some (f x) else None) l
          | None => omap (fun x => if p x then Some (f x) else None) l
          end).
  cbn [List.filter]. destruct (p a); cbn [length]; rewrite IH; reflexivity.
Qed.

Lemma te_lange_zinnen_lengte `{Unicode} (cap : nat) (sentences : list pystr) :
  length
    (omap (fun s =>
             let wc := length (tokenize s) in
             if cap <? wc then Some (LangeZin.mk (take 80 s) wc) else None)
          sentences)
  = length (List.filter (fun s => cap <? length (tokenize s)) sentences).
Proof.
  apply (omap_als_lengte (fun s => cap <? length (tokenize s))
           (fun s => LangeZin.mk (take 80 s) (length (tokenize s)))).
Qed.

(** X9: the sentences that [analyse_avi] reports as too long for the target
    are exactly the sentences with more tokens than the target's cap on
    words per sentence, each given by its first 80 characters and its token
    count; a sentence that occurs twice is reported twice, and without such
    a cap there are none. *)
Theorem te_lange_zinnen_precies `{Unicode} (woordenlijst : gset pystr)
    (tekst : pystr) (target_niveau : option pystr) (r : AVIResult.t) :
  analyse_avi woordenlijst tekst target_niveau = Ok (Some r) ->
  (forall z,
     In z (AVIResult.te_lange_zinnen r)
     <-> exists cap s,
           grens_van Kenmerken.max_zinslengte target_niveau = Some cap
           /\ In s (split_sentences tekst)
           /\ z = LangeZin.mk (take 80 s) (length (tokenize s))
           /\ cap < length (tokenize s))
  /\ (forall z, In z (AVIResult.te_lange_zinnen r) ->
                length (LangeZin.tekst z) <= 80)
  /\ length (AVIResult.te_lange_zinnen r)
     = match grens_van Kenmerken.max_zinslengte target_niveau with
       | Some cap =>
         length (List.filter (fun s => cap <? length (tokenize s))
                             (split_sentences tekst))
       | None => 0
       end.
Proof.
  intros Hr. apply analyse_avi_some in Hr as [_ ->].
  unfold avi_resultaat. cbn [AVIResult.te_lange_zinnen].
  rewrite te_lang_waarde_grens. cbn [snd].
  assert (Hchar : forall z,
    In z (te_lange_zinnen_van
            (grens_van Kenmerken.max_zinslengte target_niveau)
            (split_sentences tekst))
    <-> exists cap s,
          grens_van Kenmerken.max_zinslengte target_niveau = Some cap
          /\ In s (split_sentences tekst)
          /\ z = LangeZin.mk (take 80 s) (length (tokenize s))
          /\ cap < length (tokenize s)).
  { intros z.
    destruct (grens_van Kenmerken.max_zinslengte target_niveau)
      as [cap|] eqn:Eg.
    - destruct (grens_van_positief _ _ _ Eg) as [Hpos _].
      destruct cap as [|cap]; [lia|].
      unfold te_lange_zinnen_van. cbn [waar_int].
      change (default 0 (Some (S cap))) with (S cap).
      rewrite <- list_elem_of_In, list_elem_of_omap. split.
      + intros (s & Hs & Hz). apply list_elem_of_In in Hs.
        cbv zeta in Hz.
        destruct (Nat.ltb_spec (S cap) (length (tokenize s)));
          [|discriminate].
        injection Hz as <-. exists (S cap), s. auto.
      + intros (cap' & s & [= <-] & Hs & -> & Hlt).
        exists s. split; [apply list_elem_of_In, Hs|]. cbv zeta.
        apply Nat.ltb_lt in Hlt. rewrite Hlt. reflexivity.
    - cbn [te_lange_zinnen_van waar_int]. split; [intros []|].
      intros (cap & s & Hc & _). discriminate. }
  split; [exact Hchar|]. split.
  - intros z Hz. apply Hchar in Hz as (cap & s & _ & _ & -> & _).
    cbn [LangeZin.tekst]. rewrite length_take. lia.
  - destruct (grens_van Kenmerken.max_zinslengte target_niveau)
      as [cap|] eqn:Eg; [|reflexivity].
    destruct (grens_van_positief _ _ _ Eg) as [Hpos _].
    destruct cap as [|cap]; [lia|].
    unfold te_lange_zinnen_van. cbn [waar_int].
    apply te_lange_zinnen_lengte.
Qed.

Lemma te_lange_zinnen_precies_witness :
  exists r,
    @analyse_avi latin1 lijst_boom tekst_hond (Some (lit "AVI-M3"))
    = Ok (Some r)
    /\ length (AVIResult.te_lange_zinnen r) = 1.
Proof.
  pose (r0 := @avi_resultaat latin1 lijst_boom tekst_hond
                (Some (lit "AVI-M3"))).
  assert (Hr : @analyse_avi latin1 lijst_boom tekst_hond (Some (lit "AVI-M3"))
               = Ok (Some r0))
    by (vm_compute; reflexivity).
  exists r0. split; [exact Hr|].
  pose proof (proj2 (proj2 (@te_lange_zinnen_precies latin1 lijst_boom
                              tekst_hond (Some (lit "AVI-M3")) r0 Hr)))
    as Hlen.
  clearbody r0. rewrite Hlen. vm_compute. reflexivity.
Defined.

Lemma grens_van_geen (veld : Kenmerken.t -> option nat)
    (target_niveau : option pystr) :
  (forall tn k, target_niveau = Some tn ->
                dict_get AVI_KENMERKEN tn = Some k -> veld k = None) ->
  grens_van veld target_niveau = None.
Proof.
  intros Hgeen. unfold grens_van.
  destruct (waar_str target_niveau) eqn:Ew; [|reflexivity].
  destruct target_niveau as [tn|]; [|discriminate].
  change (default [] (Some tn)) with tn.
  destruct (dict_get AVI_KENMERKEN tn) as [k|] eqn:Ek;
    cbn [mbind option_bind]; [|reflexivity].
  rewrite (Hgeen tn k eq_refl Ek). reflexivity.
Qed.

(** The bands whose characteristics set no cap. *)
Lemma AVI_KENMERKEN_zonder_grens (tn : pystr) (k : Kenmerken.t) :
  dict_get AVI_KENMERKEN tn = Some k ->
  ~ In tn [lit "AVI-M3"; lit "AVI-E3"; lit "AVI-M4"; lit "AVI-E4"] ->
  Kenmerken.max_lettergrepen k = None /\ Kenmerken.max_zinslengte k = None.
Proof.
  intros Hk Hniet. apply dict_get_In in Hk.
  assert (Hb : forallb
                 (fun item : pystr * Kenmerken.t =>
                    str_in (fst item)
                           [lit "AVI-M3"; lit "AVI-E3"; lit "AVI-M4";
                            lit "AVI-E4"]
                    || match Kenmerken.max_lettergrepen (snd item),
                             Kenmerken.max_zinslengte (snd item) with
                       | None, None => true
                       | _, _ => false
                       end)
                 AVI_KENMERKEN = true)
    by (vm_compute; reflexivity).
  pose proof (proj1 (forallb_forall _ _) Hb (tn, k) Hk) as Hi.
  cbn [fst snd] in Hi. apply orb_true_iff in Hi as [Hi | Hi].
  - exfalso. apply Hniet. unfold str_in in Hi.
    apply existsb_exists in Hi as (x & Hx & Heq).
    apply str_eqb_eq in Heq. subst x. exact Hx.
  - destruct (Kenmerken.max_lettergrepen k), (Kenmerken.max_zinslengte k);
      try discriminate. auto.
Qed.

(** X10: [analyse_avi] reports too long words and sentences only for the
    targets "AVI-M3", "AVI-E3", "AVI-M4" and "AVI-E4": without a target, and
    for every other target (the higher bands, or a name that is not a band),
    both lists are empty. *)
Theorem te_lang_alleen_lage_niveaus `{Unicode} (woordenlijst : gset pystr)
    (tekst : pystr) (target_niveau : option pystr) (r : AVIResult.t) :
  analyse_avi woordenlijst tekst target_niveau = Ok (Some r) ->
  (forall tn, target_niveau = Some tn ->
     ~ In tn [lit "AVI-M3"; lit "AVI-E3"; lit "AVI-M4"; lit "AVI-E4"]) ->
  AVIResult.te_lange_woorden r = [] /\ AVIResult.te_lange_zinnen r = [].
Proof.
  intros Hr Hniet. apply analyse_avi_some in Hr as [_ ->].
  unfold avi_resultaat.
  cbn [AVIResult.te_lange_woorden AVIResult.te_lange_zinnen].
  rewrite te_lang_waarde_grens. cbn [fst snd].
  rewrite !grens_van_geen; [split; reflexivity| |].
  - intros tn k Ht Hk.
    apply (AVI_KENMERKEN_zonder_grens tn k Hk (Hniet tn Ht)).
  - intros tn k Ht Hk.
    apply (AVI_KENMERKEN_zonder_grens tn k Hk (Hniet tn Ht)).
Qed.

Lemma te_lang_alleen_lage_niveaus_witness :
  exists r,
    @analyse_avi latin1 lijst_boom tekst_hond (Some (lit "AVI-M5"))
    = Ok (Some r)
    /\ AVIResult.te_lange_woorden r = [].
Proof.
  pose (r0 := @avi_resultaat latin1 lijst_boom tekst_hond
                (Some (lit "AVI-M5"))).
  assert (Hr : @analyse_avi latin1 lijst_boom tekst_hond (Some (lit "AVI-M5"))
               = Ok (Some r0))
    by (vm_compute; reflexivity).
  exists r0. split; [exact Hr|].
  refine (proj1 (@te_lang_alleen_lage_niveaus latin1 lijst_boom tekst_hond
                   (Some (lit "AVI-M5")) r0 Hr _)).
  intros tn [= <-]. vm_compute. intuition discriminate.
Defined.

(** X11: the target given to [analyse_avi] changes nothing but the two
    lists of too long words and sentences: the score, the band and every
    other feature are those of the analysis without target. *)
Theorem target_verandert_score_niet `{Unicode} (woordenlijst : gset pystr)
    (tekst : pystr) (target_niveau : option pystr) (r : AVIResult.t) :
  analyse_avi woordenlijst tekst target_niveau = Ok (Some r) ->
  analyse_avi woordenlijst tekst None
  = Ok (Some (AVIResult.mk (AVIResult.bilt r) (AVIResult.niveau r)
                (AVIResult.totaal_woorden r) (AVIResult.gem_woordlengte r)
                (AVIResult.pct_frequent r) (AVIResult.gem_zinslengte r)
                (AVIResult.lettergreep_verdeling r) [] [])).
Proof.
  rewrite !analyse_avi_eq.
  destruct (length (tokenize tekst) <? 10); [discriminate|].
  intros [= <-]. reflexivity.
Qed.

Lemma target_verandert_score_niet_witness :
  exists r,
    @analyse_avi latin1 lijst_boom tekst_hond None = Ok (Some r)
    /\ AVIResult.niveau r = lit "AVI-M6".
Proof.
  pose (r0 := @avi_resultaat latin1 lijst_boom tekst_hond
                (Some (lit "AVI-M3"))).
  assert (Hr : @analyse_avi latin1 lijst_boom tekst_hond (Some (lit "AVI-M3"))
               = Ok (Some r0))
    by (vm_compute; reflexivity).
  eexists. split.
  - exact (@target_verandert_score_niet latin1 lijst_boom tekst_hond
             (Some (lit "AVI-M3")) r0 Hr).
  - vm_compute. reflexivity.
Defined.

(** ** Bands follow the score *)

Lemma level_index_van_record (i : nat) (level : Level.t) :
  AVI_LEVELS !! i = Some level -> level_index (Level.niveau level) = i.
Proof.
  intros Hi.
  do 11 (destruct i as [|i];
         [cbn in Hi; injection Hi as <-; vm_compute; reflexivity|]).
  cbn in Hi. discriminate.
Qed.

Ltac band_volgorde Hi Hj :=
  cbn in Hi, Hj; injection Hi as <-; injection Hj as <-;
  unfold past; cbn [Level.bilt_min Level.bilt_max];
  intros [? ?] [? ?]; lra.

(** The intervals of the table are in ascending order. *)
Lemma banden_oplopend (i j : nat) (li lj : Level.t) (b1 b2 : Q) :
  AVI_LEVELS !! i = Some li -> AVI_LEVELS !! j = Some lj ->
  j < i -> past li b1 -> past lj b2 -> (b2 < b1)%Q.
Proof.
  intros Hi Hj Hlt.
  do 11 (destruct i as [|i];
         [do 11 (destruct j as [|j];
                 [first [exfalso; lia | band_volgorde Hi Hj]|]);
          exfalso; lia|]).
  cbn in Hi. discriminate.
Qed.

(** The band of a score is a band of the table, at the position of the one
    record that holds the score. *)
Lemma bepaal_avi_niveau_index (bilt : Q) :
  exists level,
    AVI_LEVELS !! level_index (_bepaal_avi_niveau bilt) = Some level
    /\ Level.niveau level = _bepaal_avi_niveau bilt
    /\ past level bilt.
Proof.
  destruct (band_uniek bilt) as (i & level & Hi & Hp & _).
  exists level.
  rewrite (bepaal_avi_niveau_past bilt i level Hi Hp).
  rewrite (level_index_van_record i level Hi). auto.
Qed.

Lemma ref_indeling_rang (score : Q) :
  dict_get niveau_order (fst (ref_indeling score))
  = Some (if Qltb score REF_CUTOFF_1F_2F then 1
          else if Qltb score REF_CUTOFF_2F_3F then 2 else 3).
Proof.
  unfold ref_indeling.
  destruct (Qltb score REF_CUTOFF_1F_2F); [reflexivity|].
  destruct (Qltb score REF_CUTOFF_2F_3F); reflexivity.
Qed.

(** X12: bands follow the score: of two technical-reading scores the
    higher never gets the lower band, the position that the suggestion
    engine looks up for the band of a score is the position of the record
    whose interval holds the score (never the fallback position), and of two
    comprehension scores the higher never gets the lower band. *)
Theorem banden_monotoon (b1 b2 : Q) :
  (b1 <= b2)%Q ->
  level_index (_bepaal_avi_niveau b1) <= level_index (_bepaal_avi_niveau b2)
  /\ (exists level,
        AVI_LEVELS !! level_index (_bepaal_avi_niveau b1) = Some level
        /\ Level.niveau level = _bepaal_avi_niveau b1
        /\ in_band level b1 = true)
  /\ (exists k1 k2,
        dict_get niveau_order (fst (ref_indeling b1)) = Some k1
        /\ dict_get niveau_order (fst (ref_indeling b2)) = Some k2
        /\ k1 <= k2).
Proof.
  intros Hle.
  destruct (bepaal_avi_niveau_index b1) as (l1 & H1 & Hn1 & Hp1).
  destruct (bepaal_avi_niveau_index b2) as (l2 & H2 & _ & Hp2).
  split; [|split].
  - destruct (Nat.le_gt_cases (level_index (_bepaal_avi_niveau b1))
                              (level_index (_bepaal_avi_niveau b2)))
      as [Hok | Hgt]; [exact Hok|].
    pose proof (banden_oplopend _ _ l1 l2 b1 b2 H1 H2 Hgt Hp1 Hp2). lra.
  - exists l1. split; [exact H1|]. split; [exact Hn1|].
    apply in_band_AVI_LEVELS; [|exact Hp1].
    apply list_elem_of_In, (list_elem_of_lookup_2 _ _ _ H1).
  - eexists _, _. split; [apply ref_indeling_rang|].
    split; [apply ref_indeling_rang|].
    unfold REF_CUTOFF_1F_2F, REF_CUTOFF_2F_3F.
    destruct (Qltb b1 (125 # 100)) eqn:E1, (Qltb b2 (125 # 100)) eqn:E2,
             (Qltb b1 (235 # 100)) eqn:E3, (Qltb b2 (235 # 100)) eqn:E4;
      try lia;
      rewrite ?Qltb_lt, ?Qltb_ge in *; lra.
Qed.

Lemma banden_monotoon_witness :
  level_index (_bepaal_avi_niveau (5933 # 100))
  <= level_index (_bepaal_avi_niveau (6163 # 100)).
Proof.
  apply (banden_monotoon (5933 # 100) (6163 # 100)). discriminate.
Defined.

(** ** The share of long sentences *)

(** X13: in every result of [analyse_ref] the share of long sentences lies
    between 0 and 1; it is 0 exactly when no sentence has more than 20
    tokens and 1 exactly when all have (for a text in which no sentence is
    found, the whole text counts as the one sentence). *)
Theorem long_sent_ratio_grenzen `{Unicode} (woordenlijst : gset pystr)
    (tekst : pystr) (r : REFResult.t) :
  analyse_ref woordenlijst tekst = Ok (Some r) ->
  let sentence_lengths :=
    match split_sentences tekst with
    | [] => [length (tokenize tekst)]
    | _ :: _ =>
      List.map (fun s => length (tokenize s)) (split_sentences tekst)
    end in
  (0 <= REFResult.long_sent_ratio r <= 1)%Q
  /\ ((REFResult.long_sent_ratio r == 0)%Q
      <-> forall l, In l sentence_lengths -> l <= 20)
  /\ ((REFResult.long_sent_ratio r == 1)%Q
      <-> forall l, In l sentence_lengths -> 20 < l).
Proof.
  intros Hr. apply analyse_ref_some in Hr as [_ ->].
  unfold ref_resultaat. cbn [REFResult.long_sent_ratio].
  unfold long_sent_ratio_van.
  assert (Hsl : fst (zinslengtes_waarde (split_sentences tekst)
                       (length (tokenize tekst)))
                = match split_sentences tekst with
                  | [] => [length (tokenize tekst)]
                  | _ :: _ =>
                    List.map (fun s => length (tokenize s))
                             (split_sentences tekst)
                  end).
  { unfold zinslengtes_waarde. destruct (split_sentences tekst); reflexivity. }
  pose proof (zinslengtes_niet_leeg (split_sentences tekst)
                (length (tokenize tekst))) as Hn.
  rewrite Hsl in *. cbv zeta.
  set (sl := match split_sentences tekst with
             | [] => [length (tokenize tekst)]
             | _ :: _ => _
             end) in *.
  destruct (breuk_grenzen (length (List.filter (fun l => 20 <? l) sl))
              (length sl) Hn (filter_length_le _ _))
    as (H0 & H1 & Heen & Hnul).
  split; [split; assumption|]. split.
  - rewrite Hnul, filter_niets, forallb_forall.
    split; intros Hall l Hl; specialize (Hall l Hl).
    + apply negb_true_iff, Nat.ltb_ge in Hall. exact Hall.
    + apply negb_true_iff, Nat.ltb_ge. exact Hall.
  - rewrite Heen, filter_alles, forallb_forall.
    split; intros Hall l Hl; specialize (Hall l Hl).
    + apply Nat.ltb_lt in Hall. exact Hall.
    + apply Nat.ltb_lt. exact Hall.
Qed.

Lemma long_sent_ratio_grenzen_witness :
  exists r,
    @analyse_ref latin1 lijst_boom tekst_hond = Ok (Some r)
    /\ (REFResult.long_sent_ratio r == 0)%Q.
Proof.
  pose (r0 := @ref_resultaat latin1 lijst_boom tekst_hond).
  assert (Hr : @analyse_ref latin1 lijst_boom tekst_hond = Ok (Some r0))
    by (vm_compute; reflexivity).
  exists r0. split; [exact Hr|].
  pose proof (proj1 (proj2 (@long_sent_ratio_grenzen latin1 lijst_boom
                              tekst_hond r0 Hr))) as [_ Hnul].
  clearbody r0. apply Hnul. vm_compute.
  intros l Hl. repeat (destruct Hl as [<- | Hl]; [lia|]). destruct Hl.
Defined.

(** ** Looking up a band *)

Lemma specs_scan_index (levels : list Level.t) (n : pystr) :
  forall i,
    match eerste_index levels n i with
    | Some k =>
      i <= k
      /\ specs_scan levels n = levels !! (k - i)
      /\ exists level,
           levels !! (k - i) = Some level /\ Level.niveau level = n
    | None =>
      specs_scan levels n = None
      /\ ~ In n (List.map Level.niveau levels)
    end.
Proof.
  induction levels as [|l levels IH]; intros i;
    cbn [eerste_index specs_scan List.map].
  - split; [reflexivity | intros []].
  - destruct (str_eqb (Level.niveau l) n) eqn:E.
    + apply str_eqb_eq in E. rewrite Nat.sub_diag.
      split; [lia|]. split; [reflexivity|]. exists l. auto.
    + specialize (IH (S i)).
      destruct (eerste_index levels n (S i)) as [k|].
      * destruct IH as (Hle & Hs & level & Hl & Hn).
        replace (k - i) with (S (k - S i)) by lia.
        split; [lia|]. split; [exact Hs|]. exists level. auto.
      * destruct IH as [Hs Hniet]. split; [exact Hs|].
        intros [Heq | Hin]; [|auto].
        apply str_eqb_eq in Heq. congruence.
Qed.

(** X14: [get_niveau_specs] never fails.  For the name of a band it
    returns the record of that band, the one at the position that the
    suggestion engine uses; for any other name it returns the last record,
    "AVI-Plus", whereas the suggestion engine then takes position 5,
    "AVI-E5". *)
Theorem get_niveau_specs_opzoeken (niveau : pystr) :
  exists level,
    get_niveau_specs niveau = Ok level
    /\ In level AVI_LEVELS
    /\ (In niveau (List.map Level.niveau AVI_LEVELS) ->
        Level.niveau level = niveau
        /\ AVI_LEVELS !! level_index niveau = Some level)
    /\ (~ In niveau (List.map Level.niveau AVI_LEVELS) ->
        Level.niveau level = lit "AVI-Plus"
        /\ level_index niveau = 5
        /\ exists vijf,
             AVI_LEVELS !! 5 = Some vijf
             /\ Level.niveau vijf = lit "AVI-E5").
Proof.
  unfold get_niveau_specs, level_index.
  pose proof (specs_scan_index AVI_LEVELS niveau 0) as Hs.
  destruct (eerste_index AVI_LEVELS niveau 0) as [k|].
  - destruct Hs as (_ & Hscan & level & Hl & Hn).
    rewrite Nat.sub_0_r in *. rewrite Hscan, Hl.
    exists level. split; [reflexivity|]. split.
    { apply list_elem_of_In, (list_elem_of_lookup_2 _ _ _ Hl). }
    split; [intros _; auto|].
    intros Hniet. exfalso. apply Hniet, in_map_iff. exists level.
    split; [exact Hn|].
    apply list_elem_of_In, (list_elem_of_lookup_2 _ _ _ Hl).
  - destruct Hs as [Hscan Hniet]. rewrite Hscan.
    eexists. split; [reflexivity|]. split.
    { do 10 right. left. reflexivity. }
    split; [intros Hin; contradiction|].
    intros _. split; [reflexivity|]. split; [reflexivity|].
    eexists. split; reflexivity.
Qed.

Lemma get_niveau_specs_opzoeken_witness :
  exists level,
    get_niveau_specs (lit "AVI-M4") = Ok level
    /\ Level.niveau level = lit "AVI-M4".
Proof.
  destruct (get_niveau_specs_opzoeken (lit "AVI-M4"))
    as (level & Hg & _ & Hbekend & _).
  exists level. split; [exact Hg|].
  apply Hbekend. vm_compute. tauto.
Defined.

(** X15: looking up the band that [_bepaal_avi_niveau] gives to a score
    returns the record whose interval holds that score. *)
Theorem get_niveau_specs_na_bepaal (bilt : Q) :
  exists level,
    get_niveau_specs (_bepaal_avi_niveau bilt) = Ok level
    /\ Level.niveau level = _bepaal_avi_niveau bilt
    /\ in_band level bilt = true.
Proof.
  destruct (bepaal_avi_niveau_index bilt) as (level & Hl & Hn & Hp).
  exists level. split; [|split; [exact Hn|]].
  - unfold get_niveau_specs.
    pose proof (specs_scan_index AVI_LEVELS (_bepaal_avi_niveau bilt) 0)
      as Hs.
    unfold level_index in Hl.
    destruct (eerste_index AVI_LEVELS (_bepaal_avi_niveau bilt) 0) as [k|].
    + destruct Hs as (_ & Hscan & _). rewrite Nat.sub_0_r in Hscan.
      change (default 5 (Some k)) with k in Hl.
      rewrite Hscan, Hl. reflexivity.
    + destruct Hs as [_ Hniet]. exfalso. apply Hniet, in_map_iff.
      exists level. split; [exact Hn|].
      apply list_elem_of_In, (list_elem_of_lookup_2 _ _ _ Hl).
  - apply in_band_AVI_LEVELS; [|exact Hp].
    apply list_elem_of_In, (list_elem_of_lookup_2 _ _ _ Hl).
Qed.

(** ** Target word counts *)

Lemma int_get_doel (d : list (Z * Z)) (m : Z) :
  (m <> 1 -> m <> 2 -> m <> 3 ->
   forallb (fun kv : Z * Z => (1 <=? fst kv)%Z && (fst kv <=? 3)%Z) d = true ->
   int_get d m = None)%Z.
Proof.
  intros H1 H2 H3. induction d as [|[k v] d IH]; cbn [forallb int_get fst];
    [reflexivity|].
  intros Hd. apply andb_true_iff in Hd as [Hk Hd].
  apply andb_true_iff in Hk as [Ha Hb].
  apply Z.leb_le in Ha, Hb.
  destruct (Z.eqb_spec k m) as [-> | Hne]; [lia | auto].
Qed.

Lemma DOELWOORDEN_sleutels :
  forallb (fun item : pystr * list (Z * Z) =>
             forallb (fun kv : Z * Z => (1 <=? fst kv)%Z && (fst kv <=? 3)%Z)
                     (snd item)
             && match int_get (snd item) 1%Z with
                | Some _ => true
                | None => false
                end)
          DOELWOORDEN = true.
Proof. vm_compute. reflexivity. Qed.

Lemma DOELWOORDEN_oplopend :
  forallb
    (fun a : pystr * list (Z * Z) =>
       forallb
         (fun b : pystr * list (Z * Z) =>
            forallb
              (fun m =>
                 (doelwoorden_of (fst a) m <? doelwoorden_of (fst a) (m + 1))%Z
                 && implb (level_index (fst a) <=? level_index (fst b))
                          (doelwoorden_of (fst a) m
                           <=? doelwoorden_of (fst b) m)%Z
                 && implb (level_index (fst a) <=? level_index (fst b))
                          (doelwoorden_of (fst a) (m + 1)
                           <=? doelwoorden_of (fst b) (m + 1))%Z)
              [1; 2]%Z)
         DOELWOORDEN)
    DOELWOORDEN = true.
Proof. vm_compute. reflexivity. Qed.

Lemma get_doelwoorden_waarde (niveau : pystr) (minuten : Z) :
  get_doelwoorden niveau minuten
  = Ok (match dict_get DOELWOORDEN niveau with
        | Some d => default (default 0%Z (int_get d 1%Z)) (int_get d minuten)
        | None => 100%Z
        end)
  /\ (forall d, dict_get DOELWOORDEN niveau = Some d ->
        (minuten <> 1 -> minuten <> 2 -> minuten <> 3 ->
         int_get d minuten = None)%Z
        /\ exists v, int_get d 1%Z = Some v).
Proof.
  unfold get_doelwoorden, dict_index.
  destruct (dict_get DOELWOORDEN niveau) as [d|] eqn:Ed.
  - pose proof (proj1 (forallb_forall _ _) DOELWOORDEN_sleutels
                  (niveau, d) (dict_get_In _ _ _ Ed)) as Hk.
    cbn [snd] in Hk. apply andb_true_iff in Hk as [Hk H1].
    cbn [mbind py_mbind py_bind]. unfold index_een.
    destruct (int_get d 1%Z) as [v|] eqn:E1; [|discriminate].
    split; [reflexivity|].
    intros d' [= <-]. split; [|eauto].
    intros. apply int_get_doel; assumption.
  - split; [reflexivity|]. intros d' Hd. discriminate.
Qed.

(** X16: [get_doelwoorden] never fails.  For a name that is not a band it
    returns 100; for a band it returns the table value for 1, 2 or 3
    minutes and the one-minute value for any other number of minutes.
    The values grow with the minutes, and for the same number of minutes a
    band later in the order never has the smaller value. *)
Theorem get_doelwoorden_tabel (niveau : pystr) (minuten : Z) :
  (exists v, get_doelwoorden niveau minuten = Ok v)
  /\ (dict_get DOELWOORDEN niveau = None ->
      get_doelwoorden niveau minuten = Ok 100%Z)
  /\ (minuten <> 1%Z -> minuten <> 2%Z -> minuten <> 3%Z ->
      get_doelwoorden niveau minuten = get_doelwoorden niveau 1%Z)
  /\ (forall d, dict_get DOELWOORDEN niveau = Some d ->
        In minuten [1; 2; 3]%Z ->
        exists v, int_get d minuten = Some v
                  /\ get_doelwoorden niveau minuten = Ok v)
  /\ (forall d, dict_get DOELWOORDEN niveau = Some d ->
        (doelwoorden_of niveau 1 < doelwoorden_of niveau 2)%Z
        /\ (doelwoorden_of niveau 2 < doelwoorden_of niveau 3)%Z)
  /\ (forall ander d d',
        dict_get DOELWOORDEN niveau = Some d ->
        dict_get DOELWOORDEN ander = Some d' ->
        level_index niveau <= level_index ander ->
        (doelwoorden_of niveau minuten <= doelwoorden_of ander minuten)%Z).
Proof.
  destruct (get_doelwoorden_waarde niveau minuten) as [Hv Hd].
  assert (Hbuiten : (minuten <> 1 -> minuten <> 2 -> minuten <> 3 ->
                     forall n, get_doelwoorden n minuten
                               = get_doelwoorden n 1)%Z).
  { intros H1 H2 H3 n.
    destruct (get_doelwoorden_waarde n minuten) as [Hvn Hdn].
    destruct (get_doelwoorden_waarde n 1%Z) as [Hv1 _].
    rewrite Hvn, Hv1.
    destruct (dict_get DOELWOORDEN n) as [d|]; [|reflexivity].
    destruct (Hdn d eq_refl) as [Hgeen [v E1]].
    rewrite (Hgeen H1 H2 H3), E1. reflexivity. }
  assert (Hpaar : forall a b da db m,
            dict_get DOELWOORDEN a = Some da ->
            dict_get DOELWOORDEN b = Some db ->
            In m [1; 2]%Z ->
            (doelwoorden_of a m <? doelwoorden_of a (m + 1))%Z
            && implb (level_index a <=? level_index b)
                     (doelwoorden_of a m <=? doelwoorden_of b m)%Z
            && implb (level_index a <=? level_index b)
                     (doelwoorden_of a (m + 1)
                      <=? doelwoorden_of b (m + 1))%Z = true).
  { intros a b da db m Ha Hb Hm.
    pose proof (proj1 (forallb_forall _ _) DOELWOORDEN_oplopend
                  (a, da) (dict_get_In _ _ _ Ha)) as Hab.
    cbv beta in Hab.
    pose proof (proj1 (forallb_forall _ _) Hab
                  (b, db) (dict_get_In _ _ _ Hb)) as Hm'.
    cbv beta in Hm'.
    exact (proj1 (forallb_forall _ _) Hm' m Hm). }
  split; [eauto|]. split; [intros Hn; rewrite Hv, Hn; reflexivity|].
  split; [intros H1 H2 H3; apply Hbuiten; assumption|]. split.
  { intros d Ed Hm.
    assert (Hin : exists v, int_get d minuten = Some v).
    { pose proof (Hpaar niveau niveau d d 1%Z Ed Ed) as P1.
      pose proof (Hpaar niveau niveau d d 2%Z Ed Ed) as P2.
      destruct (int_get d minuten) as [v|] eqn:Em; [eauto|].
      exfalso.
      destruct (Hd d Ed) as [_ [v1 E1]].
      assert (Hgelijk : doelwoorden_of niveau minuten
                        = doelwoorden_of niveau 1%Z).
      { unfold doelwoorden_of.
        destruct (get_doelwoorden_waarde niveau 1%Z) as [Hv1 _].
        rewrite Hv, Hv1, Ed, Em, E1. reflexivity. }
      destruct Hm as [<- | [<- | [<- | []]]]; [congruence| |].
      - specialize (P1 (or_introl eq_refl)).
        apply andb_true_iff in P1 as [P1 _].
        apply andb_true_iff in P1 as [P1 _].
        apply Z.ltb_lt in P1. change (1 + 1)%Z with 2%Z in P1. lia.
      - specialize (P1 (or_introl eq_refl)).
        specialize (P2 (or_intror (or_introl eq_refl))).
        apply andb_true_iff in P1 as [P1 _].
        apply andb_true_iff in P1 as [P1 _].
        apply andb_true_iff in P2 as [P2 _].
        apply andb_true_iff in P2 as [P2 _].
        apply Z.ltb_lt in P1, P2.
        change (1 + 1)%Z with 2%Z in P1. change (2 + 1)%Z with 3%Z in P2.
        lia. }
    destruct Hin as [v Em]. exists v. split; [exact Em|].
    rewrite Hv, Ed, Em. reflexivity. }
  split.
  { intros d Ed.
    pose proof (Hpaar niveau niveau d d 1%Z Ed Ed (or_introl eq_refl)) as P1.
    pose proof (Hpaar niveau niveau d d 2%Z Ed Ed
                  (or_intror (or_introl eq_refl))) as P2.
    apply andb_true_iff in P1 as [P1 _]. apply andb_true_iff in P1 as [P1 _].
    apply andb_true_iff in P2 as [P2 _]. apply andb_true_iff in P2 as [P2 _].
    apply Z.ltb_lt in P1, P2.
    change (1 + 1)%Z with 2%Z in P1. change (2 + 1)%Z with 3%Z in P2.
    auto. }
  intros ander d d' Ed Ed' Hle.
  assert (Hidx : (level_index niveau <=? level_index ander) = true)
    by (apply Nat.leb_le, Hle).
  pose proof (Hpaar niveau ander d d' 1%Z Ed Ed' (or_introl eq_refl)) as P1.
  pose proof (Hpaar niveau ander d d' 2%Z Ed Ed'
                (or_intror (or_introl eq_refl))) as P2.
  rewrite Hidx in P1, P2. cbn [implb] in P1, P2.
  apply andb_true_iff in P1 as [P1 P1c]. apply andb_true_iff in P1 as [_ P1b].
  apply andb_true_iff in P2 as [P2 P2c]. apply andb_true_iff in P2 as [_ P2b].
  apply Z.leb_le in P1b, P1c, P2b, P2c.
  change (2 + 1)%Z with 3%Z in P2c.
  destruct (Z.eq_dec minuten 1%Z) as [-> | H1]; [exact P1b|].
  destruct (Z.eq_dec minuten 2%Z) as [-> | H2]; [exact P2b|].
  destruct (Z.eq_dec minuten 3%Z) as [-> | H3]; [exact P2c|].
  unfold doelwoorden_of. rewrite !(Hbuiten H1 H2 H3). exact P1b.
Qed.

Lemma get_doelwoorden_tabel_witness :
  get_doelwoorden (lit "AVI-M4") 7%Z = get_doelwoorden (lit "AVI-M4") 1%Z
  /\ (doelwoorden_of (lit "AVI-M4") 2 <= doelwoorden_of (lit "AVI-E6") 2)%Z.
Proof.
  split.
  - apply (proj1 (proj2 (proj2 (get_doelwoorden_tabel (lit "AVI-M4") 7%Z))));
      discriminate.
  - refine (proj2 (proj2 (proj2 (proj2 (proj2
              (get_doelwoorden_tabel (lit "AVI-M4") 2%Z)))))
              (lit "AVI-E6") _ _ _ _ _).
    + vm_compute. reflexivity.
    + vm_compute. reflexivity.
    + vm_compute. lia.
Defined.

(** ** Errors and order of the suggestions *)

Lemma dict_get_None {V} (d : list (pystr * V)) (k : pystr) :
  dict_get d k = None <-> ~ In k (List.map fst d).
Proof.
  induction d as [|[k' v] d IH]; cbn [dict_get List.map fst In]; [tauto|].
  destruct (str_eqb k' k) eqn:E.
  - apply str_eqb_eq in E. split; [discriminate | tauto].
  - rewrite IH. split; [|tauto].
    intros Hniet [Heq | Hin]; [|auto].
    apply str_eqb_eq in Heq. congruence.
Qed.

(** X17: [get_ref_suggesties] raises [KeyError] with the target as key
    exactly when the target is not "1F", "2F" or "3F", and with the band of
    the result as key exactly when the target is one of the three and the
    band of the result is not; it raises nothing else. *)
Theorem get_ref_suggesties_keyerror (result : REFResult.t) (target : pystr) :
  (~ In target ref_niveaus <->
   get_ref_suggesties result target = Raise (KeyError target)
   /\ dict_get REF_NIVEAU_INFO target = None)
  /\ (In target ref_niveaus /\ ~ In (REFResult.niveau result) ref_niveaus ->
      get_ref_suggesties result target
      = Raise (KeyError (REFResult.niveau result)))
  /\ (forall e, get_ref_suggesties result target = Raise e ->
        (e = KeyError target /\ ~ In target ref_niveaus)
        \/ (e = KeyError (REFResult.niveau result)
            /\ In target ref_niveaus
            /\ ~ In (REFResult.niveau result) ref_niveaus)).
Proof.
  assert (Hinfo : forall n, dict_get REF_NIVEAU_INFO n = None
                            <-> ~ In n ref_niveaus)
    by (intros n; apply dict_get_None).
  assert (Horde : forall n, dict_get niveau_order n = None
                            <-> ~ In n ref_niveaus)
    by (intros n; apply dict_get_None).
  unfold get_ref_suggesties, dict_index.
  destruct (dict_get REF_NIVEAU_INFO target) as [info|] eqn:Ei.
  - assert (Hin : In target ref_niveaus).
    { apply dict_get_In, (in_map fst) in Ei. exact Ei. }
    destruct (dict_get niveau_order target) as [t|] eqn:Et;
      [|apply Horde in Et; contradiction].
    cbn [mbind py_mbind py_bind].
    destruct (dict_get niveau_order (REFResult.niveau result)) as [c|] eqn:Ec.
    + assert (Hn : In (REFResult.niveau result) ref_niveaus).
      { apply dict_get_In, (in_map fst) in Ec. exact Ec. }
      cbn [mbind py_mbind py_bind mret py_mret].
      split; [split; [contradiction | intros [Hf _]; discriminate]|].
      split; [intros [_ Hniet]; contradiction | intros e Hf; discriminate].
    + apply Horde in Ec. cbn [mbind py_mbind py_bind].
      split; [split; [contradiction | intros [_ Hf]; discriminate]|].
      split; [reflexivity|]. intros e [= <-]. right. auto.
  - apply Hinfo in Ei. cbn [mbind py_mbind py_bind].
    split; [split; [intros _; split; reflexivity | auto]|].
    split; [intros [Hin _]; contradiction|].
    intros e [= <-]. left. auto.
Qed.

Lemma get_ref_suggesties_keyerror_witness :
  get_ref_suggesties ref_op_profiel (lit "4F") = Raise (KeyError (lit "4F")).
Proof.
  apply (proj1 (get_ref_suggesties_keyerror ref_op_profiel (lit "4F"))).
  vm_compute. intuition discriminate.
Defined.

Lemma Ok_inj {A} (a b : A) : Ok a = Ok b -> a = b.
Proof. intros [= ->]. reflexivity. Qed.

Ltac regels_uitschrijven :=
  repeat match goal with
         | |- context [als ?c _] =>
           lazymatch c with
           | true => fail
           | false => fail
           | _ => destruct c
           end
         end;
  cbn [als app length hd_error].

Lemma AVI_KENMERKEN_sleutels :
  List.map fst AVI_KENMERKEN = List.map Level.niveau AVI_LEVELS.
Proof. reflexivity. Qed.

(** X18: the lines of the suggestion functions come in a fixed order.
    [get_avi_suggesties] returns at most six lines and [get_ref_suggesties]
    at most five; a line on word length, when there is one, is the first
    line; the last line of [get_ref_suggesties] is the general tip, and the
    last line of [get_avi_suggesties] for a target in the table of band
    characteristics is the line on the word types of the target. *)
Theorem suggesties_volgorde (avi : AVIResult.t) (ref : REFResult.t)
    (target : pystr) :
  (forall l, get_avi_suggesties avi target = Ok l ->
     length l <= 6
     /\ (forall s, In s l -> over_woordlengte s = true ->
                   hd_error l = Some s)
     /\ (forall k, dict_get AVI_KENMERKEN target = Some k ->
           last l = Some (AviWoordtypen target (Kenmerken.woordtypen k))))
  /\ (forall l, get_ref_suggesties ref target = Ok l ->
        length l <= 5
        /\ (forall s, In s l -> over_woordlengte s = true ->
                      hd_error l = Some s)
        /\ (last l = Some RefTipEenvoudig \/ last l = Some RefTipVerrijk)).
Proof.
  split.
  - intros l Hl.
    destruct (target_specs_ok target) as (specs & Hs & _).
    rewrite (get_avi_suggesties_eq avi target specs Hs) in Hl.
    apply Ok_inj in Hl. subst l.
    split; [|split].
    + destruct (level_index target <? level_index (AVIResult.niveau avi));
        unfold avi_eenvoudiger, avi_moeilijker; cbv zeta;
        regels_uitschrijven; lia.
    + intros s.
      destruct (level_index target <? level_index (AVIResult.niveau avi));
        unfold avi_eenvoudiger, avi_moeilijker; cbv zeta;
        regels_uitschrijven; cbn [In]; intros Hin Hw;
        repeat (destruct Hin as [<- | Hin];
                [first [reflexivity | discriminate Hw]|]);
        destruct Hin.
    + intros k Hk. rewrite Hk.
      pose proof (proj1 (forallb_forall _ _) AVI_KENMERKEN_woordtypen
                    (target, k) (dict_get_In _ _ _ Hk)) as Hw.
      cbn [snd] in Hw. cbn [fmap option_fmap option_map]. cbv zeta.
      rewrite Hw. cbn [als]. change (default [] (Some ?x)) with x.
      apply last_snoc.
  - intros l Hl.
    assert (Hi : exists info t c,
               dict_get REF_NIVEAU_INFO target = Some info
               /\ dict_get niveau_order target = Some t
               /\ dict_get niveau_order (REFResult.niveau ref) = Some c).
    { unfold get_ref_suggesties, dict_index in Hl.
      destruct (dict_get REF_NIVEAU_INFO target) as [info|];
        [|discriminate].
      destruct (dict_get niveau_order target) as [t|]; [|discriminate].
      destruct (dict_get niveau_order (REFResult.niveau ref)) as [c|];
        [eauto 6 | discriminate]. }
    destruct Hi as (info & t & c & Hi & Ht & Hc).
    rewrite (get_ref_suggesties_eq ref target info t c Hi Ht Hc) in Hl.
    apply Ok_inj in Hl. subst l.
    split; [|split].
    + destruct (t <? c); unfold ref_eenvoudiger, ref_moeilijker;
        regels_uitschrijven; lia.
    + intros s.
      destruct (t <? c); unfold ref_eenvoudiger, ref_moeilijker;
        regels_uitschrijven; cbn [In]; intros Hin Hw;
        repeat (destruct Hin as [<- | Hin];
                [first [reflexivity | discriminate Hw]|]);
        destruct Hin.
    + destruct (t <? c); unfold ref_eenvoudiger, ref_moeilijker;
        rewrite ?app_assoc, last_snoc; auto.
Qed.

Lemma suggesties_volgorde_witness :
  exists l,
    get_ref_suggesties ref_op_profiel (lit "1F") = Ok l
    /\ length l <= 5.
Proof.
  eexists. split; [vm_compute; reflexivity|].
  refine (proj1 (proj2 (suggesties_volgorde
                          (@avi_resultaat latin1 lijst_boom tekst_boom None)
                          ref_op_profiel (lit "1F")) _ _)).
  vm_compute. reflexivity.
Defined.

(** X19: for a target that is not one of the eleven bands,
    [get_avi_suggesties] compares the result with the profile of "AVI-E5"
    (word length 4.8, 75% frequent words) and returns only lines on word
    length and on frequent words: no line that depends on the target
    band. *)
Theorem get_avi_suggesties_onbekend_target (avi : AVIResult.t)
    (target : pystr) :
  ~ In target (List.map Level.niveau AVI_LEVELS) ->
  get_avi_suggesties avi target
  = Ok (if 5 <? level_index (AVIResult.niveau avi)
        then als (Qltb (48 # 10) (AVIResult.gem_woordlengte avi))
                 (AviKortereWoorden (AVIResult.gem_woordlengte avi) (48 # 10))
             ++ als (Qltb (AVIResult.pct_frequent avi) (75 # 1))
                    (AviFrequentereWoorden (AVIResult.pct_frequent avi)
                                           (75 # 1))
        else als (Qltb (AVIResult.gem_woordlengte avi) (48 # 10))
                 (AviLangereWoorden (AVIResult.gem_woordlengte avi) (48 # 10))
             ++ als (Qltb (75 # 1) (AVIResult.pct_frequent avi))
                    (AviMinderFrequenteWoorden (AVIResult.pct_frequent avi)
                                               (75 # 1))).
Proof.
  intros Hniet.
  assert (Hidx : level_index target = 5).
  { unfold level_index.
    pose proof (specs_scan_index AVI_LEVELS target 0) as Hs.
    destruct (eerste_index AVI_LEVELS target 0) as [k|]; [|reflexivity].
    destruct Hs as (_ & _ & level & Hl & Hn). exfalso.
    apply Hniet, in_map_iff. exists level. split; [exact Hn|].
    apply list_elem_of_In, (list_elem_of_lookup_2 _ _ _ Hl). }
  assert (Hk : dict_get AVI_KENMERKEN target = None).
  { apply dict_get_None. rewrite AVI_KENMERKEN_sleutels. exact Hniet. }
  unfold get_avi_suggesties, list_index. rewrite Hidx, Hk.
  change (AVI_LEVELS !! 5) with
    (Some (Level.mk (lit "AVI-E5") (Some (665#10)%Q) (Some (68#1)%Q)
             (67#1) (75#1) (48#10) None None (92#10))).
  cbn [mbind py_mbind py_bind mret py_mret].
  unfold avi_eenvoudiger, avi_moeilijker.
  cbn [Level.gem_wlen Level.pct_freq mbind option_bind fmap option_fmap
       option_map waar_int waar_str als].
  rewrite !app_nil_r.
  destruct (5 <? level_index (AVIResult.niveau avi)); reflexivity.
Qed.

Lemma get_avi_suggesties_onbekend_target_witness :
  exists l,
    get_avi_suggesties (@avi_resultaat latin1 lijst_boom tekst_boom None)
                       (lit "AVI-X") = Ok l
    /\ length l = 2.
Proof.
  eexists. split.
  - apply get_avi_suggesties_onbekend_target.
    vm_compute. intuition discriminate.
  - vm_compute. reflexivity.
Defined.

(** ** The direction shown on the page *)

Lemma labels_onderscheiden :
  lit "down" <> lit "up" /\ lit "down" <> lit "same"
  /\ lit "up" <> lit "same".
Proof. repeat split; vm_compute; discriminate. Qed.

Lemma get_direction_label (source target mode : pystr) :
  fst (get_direction source target mode)
  = let '(s, t) := richting_rangen source target mode in
    if t <? s then lit "down" else if s <? t then lit "up" else lit "same".
Proof.
  unfold get_direction, richting_rangen.
  destruct (str_eqb mode (lit "avi")); cbv zeta.
  - destruct (level_index target <? level_index source); [reflexivity|].
    destruct (level_index source <? level_index target); reflexivity.
  - destruct (default 2 (dict_get niveau_order target)
              <? default 2 (dict_get niveau_order source)); [reflexivity|].
    destruct (default 2 (dict_get niveau_order source)
              <? default 2 (dict_get niveau_order target)); reflexivity.
Qed.

Lemma get_direction_gevallen (source target mode : pystr) :
  let '(s, t) := richting_rangen source target mode in
  (fst (get_direction source target mode) = lit "down" <-> t < s)
  /\ (fst (get_direction source target mode) = lit "up" <-> s < t)
  /\ (fst (get_direction source target mode) = lit "same" <-> s = t).
Proof.
  rewrite get_direction_label.
  destruct (richting_rangen source target mode) as [s t].
  destruct labels_onderscheiden as (H1 & H2 & H3).
  destruct (Nat.ltb_spec t s); [|destruct (Nat.ltb_spec s t)];
    repeat split; intros; try lia; try reflexivity; try congruence.
Qed.

Lemma richting_rangen_omgekeerd (source target mode : pystr) :
  richting_rangen target source mode
  = (snd (richting_rangen source target mode),
     fst (richting_rangen source target mode)).
Proof.
  unfold richting_rangen. destruct (str_eqb mode (lit "avi")); reflexivity.
Qed.

(** X20: [get_direction] gives one of the labels "down", "up" and "same";
    exchanging source and target exchanges "down" and "up"; a source equal
    to the target gives "same"; and outside the "avi" mode two names that
    are not "1F", "2F" or "3F" give "same" without an error, both counting
    as position 2. *)
Theorem get_direction_labels (source target mode : pystr) :
  In (fst (get_direction source target mode))
     [lit "down"; lit "up"; lit "same"]
  /\ (fst (get_direction source target mode) = lit "down"
      <-> fst (get_direction target source mode) = lit "up")
  /\ (fst (get_direction source target mode) = lit "same"
      <-> fst (get_direction target source mode) = lit "same")
  /\ fst (get_direction source source mode) = lit "same"
  /\ (mode <> lit "avi" ->
      ~ In source ref_niveaus -> ~ In target ref_niveaus ->
      get_direction source target mode
      = (lit "same", lit "↔️ " ++ target)).
Proof.
  pose proof (get_direction_gevallen source target mode) as H1.
  pose proof (get_direction_gevallen target source mode) as H2.
  pose proof (get_direction_gevallen source source mode) as H3.
  rewrite richting_rangen_omgekeerd in H2.
  assert (Hzelf : fst (richting_rangen source source mode)
                  = snd (richting_rangen source source mode)).
  { unfold richting_rangen. destruct (str_eqb mode (lit "avi")); reflexivity. }
  destruct (richting_rangen source target mode) as [s t].
  destruct (richting_rangen source source mode) as [s1 s2].
  cbn [fst snd] in *.
  destruct H1 as (Hd & Hu & Hs). destruct H2 as (Hd' & Hu' & Hs').
  destruct H3 as (_ & _ & Hs3).
  split.
  { cbn [In]. destruct (Nat.lt_total t s) as [Hlt | [Heq | Hgt]].
    - left. symmetry. apply Hd, Hlt.
    - right. right. left. symmetry. apply Hs. auto.
    - right. left. symmetry. apply Hu, Hgt. }
  split; [rewrite Hd, Hu'; tauto|].
  split; [rewrite Hs, Hs'; split; auto|].
  split; [apply Hs3, Hzelf|].
  intros Hm Hsrc Htgt. unfold get_direction.
  destruct (str_eqb mode (lit "avi")) eqn:Em;
    [apply str_eqb_eq in Em; contradiction|].
  rewrite (proj2 (dict_get_None niveau_order source) Hsrc).
  rewrite (proj2 (dict_get_None niveau_order target) Htgt).
  reflexivity.
Qed.

Lemma get_direction_labels_witness :
  get_direction (lit "4F") (lit "0F") (lit "ref")
  = (lit "same", lit "↔️ " ++ lit "0F").
Proof.
  apply (proj2 (proj2 (proj2 (proj2
           (get_direction_labels (lit "4F") (lit "0F") (lit "ref")))))).
  - vm_compute. discriminate.
  - vm_compute. intuition discriminate.
  - vm_compute. intuition discriminate.
Defined.

(** X21: the label of [get_direction] and the advice of the suggestion
    functions, for the band of a result as source and the same target: with
    "down" every line is advice to simplify (or, for [get_avi_suggesties],
    the line on word types); with "up" and also with "same" every line is
    advice to enrich. *)
Theorem get_direction_en_suggesties (avi : AVIResult.t) (ref : REFResult.t)
    (target mode : pystr) :
  (forall l, get_avi_suggesties avi target = Ok l ->
     (fst (get_direction (AVIResult.niveau avi) target (lit "avi"))
      = lit "down" ->
      forall s, In s l ->
                richting_van s = Eenvoudiger \/ richting_van s = Algemeen)
     /\ (fst (get_direction (AVIResult.niveau avi) target (lit "avi"))
         <> lit "down" ->
         forall s, In s l ->
                   richting_van s = Moeilijker \/ richting_van s = Algemeen))
  /\ (forall l, mode <> lit "avi" ->
        get_ref_suggesties ref target = Ok l ->
        (fst (get_direction (REFResult.niveau ref) target mode) = lit "down"
         -> forall s, In s l -> richting_van s = Eenvoudiger)
        /\ (fst (get_direction (REFResult.niveau ref) target mode)
            <> lit "down"
            -> forall s, In s l -> richting_van s = Moeilijker)).
Proof.
  split.
  - intros l Hl.
    destruct (target_specs_ok target) as (specs & Hs & _).
    rewrite (get_avi_suggesties_eq avi target specs Hs) in Hl.
    apply Ok_inj in Hl. subst l.
    pose proof (get_direction_gevallen (AVIResult.niveau avi) target
                  (lit "avi")) as Hg.
    change (richting_rangen (AVIResult.niveau avi) target (lit "avi"))
      with (level_index (AVIResult.niveau avi), level_index target) in Hg.
    cbv beta iota in Hg. destruct Hg as (Hd & _ & _).
    assert (Hlaatste : forall s,
      In s (let w := Kenmerken.woordtypen <$> dict_get AVI_KENMERKEN target in
            als (waar_str w) (AviWoordtypen target (default [] w))) ->
      richting_van s = Algemeen).
    { intros s Hin. apply In_als in Hin as [_ ->]. reflexivity. }
    destruct (Nat.ltb_spec (level_index target)
                           (level_index (AVIResult.niveau avi)))
      as [Hlt | Hge]; split; intros Hlab s Hin;
      apply in_app_iff in Hin as [Hin | Hin]; auto.
    + left. apply (avi_eenvoudiger_richting _ _ _ _ Hin).
    + exfalso. apply Hlab, Hd, Hlt.
    + apply Hd in Hlab. lia.
    + left. apply (avi_moeilijker_richting _ _ _ _ Hin).
  - intros l Hm Hl.
    assert (Hi : exists info t c,
               dict_get REF_NIVEAU_INFO target = Some info
               /\ dict_get niveau_order target = Some t
               /\ dict_get niveau_order (REFResult.niveau ref) = Some c).
    { unfold get_ref_suggesties, dict_index in Hl.
      destruct (dict_get REF_NIVEAU_INFO target) as [info|];
        [|discriminate].
      destruct (dict_get niveau_order target) as [t|]; [|discriminate].
      destruct (dict_get niveau_order (REFResult.niveau ref)) as [c|];
        [eauto 6 | discriminate]. }
    destruct Hi as (info & t & c & Hi & Ht & Hc).
    rewrite (get_ref_suggesties_eq ref target info t c Hi Ht Hc) in Hl.
    apply Ok_inj in Hl. subst l.
    pose proof (get_direction_gevallen (REFResult.niveau ref) target mode)
      as Hg.
    unfold richting_rangen in Hg.
    destruct (str_eqb mode (lit "avi")) eqn:Em;
      [apply str_eqb_eq in Em; contradiction|].
    rewrite Ht, Hc in Hg. change (default 2 (Some ?x)) with x in Hg.
    destruct Hg as (Hd & _ & _).
    destruct (Nat.ltb_spec t c) as [Hlt | Hge]; split; intros Hlab s Hin.
    + apply (ref_eenvoudiger_richting _ _ _ Hin).
    + exfalso. apply Hlab, Hd, Hlt.
    + apply Hd in Hlab. lia.
    + apply (ref_moeilijker_richting _ _ _ Hin).
Qed.

Lemma get_direction_en_suggesties_witness :
  exists r l,
    @analyse_ref latin1 lijst_boom tekst_hond = Ok (Some r)
    /\ get_direction (REFResult.niveau r) (lit "1F") (lit "ref")
       = (lit "same", lit "↔️ " ++ lit "1F")
    /\ get_ref_suggesties r (lit "1F") = Ok l
    /\ Forall (fun s => richting_van s = Moeilijker) l.
Proof.
  pose (r0 := @ref_resultaat latin1 lijst_boom tekst_hond).
  assert (Hr : @analyse_ref latin1 lijst_boom tekst_hond = Ok (Some r0))
    by (vm_compute; reflexivity).
  assert (Hl : exists l, get_ref_suggesties r0 (lit "1F") = Ok l).
  { eexists. vm_compute. reflexivity. }
  destruct Hl as [l Hl].
  exists r0, l. split; [exact Hr|]. split; [vm_compute; reflexivity|].
  split; [exact Hl|].
  apply List.Forall_forall.
  refine (proj2 (proj2 (get_direction_en_suggesties
                          (@avi_resultaat latin1 lijst_boom tekst_boom None)
                          r0 (lit "1F") (lit "ref")) l _ Hl) _).
  - vm_compute. discriminate.
  - vm_compute. discriminate.
Defined.

(** ** The number of propositions for a number of words *)

(** X22: [bereken_aantal_proposities] never gives fewer propositions for
    more words; its value is one of 3, 5, 6, 8, 10 and 12, and it is 3
    exactly below 60 words and 12 exactly from 200 words on, also for a
    negative number. *)
Theorem bereken_aantal_proposities_monotoon (a b : Z) :
  (a <= b)%Z ->
  (bereken_aantal_proposities a <= bereken_aantal_proposities b)%Z
  /\ In (bereken_aantal_proposities a) [3; 5; 6; 8; 10; 12]%Z
  /\ (bereken_aantal_proposities a = 3%Z <-> (a < 60)%Z)
  /\ (bereken_aantal_proposities a = 12%Z <-> (200 <= a)%Z).
Proof.
  intros Hab. unfold bereken_aantal_proposities. cbn [In].
  repeat match goal with
         | |- context [(?x <? ?y)%Z] => destruct (Z.ltb_spec x y)
         end; repeat split; intros; try lia; auto 7.
Qed.

Lemma bereken_aantal_proposities_monotoon_witness :
  (bereken_aantal_proposities 45 <= bereken_aantal_proposities 306)%Z.
Proof.
  apply (bereken_aantal_proposities_monotoon 45 306). lia.
Defined.
